(** * TownRecord: the per-town session controller

    A shallow embedding of [CoveyTownController.ts] (townService).  The
    controller owns mutable [Player] and [ServerConversationArea] objects that
    reference each other; the embedding keeps both kinds of object in a store
    indexed by reference, so that aliasing (a player still pointing at an area
    that was destroyed, an array iterated while the field holding it is
    re-assigned) is visible.  Coordinates and sizes are IEEE doubles, as in
    JavaScript; capacities, which are only compared with lengths and with 0,
    are rationals. *)

From Stdlib Require Import PrimFloat FloatOps.
From Stdlib Require Import QArith.
From stdpp Require Import base option list strings gmap.

Local Close Scope Q_scope.
Local Open Scope string_scope.
Local Open Scope list_scope.

(** ** Data model *)

(** Object references (addresses in the store). *)
Definition ref := nat.

Inductive Direction := Front | Back | Left | Right.

Inductive PlayerPermissions := Normal | Admin.

Inductive ConversationAreaStatus := AvailableToRequest | DoNotDisturb | Public.

Definition PlayerPermissions_eqb (a b : PlayerPermissions) : bool :=
  match a, b with
  | Normal, Normal | Admin, Admin => true
  | _, _ => false
  end.

Definition ConversationAreaStatus_eqb (a b : ConversationAreaStatus) : bool :=
  match a, b with
  | AvailableToRequest, AvailableToRequest
  | DoNotDisturb, DoNotDisturb
  | Public, Public => true
  | _, _ => false
  end.

Module UserLocation.
Record t := mk {
  x : float;
  y : float;
  rotation : Direction;
  moving : bool;
  conversationLabel : option string
}.
(** [{ ...l, conversationLabel: c }] *)
Definition set_conversationLabel (c : option string) (l : t) : t :=
  mk (x l) (y l) (rotation l) (moving l) c.
End UserLocation.

Module BoundingBox.
Record t := mk { x : float; y : float; width : float; height : float }.
End BoundingBox.

Module JoinRequest.
Record t := mk { id : string; playerId : string; conversationLabel : string }.
End JoinRequest.

Module ServerConversationArea.
Record t := mk {
  label : string;
  topic : option string;
  occupantsByID : list string;
  boundingBox : BoundingBox.t;
  status : ConversationAreaStatus;
  maxOccupants : option Q;
  joinRequests : list JoinRequest.t
}.
Definition set_occupantsByID (v : list string) (a : t) : t :=
  mk (label a) (topic a) v (boundingBox a) (status a) (maxOccupants a) (joinRequests a).
Definition set_status (v : ConversationAreaStatus) (a : t) : t :=
  mk (label a) (topic a) (occupantsByID a) (boundingBox a) v (maxOccupants a) (joinRequests a).
Definition set_maxOccupants (v : option Q) (a : t) : t :=
  mk (label a) (topic a) (occupantsByID a) (boundingBox a) (status a) v (joinRequests a).
Definition set_joinRequests (v : list JoinRequest.t) (a : t) : t :=
  mk (label a) (topic a) (occupantsByID a) (boundingBox a) (status a) (maxOccupants a) v.
End ServerConversationArea.

Module Player.
Record t := mk {
  id : string;
  userName : string;
  location : UserLocation.t;
  permissions : PlayerPermissions;
  activeConversationArea : option ref;
  activeJoinRequest : option JoinRequest.t
}.
Definition set_location (v : UserLocation.t) (p : t) : t :=
  mk (id p) (userName p) v (permissions p) (activeConversationArea p) (activeJoinRequest p).
Definition set_permissions (v : PlayerPermissions) (p : t) : t :=
  mk (id p) (userName p) (location p) v (activeConversationArea p) (activeJoinRequest p).
Definition set_activeConversationArea (v : option ref) (p : t) : t :=
  mk (id p) (userName p) (location p) (permissions p) v (activeJoinRequest p).
Definition set_activeJoinRequest (v : option JoinRequest.t) (p : t) : t :=
  mk (id p) (userName p) (location p) (permissions p) (activeConversationArea p) v.
End Player.

Module PlayerSession.
Record t := mk { player : ref; sessionToken : string; videoToken : option string }.
Definition set_videoToken (v : option string) (s : t) : t :=
  mk (player s) (sessionToken s) v.
End PlayerSession.

(** One entry of the [JoinRequestList] that [getJoinRequests] builds. *)
Module JoinRequestListEntry.
Record t := mk {
  id : string;
  playerId : string;
  userName : string;
  conversationLabel : string;
  conversationTopic : option string
}.
End JoinRequestListEntry.

(** The calls made on every registered [CoveyTownListener], in order.  An
    event carries the reference of the object the listener receives. *)
Inductive Event :=
| onPlayerJoined (p : ref)
| onPlayerMoved (p : ref)
| onPlayerDisconnected (p : ref)
| onPlayerPermissionUpdated (p : ref)
| onConversationAreaUpdated (a : ref)
| onConversationAreaDestroyed (a : ref).

#[global] Instance Player_inhabited : Inhabited Player.t :=
  populate (Player.mk "" "" (UserLocation.mk 0 0 Front false None) Normal None None).

#[global] Instance ServerConversationArea_inhabited : Inhabited ServerConversationArea.t :=
  populate (ServerConversationArea.mk "" None [] (BoundingBox.mk 0 0 0 0) Public None []).

(** The controller: its private fields, the object store they point into and
    the trace of listener calls made so far. *)
Record Town := mkTown {
  _coveyTownID : string;
  _players : list ref;
  _sessions : list PlayerSession.t;
  _conversationAreas : list ref;
  playerObjs : gmap ref Player.t;
  nextPlayer : ref;
  areaObjs : gmap ref ServerConversationArea.t;
  nextArea : ref;
  emitted : list Event
}.

(** [new CoveyTownController(...)] *)
Definition newTown (townID : string) : Town :=
  mkTown townID [] [] [] ∅ 0 ∅ 0 [].

(** ** Store access *)

Definition getPlayer (t : Town) (p : ref) : Player.t := playerObjs t !!! p.

Definition getArea (t : Town) (a : ref) : ServerConversationArea.t := areaObjs t !!! a.

Definition modPlayer (p : ref) (f : Player.t → Player.t) (t : Town) : Town :=
  mkTown (_coveyTownID t) (_players t) (_sessions t) (_conversationAreas t)
    (<[p := f (getPlayer t p)]> (playerObjs t)) (nextPlayer t)
    (areaObjs t) (nextArea t) (emitted t).

Definition modArea (a : ref) (f : ServerConversationArea.t → ServerConversationArea.t)
    (t : Town) : Town :=
  mkTown (_coveyTownID t) (_players t) (_sessions t) (_conversationAreas t)
    (playerObjs t) (nextPlayer t)
    (<[a := f (getArea t a)]> (areaObjs t)) (nextArea t) (emitted t).

Definition set_players (v : list ref) (t : Town) : Town :=
  mkTown (_coveyTownID t) v (_sessions t) (_conversationAreas t)
    (playerObjs t) (nextPlayer t) (areaObjs t) (nextArea t) (emitted t).

Definition set_sessions (v : list PlayerSession.t) (t : Town) : Town :=
  mkTown (_coveyTownID t) (_players t) v (_conversationAreas t)
    (playerObjs t) (nextPlayer t) (areaObjs t) (nextArea t) (emitted t).

Definition set_conversationAreas (v : list ref) (t : Town) : Town :=
  mkTown (_coveyTownID t) (_players t) (_sessions t) v
    (playerObjs t) (nextPlayer t) (areaObjs t) (nextArea t) (emitted t).

(** [this._listeners.forEach(listener => listener.e(...))] *)
Definition emit (e : Event) (t : Town) : Town :=
  mkTown (_coveyTownID t) (_players t) (_sessions t) (_conversationAreas t)
    (playerObjs t) (nextPlayer t) (areaObjs t) (nextArea t) (emitted t ++ [e]).

(** A player object built by the caller enters the store. *)
Definition allocPlayer (v : Player.t) (t : Town) : ref * Town :=
  (nextPlayer t,
   mkTown (_coveyTownID t) (_players t) (_sessions t) (_conversationAreas t)
     (<[nextPlayer t := v]> (playerObjs t)) (S (nextPlayer t))
     (areaObjs t) (nextArea t) (emitted t)).

(** A conversation-area object built by the caller enters the store. *)
Definition allocArea (v : ServerConversationArea.t) (t : Town) : ref * Town :=
  (nextArea t,
   mkTown (_coveyTownID t) (_players t) (_sessions t) (_conversationAreas t)
     (playerObjs t) (nextPlayer t)
     (<[nextArea t := v]> (areaObjs t)) (S (nextArea t)) (emitted t)).

(** ** JavaScript helpers *)

(** Truthiness of an optional object. *)
Definition is_Some_b {A} (o : option A) : bool :=
  match o with Some _ => true | None => false end.

(** [a >= b] *)
Definition geq (a b : Q) : bool := Qle_bool b a.

(** [a >= b] on doubles: false when either is NaN *)
Definition geqF (a b : float) : bool := PrimFloat.leb b a.

(** [s || undefined] on an optional string: the empty string is falsy. *)
Definition orUndefined (s : option string) : option string :=
  match s with
  | Some v => if String.eqb v "" then None else Some v
  | None => None
  end.

(** Truthiness of an optional number: [undefined] and [0] are falsy. *)
Definition truthyNumber (n : option Q) : bool :=
  match n with
  | Some q => negb (Qeq_bool q 0)
  | None => false
  end.

(** [Number.isInteger] *)
Definition isInteger (q : Q) : bool := Pos.eqb (Qden (Qred q)) 1.

(** [arr.length] as a number *)
Definition lengthQ {A} (l : list A) : Q := inject_Z (Z.of_nat (length l)).

(** [arr.findIndex(f)]; [None] stands for -1. *)
Fixpoint findIndex {A} (f : A → bool) (l : list A) : option nat :=
  match l with
  | [] => None
  | a :: l' => if f a then Some 0 else S <$> findIndex f l'
  end.

(** [arr.splice(i, 1)]; a start of -1 counts from the end of the array. *)
Definition splice1 {A} (i : option nat) (l : list A) : list A :=
  match i with
  | Some n => delete n l
  | None => removelast l
  end.

(** [this.conversationAreas.find(ca => ca.label === l)] *)
Definition findAreaByLabel (t : Town) (l : string) : option ref :=
  find (λ a, String.eqb (ServerConversationArea.label (getArea t a)) l)
    (_conversationAreas t).

(** [this.players.find(p => p.id === i)] *)
Definition findPlayerById (t : Town) (i : string) : option ref :=
  find (λ p, String.eqb (Player.id (getPlayer t p)) i) (_players t).

(** [requests.filter(request => request.id !== i)] *)
Definition withoutRequest (i : string) (rs : list JoinRequest.t) : list JoinRequest.t :=
  List.filter (λ r, negb (String.eqb (JoinRequest.id r) i)) rs.

(** ** Geometry *)

Module Rect.
Record t := mk { x1 : float; x2 : float; y1 : float; y2 : float }.
End Rect.

(** The helper inside [boxesOverlap]: the corners of a centre+size box. *)
Definition toRectPoints (box : BoundingBox.t) : Rect.t :=
  Rect.mk (BoundingBox.x box - BoundingBox.width box / 2)%float
          (BoundingBox.x box + BoundingBox.width box / 2)%float
          (BoundingBox.y box - BoundingBox.height box / 2)%float
          (BoundingBox.y box + BoundingBox.height box / 2)%float.

Definition boxesOverlap (box1 box2 : BoundingBox.t) : bool :=
  let rect1 := toRectPoints box1 in
  let rect2 := toRectPoints box2 in
  let noOverlap :=
    geqF (Rect.x1 rect1) (Rect.x2 rect2) || geqF (Rect.x1 rect2) (Rect.x2 rect1)
    || geqF (Rect.y1 rect1) (Rect.y2 rect2) || geqF (Rect.y1 rect2) (Rect.y2 rect1) in
  negb noOverlap.

(** Modelled from the spec: [Player.isWithin] of the server's [types/Player.ts],
    which is not among the sources.  The spec speaks of the players "whose
    position falls within the new box"; the position is the player's stored
    location and the box is the area's bounding box, borders excluded. *)
Definition isWithin (p : Player.t) (a : ServerConversationArea.t) : bool :=
  let r := toRectPoints (ServerConversationArea.boundingBox a) in
  let px := UserLocation.x (Player.location p) in
  let py := UserLocation.y (Player.location p) in
  PrimFloat.ltb (Rect.x1 r) px && PrimFloat.ltb px (Rect.x2 r)
  && PrimFloat.ltb (Rect.y1 r) py && PrimFloat.ltb py (Rect.y2 r).

(** ** Join requests *)

Definition removeJoinRequest (joinRequest : JoinRequest.t) (t : Town) : bool * Town :=
  match findAreaByLabel t (JoinRequest.conversationLabel joinRequest),
        findPlayerById t (JoinRequest.playerId joinRequest) with
  | Some conversationArea, Some player =>
      let t := modArea conversationArea
                 (λ a, ServerConversationArea.set_joinRequests
                         (withoutRequest (JoinRequest.id joinRequest)
                            (ServerConversationArea.joinRequests a)) a) t in
      let t := modPlayer player (Player.set_activeJoinRequest None) t in
      let t := emit (onPlayerMoved player) t in
      let t := emit (onConversationAreaUpdated conversationArea) t in
      (true, t)
  | _, _ => (false, t)
  end.

(** [requests.forEach(jq => this.removeJoinRequest(jq))]: the array that is
    walked is the one the field held when [forEach] was called. *)
Definition removeJoinRequests (requests : list JoinRequest.t) (t : Town) : Town :=
  fold_left (λ t jq, (removeJoinRequest jq t).2) requests t.

Definition acceptJoinRequest (joinRequest : JoinRequest.t) (t : Town) : bool * Town :=
  match findAreaByLabel t (JoinRequest.conversationLabel joinRequest),
        findPlayerById t (JoinRequest.playerId joinRequest) with
  | Some conversationArea, Some player =>
      let t := modArea conversationArea
                 (λ a, ServerConversationArea.set_occupantsByID
                         (ServerConversationArea.occupantsByID a
                            ++ [Player.id (getPlayer t player)]) a) t in
      let t := modPlayer player
                 (Player.set_activeConversationArea (Some conversationArea)) t in
      let t := modPlayer player
                 (λ p, Player.set_location
                         (UserLocation.set_conversationLabel
                            (Some (ServerConversationArea.label (getArea t conversationArea)))
                            (Player.location p)) p) t in
      let t := modArea conversationArea
                 (λ a, ServerConversationArea.set_joinRequests
                         (withoutRequest (JoinRequest.id joinRequest)
                            (ServerConversationArea.joinRequests a)) a) t in
      let t := modPlayer player (Player.set_activeJoinRequest None) t in
      let t :=
        match ServerConversationArea.maxOccupants (getArea t conversationArea) with
        | Some m =>
            if Qeq_bool m
                 (lengthQ (ServerConversationArea.occupantsByID (getArea t conversationArea)))
            then removeJoinRequests
                   (ServerConversationArea.joinRequests (getArea t conversationArea)) t
            else t
        | None => t
        end in
      let t := emit (onPlayerMoved player) t in
      let t := emit (onConversationAreaUpdated conversationArea) t in
      (true, t)
  | _, _ => (false, t)
  end.

(** [requests.forEach(joinRequest => this.acceptJoinRequest(joinRequest))] *)
Definition acceptJoinRequests (requests : list JoinRequest.t) (t : Town) : Town :=
  fold_left (λ t jq, (acceptJoinRequest jq t).2) requests t.

(** ** Leaving a conversation area *)

Definition removePlayerFromConversationArea (player conversation : ref) (t : Town) : Town :=
  let pid := Player.id (getPlayer t player) in
  let occupants := ServerConversationArea.occupantsByID (getArea t conversation) in
  (* [find] returns the id itself, so an empty id found is still falsy *)
  let t :=
    match find (String.eqb pid) occupants with
    | Some found =>
        if String.eqb found "" then t
        else modArea conversation
               (ServerConversationArea.set_occupantsByID
                  (splice1 (findIndex (String.eqb pid) occupants) occupants)) t
    | None => t
    end in
  let t :=
    match Player.activeJoinRequest (getPlayer t player) with
    | Some playerJoinRequest =>
        if existsb (λ r, String.eqb (JoinRequest.id r) (JoinRequest.id playerJoinRequest))
             (ServerConversationArea.joinRequests (getArea t conversation))
        then (removeJoinRequest playerJoinRequest t).2
        else t
    | None => t
    end in
  let t :=
    match Player.permissions (getPlayer t player) with
    | Admin =>
        let t := modPlayer player (Player.set_permissions Normal) t in
        let t := emit (onPlayerPermissionUpdated player) t in
        let t := modArea conversation (ServerConversationArea.set_status Public) t in
        acceptJoinRequests (ServerConversationArea.joinRequests (getArea t conversation)) t
    | Normal => t
    end in
  match ServerConversationArea.occupantsByID (getArea t conversation) with
  | [] =>
      let t := set_conversationAreas
                 (splice1 (findIndex (Nat.eqb conversation) (_conversationAreas t))
                    (_conversationAreas t)) t in
      emit (onConversationAreaDestroyed conversation) t
  | _ :: _ => emit (onConversationAreaUpdated conversation) t
  end.

(** ** Joining and leaving the town *)

(** The outcome of an [async] method: the promise resolves to a value or is
    rejected. *)
Inductive Promise (A : Type) := Resolved (a : A) | Rejected.
Arguments Resolved {A} a.
Arguments Rejected {A}.

(** [getTokenForTown] is the call on the video client: [None] is a rejected
    promise.  [sessionToken] is the token drawn by [new PlayerSession].  The
    session object is the last one of [_sessions] when the token arrives:
    this is the call with nothing else running during its [await]; its two
    halves, for when other calls do run, are [addPlayer_begin] and
    [addPlayer_resume] below. *)
Definition addPlayer (getTokenForTown : string → string → option string)
    (newPlayer : Player.t) (sessionToken : string) (t : Town)
    : Promise PlayerSession.t * Town :=
  let '(newPlayerRef, t) := allocPlayer newPlayer t in
  let theSession := PlayerSession.mk newPlayerRef sessionToken None in
  let t := set_sessions (_sessions t ++ [theSession]) t in
  let t := set_players (_players t ++ [newPlayerRef]) t in
  match getTokenForTown (_coveyTownID t) (Player.id (getPlayer t newPlayerRef)) with
  | None => (Rejected, t)
  | Some token =>
      let theSession := PlayerSession.set_videoToken (Some token) theSession in
      let t := set_sessions (<[pred (length (_sessions t)) := theSession]> (_sessions t)) t in
      let t := emit (onPlayerJoined newPlayerRef) t in
      (Resolved theSession, t)
  end.

(** [addPlayer] up to its [await]: the session and the player are pushed.
    One session is made per player object, so the reference of the player
    names the session object too. *)
Definition addPlayer_begin (newPlayer : Player.t) (sessionToken : string) (t : Town)
    : ref * Town :=
  let '(newPlayerRef, t) := allocPlayer newPlayer t in
  let theSession := PlayerSession.mk newPlayerRef sessionToken None in
  let t := set_sessions (_sessions t ++ [theSession]) t in
  (newPlayerRef, set_players (_players t ++ [newPlayerRef]) t).

(** [addPlayer] from the answer of the video client on; [answer] is [None]
    when the promise is rejected.  The write to [theSession.videoToken]
    reaches the session object wherever it stands in [_sessions] by then, and
    nothing of [_sessions] if it has been filtered out; the object itself is
    what the call resolves to. *)
Definition addPlayer_resume (newPlayerRef : ref) (sessionToken : string)
    (answer : option string) (t : Town) : Promise PlayerSession.t * Town :=
  match answer with
  | None => (Rejected, t)
  | Some token =>
      let t := set_sessions
                 (map (λ s, if Nat.eqb (PlayerSession.player s) newPlayerRef
                            then PlayerSession.set_videoToken (Some token) s
                            else s)
                    (_sessions t)) t in
      let t := emit (onPlayerJoined newPlayerRef) t in
      (Resolved (PlayerSession.mk newPlayerRef sessionToken (Some token)), t)
  end.

Definition destroySession (session : PlayerSession.t) (t : Town) : Town :=
  let sp := PlayerSession.player session in
  let t := set_players
             (List.filter (λ p, negb (String.eqb (Player.id (getPlayer t p))
                                                  (Player.id (getPlayer t sp))))
                (_players t)) t in
  let t := set_sessions
             (List.filter (λ s, negb (String.eqb (PlayerSession.sessionToken s)
                                                  (PlayerSession.sessionToken session)))
                (_sessions t)) t in
  let t := emit (onPlayerDisconnected sp) t in
  match Player.activeConversationArea (getPlayer t sp) with
  | Some conversation => removePlayerFromConversationArea sp conversation t
  | None => t
  end.

(** ** Movement *)

(** [this.conversationAreas.find(conv => conv.label === location.conversationLabel)] *)
Definition findAreaByOptLabel (t : Town) (l : option string) : option ref :=
  match l with
  | Some s => findAreaByLabel t s
  | None => None
  end.

(** [a !== b] on optional object references *)
Definition refs_differ (a b : option ref) : bool :=
  match a, b with
  | Some i, Some j => negb (Nat.eqb i j)
  | None, None => false
  | _, _ => true
  end.

Definition updatePlayerLocation (player : ref) (location : UserLocation.t) (t : Town) : Town :=
  let t := modPlayer player (Player.set_location location) t in
  let conversation := findAreaByOptLabel t (UserLocation.conversationLabel location) in
  let keepLabel (t : Town) : Town :=
    modPlayer player
      (λ p, Player.set_location
              (UserLocation.set_conversationLabel
                 (orUndefined (UserLocation.conversationLabel (Player.location p)))
                 location) p) t in
  let isDoNotDisturb :=
    match conversation with
    | Some c => ConversationAreaStatus_eqb (ServerConversationArea.status (getArea t c))
                  DoNotDisturb
    | None => false
    end in
  if isDoNotDisturb then keepLabel t
  else
    let prevConversation := Player.activeConversationArea (getPlayer t player) in
    let t :=
      match conversation with
      | Some c =>
          if ConversationAreaStatus_eqb (ServerConversationArea.status (getArea t c)) Public
          then modPlayer player (Player.set_activeConversationArea conversation)
                 (modPlayer player (Player.set_location location) t)
          else t
      | None =>
          modPlayer player (Player.set_activeConversationArea conversation)
            (modPlayer player (Player.set_location location) t)
      end in
    let t :=
      if refs_differ conversation prevConversation then
        let t :=
          match prevConversation with
          | Some prev => removePlayerFromConversationArea player prev t
          | None => t
          end in
        match conversation with
        | Some c =>
            let t :=
              if ConversationAreaStatus_eqb (ServerConversationArea.status (getArea t c)) Public
              then
                let t := modPlayer player (Player.set_location location) t in
                modArea c
                  (λ a, ServerConversationArea.set_occupantsByID
                          (ServerConversationArea.occupantsByID a
                             ++ [Player.id (getPlayer t player)]) a) t
              else keepLabel t in
            emit (onConversationAreaUpdated c) t
        | None => t
        end
      else t in
    let t :=
      match Player.activeJoinRequest (getPlayer t player) with
      | Some activeJoinRequest =>
          let sameLabel :=
            match conversation with
            | Some c => String.eqb (JoinRequest.conversationLabel activeJoinRequest)
                          (ServerConversationArea.label (getArea t c))
            | None => false
            end in
          if sameLabel then t else (removeJoinRequest activeJoinRequest t).2
      | None => t
      end in
    emit (onPlayerMoved player) t.

(** ** Creating and updating conversation areas *)

(** [_conversationArea] is the object received from the caller; it becomes
    the area itself ([Object.assign] with one argument returns it). *)
Definition addConversationArea (_conversationArea : ServerConversationArea.t) (player : ref)
    (t : Town) : bool * Town :=
  if existsb (λ a, String.eqb (ServerConversationArea.label (getArea t a))
                     (ServerConversationArea.label _conversationArea))
       (_conversationAreas t)
  then (false, t)
  else if match ServerConversationArea.topic _conversationArea with
          | Some s => String.eqb s ""
          | None => false
          end
  then (false, t)
  else if truthyNumber (ServerConversationArea.maxOccupants _conversationArea)
          && match ServerConversationArea.maxOccupants _conversationArea with
             | Some m => Qle_bool m 0
             | None => false
             end
  then (false, t)
  else if existsb (λ a, boxesOverlap (ServerConversationArea.boundingBox (getArea t a))
                          (ServerConversationArea.boundingBox _conversationArea))
            (_conversationAreas t)
  then (false, t)
  else
    let '(newArea, t) := allocArea _conversationArea t in
    let t := set_conversationAreas (_conversationAreas t ++ [newArea]) t in
    let playersInThisConversation :=
      List.filter (λ p, isWithin (getPlayer t p) (getArea t newArea)) (_players t) in
    let t := fold_left
               (λ t p, modPlayer p (Player.set_activeConversationArea (Some newArea)) t)
               playersInThisConversation t in
    let t := modArea newArea
               (ServerConversationArea.set_occupantsByID
                  (map (λ p, Player.id (getPlayer t p)) playersInThisConversation)) t in
    let t :=
      match ServerConversationArea.status (getArea t newArea) with
      | AvailableToRequest =>
          emit (onPlayerPermissionUpdated player)
            (modPlayer player (Player.set_permissions Admin) t)
      | _ => t
      end in
    (true, emit (onConversationAreaUpdated newArea) t).

Definition updateConversationArea (conversationLabel : string) (player : ref)
    (status : option ConversationAreaStatus) (maxOccupants : option Q) (t : Town)
    : bool * Town :=
  match findAreaByLabel t conversationLabel with
  | None => (false, t)
  | Some conversationArea =>
      let activeLabelDiffers :=
        match Player.activeConversationArea (getPlayer t player) with
        | Some c => negb (String.eqb (ServerConversationArea.label (getArea t c))
                            conversationLabel)
        | None => true
        end in
      if activeLabelDiffers
         || negb (existsb (String.eqb (Player.id (getPlayer t player)))
                    (ServerConversationArea.occupantsByID (getArea t conversationArea)))
      then (false, t)
      else if negb (PlayerPermissions_eqb (Player.permissions (getPlayer t player)) Admin)
      then (false, t)
      else if match maxOccupants with
              | Some m =>
                  negb (isInteger m)
                  || negb (geq m (lengthQ (ServerConversationArea.occupantsByID
                                             (getArea t conversationArea))))
              | None => false
              end
      then (false, t)
      else
        let t :=
          match status with
          | Some s => modArea conversationArea (ServerConversationArea.set_status s) t
          | None => t
          end in
        let t := modArea conversationArea
                   (ServerConversationArea.set_maxOccupants maxOccupants) t in
        let area := getArea t conversationArea in
        let full :=
          match ServerConversationArea.maxOccupants area with
          | Some m => Qeq_bool (lengthQ (ServerConversationArea.occupantsByID area)) m
          | None => false
          end in
        let t :=
          match ServerConversationArea.status area with
          | DoNotDisturb => removeJoinRequests (ServerConversationArea.joinRequests area) t
          | AvailableToRequest =>
              if full then removeJoinRequests (ServerConversationArea.joinRequests area) t
              else t
          | Public => t
          end in
        let t :=
          match ServerConversationArea.status (getArea t conversationArea) with
          | Public =>
              emit (onPlayerPermissionUpdated player)
                (modPlayer player (Player.set_permissions Normal) t)
          | _ => t
          end in
        (true, emit (onConversationAreaUpdated conversationArea) t)
  end.

(** ** The join-request workflow *)

(** What a call that contains an [assert] can do: return, or throw an
    [AssertionError]. *)
Inductive Asserted (A : Type) := Returns (a : A) | AssertionError.
Arguments Returns {A} a.
Arguments AssertionError {A}.

(** [joinRequests.map(joinRequest => { ...; assert(reqPlayer); ... })] *)
Fixpoint joinRequestEntries (t : Town) (area : ServerConversationArea.t)
    (requests : list JoinRequest.t) : Asserted (list JoinRequestListEntry.t) :=
  match requests with
  | [] => Returns []
  | joinRequest :: rest =>
      match findPlayerById t (JoinRequest.playerId joinRequest) with
      | None => AssertionError
      | Some reqPlayer =>
          match joinRequestEntries t area rest with
          | AssertionError => AssertionError
          | Returns entries =>
              Returns (JoinRequestListEntry.mk (JoinRequest.id joinRequest)
                         (JoinRequest.playerId joinRequest)
                         (Player.userName (getPlayer t reqPlayer))
                         (ServerConversationArea.label area)
                         (ServerConversationArea.topic area) :: entries)
          end
      end
  end.

(** [None] is the [undefined] result. *)
Definition getJoinRequests (_conversationAreaLabel : string) (player : ref) (t : Town)
    : Asserted (option (list JoinRequestListEntry.t)) :=
  match findAreaByLabel t _conversationAreaLabel with
  | None => Returns None
  | Some conversationArea =>
      if refs_differ (Player.activeConversationArea (getPlayer t player))
           (Some conversationArea)
         || negb (existsb (String.eqb (Player.id (getPlayer t player)))
                    (ServerConversationArea.occupantsByID (getArea t conversationArea)))
      then Returns None
      else if negb (PlayerPermissions_eqb (Player.permissions (getPlayer t player)) Admin)
      then Returns None
      else
        match joinRequestEntries t (getArea t conversationArea)
                (ServerConversationArea.joinRequests (getArea t conversationArea)) with
        | Returns l => Returns (Some l)
        | AssertionError => AssertionError
        end
  end.

(** Whether [joinRequests.some(r => r.id === joinRequest.id)] on the area the
    player is a member of. *)
Definition listedOnActiveArea (t : Town) (player : ref) (joinRequest : JoinRequest.t) : bool :=
  match Player.activeConversationArea (getPlayer t player) with
  | Some conversationArea =>
      existsb (λ r, String.eqb (JoinRequest.id r) (JoinRequest.id joinRequest))
        (ServerConversationArea.joinRequests (getArea t conversationArea))
  | None => false
  end.

Definition updateJoinRequest (player : ref) (decision : bool) (joinRequest : JoinRequest.t)
    (t : Town) : bool * Town :=
  let isAdmin := PlayerPermissions_eqb (Player.permissions (getPlayer t player)) Admin in
  if negb isAdmin
     && (decision || negb (String.eqb (Player.id (getPlayer t player))
                                       (JoinRequest.playerId joinRequest)))
  then (false, t)
  else if isAdmin && negb (listedOnActiveArea t player joinRequest)
  then (false, t)
  else if decision then (true, (acceptJoinRequest joinRequest t).2)
  else (true, (removeJoinRequest joinRequest t).2).

(** [newId] is the id drawn by [nanoid()]. *)
Definition createJoinRequest (_conversationAreaLabel : string) (player : ref)
    (newId : string) (t : Town) : bool * Town :=
  match findAreaByLabel t _conversationAreaLabel with
  | None => (false, t)
  | Some conversationArea =>
      if negb (ConversationAreaStatus_eqb
                 (ServerConversationArea.status (getArea t conversationArea))
                 AvailableToRequest)
      then (false, t)
      else if is_Some_b (Player.activeConversationArea (getPlayer t player))
              || is_Some_b (Player.activeJoinRequest (getPlayer t player))
              || negb (isWithin (getPlayer t player) (getArea t conversationArea))
      then (false, t)
      else
        let newJoinRequest :=
          JoinRequest.mk newId (Player.id (getPlayer t player))
            (ServerConversationArea.label (getArea t conversationArea)) in
        let t := modArea conversationArea
                   (λ a, ServerConversationArea.set_joinRequests
                           (ServerConversationArea.joinRequests a ++ [newJoinRequest]) a) t in
        let t := modPlayer player (Player.set_activeJoinRequest (Some newJoinRequest)) t in
        let t := emit (onConversationAreaUpdated conversationArea) t in
        let area := getArea t conversationArea in
        let t :=
          if truthyNumber (ServerConversationArea.maxOccupants area)
             && match ServerConversationArea.maxOccupants area with
                | Some m => Qeq_bool m (lengthQ (ServerConversationArea.occupantsByID area))
                | None => false
                end
          then (removeJoinRequest newJoinRequest t).2
          else t in
        (true, emit (onConversationAreaUpdated conversationArea) t)
  end.

(** * Reachable states *)

(** The calls a client of the controller can make.  [NewPlayer] is a player
    object that is built but not added to the town (the tests pass such
    objects); the other constructors are the controller's public methods. *)
Inductive Command :=
| NewPlayer (newPlayer : Player.t)
| AddPlayer (getTokenForTown : string → string → option string)
    (newPlayer : Player.t) (sessionToken : string)
| DestroySession (session : PlayerSession.t)
| UpdatePlayerLocation (player : ref) (location : UserLocation.t)
| RemovePlayerFromConversationArea (player conversation : ref)
| AddConversationArea (_conversationArea : ServerConversationArea.t) (player : ref)
| UpdateConversationArea (conversationLabel : string) (player : ref)
    (status : option ConversationAreaStatus) (maxOccupants : option Q)
| UpdateJoinRequest (player : ref) (decision : bool) (joinRequest : JoinRequest.t)
| CreateJoinRequest (_conversationAreaLabel : string) (player : ref) (newId : string)
| AcceptJoinRequest (joinRequest : JoinRequest.t)
| RemoveJoinRequest (joinRequest : JoinRequest.t).

Definition exec (c : Command) (t : Town) : Town :=
  match c with
  | NewPlayer p => (allocPlayer p t).2
  | AddPlayer tok p s => (addPlayer tok p s t).2
  | DestroySession s => destroySession s t
  | UpdatePlayerLocation p l => updatePlayerLocation p l t
  | RemovePlayerFromConversationArea p c => removePlayerFromConversationArea p c t
  | AddConversationArea a p => (addConversationArea a p t).2
  | UpdateConversationArea l p s m => (updateConversationArea l p s m t).2
  | UpdateJoinRequest p d r => (updateJoinRequest p d r t).2
  | CreateJoinRequest l p i => (createJoinRequest l p i t).2
  | AcceptJoinRequest r => (acceptJoinRequest r t).2
  | RemoveJoinRequest r => (removeJoinRequest r t).2
  end.

(** The calls of a list, first to last. *)
Definition run (cs : list Command) (t : Town) : Town := fold_left (λ t c, exec c t) cs t.

(** The states the controller is in between two turns of the event loop:
    those of a new controller after whole calls and halves of joins, in any
    order. *)
Inductive reachable : Town → Prop :=
| reachable_new townID : reachable (newTown townID)
| reachable_exec c t : reachable t → reachable (exec c t)
| reachable_begin newPlayer sessionToken t :
    reachable t → reachable (addPlayer_begin newPlayer sessionToken t).2
| reachable_resume newPlayerRef sessionToken answer t :
    reachable t → reachable (addPlayer_resume newPlayerRef sessionToken answer t).2.

(** * Concrete towns *)

Definition videoUp : string → string → option string := λ _ _, Some "video-token".

Definition videoDown : string → string → option string := λ _ _, None.

(** [new Player(name)] as the handlers and the tests build it: at the origin,
    [Normal], in no area.  The id is the name here. *)
Definition freshPlayer (name : string) : Player.t :=
  Player.mk name name (UserLocation.mk 0 0 Front false None) Normal None None.

(** A 5x5 area around the origin, as in the controller's tests. *)
Definition lounge (status : ConversationAreaStatus) (maxOccupants : option Q)
    : ServerConversationArea.t :=
  ServerConversationArea.mk "lounge" (Some "chat") [] (BoundingBox.mk 0 0 5 5)
    status maxOccupants [].

(** ann (player 0) has joined an empty town. *)
Definition townWithAnn : Town :=
  run [AddPlayer videoUp (freshPlayer "ann") "session-ann"] (newTown "town").

(** ann's lounge has a limit of three. *)
Definition townWithLimit : Town :=
  run [AddPlayer videoUp (freshPlayer "ann") "session-ann";
       AddConversationArea (lounge AvailableToRequest (Some 3%Q)) 0]
    (newTown "town").

(** ann runs the lounge, bob has asked to join it. *)
Definition townWithRequest : Town :=
  run [AddPlayer videoUp (freshPlayer "ann") "session-ann";
       AddConversationArea (lounge AvailableToRequest None) 0;
       AddPlayer videoUp (freshPlayer "bob") "session-bob";
       CreateJoinRequest "lounge" 1 "request-bob"]
    (newTown "town").

Definition bobsRequest : JoinRequest.t := JoinRequest.mk "request-bob" "bob" "lounge".

(** ann has denied bob's request. *)
Definition townAfterDenial : Town :=
  run [UpdateJoinRequest 0 false bobsRequest] townWithRequest.

(** ann has set her lounge to do-not-disturb; bob (player 1) has joined the
    town and is in no area. *)
Definition quietTown : Town :=
  run [AddPlayer videoUp (freshPlayer "ann") "session-ann";
       AddConversationArea (lounge AvailableToRequest None) 0;
       UpdateConversationArea "lounge" 0 (Some DoNotDisturb) None;
       AddPlayer videoUp (freshPlayer "bob") "session-bob"]
    (newTown "town").

(** bob asked to join ann's lounge and then disconnected. *)
Definition townAfterBobLeft : Town :=
  run [AddPlayer videoUp (freshPlayer "ann") "session-ann";
       AddConversationArea (lounge AvailableToRequest None) 0;
       AddPlayer videoUp (freshPlayer "bob") "session-bob";
       CreateJoinRequest "lounge" 1 "request-bob";
       DestroySession (PlayerSession.mk 1 "session-bob" (Some "video-token"))]
    (newTown "town").

(** ann runs a lounge for two; bob, cat and dan have asked to join. *)
Definition townWithThreeRequests : Town :=
  run [AddPlayer videoUp (freshPlayer "ann") "session-ann";
       AddConversationArea (lounge AvailableToRequest (Some 2%Q)) 0;
       AddPlayer videoUp (freshPlayer "bob") "session-bob";
       AddPlayer videoUp (freshPlayer "cat") "session-cat";
       AddPlayer videoUp (freshPlayer "dan") "session-dan";
       CreateJoinRequest "lounge" 1 "request-bob";
       CreateJoinRequest "lounge" 2 "request-cat";
       CreateJoinRequest "lounge" 3 "request-dan"]
    (newTown "town").

(** ann and bob stand at the origin; no area yet. *)
Definition townWithAnnAndBob : Town :=
  run [AddPlayer videoUp (freshPlayer "ann") "session-ann";
       AddPlayer videoUp (freshPlayer "bob") "session-bob"]
    (newTown "town").

(** ann's lounge and, sharing its right edge, a kitchen. *)
Definition townWithTwoRooms : Town :=
  run [AddPlayer videoUp (freshPlayer "ann") "session-ann";
       AddConversationArea (lounge Public None) 0;
       AddConversationArea
         (ServerConversationArea.mk "kitchen" (Some "tea") [] (BoundingBox.mk 5 0 5 5)
            Public None []) 0]
    (newTown "town").

(** ann opened her lounge to everyone while bob's request was pending; bob
    walked in, keeping his request, and became [Admin] by creating a kitchen
    elsewhere. *)
Definition townWithBobInside : Town :=
  run [AddPlayer videoUp (freshPlayer "ann") "session-ann";
       AddConversationArea (lounge AvailableToRequest None) 0;
       AddPlayer videoUp (freshPlayer "bob") "session-bob";
       CreateJoinRequest "lounge" 1 "request-bob";
       UpdateConversationArea "lounge" 0 (Some Public) None;
       UpdatePlayerLocation 1 (UserLocation.mk 0 0 Front false (Some "lounge"));
       AddConversationArea
         (ServerConversationArea.mk "kitchen" (Some "tea") [] (BoundingBox.mk 20 0 5 5)
            AvailableToRequest None []) 1]
    (newTown "town").

(** bob was accepted into ann's lounge and then reported the label of cat's
    den, which is open on request only: he was taken out of the lounge's
    occupants while his [activeConversationArea] stayed the lounge.  He
    became [Admin] by creating a nook elsewhere; dan is waiting at the lounge. *)
Definition townWithStaleMember : Town :=
  run [AddPlayer videoUp (freshPlayer "ann") "session-ann";
       AddConversationArea (lounge AvailableToRequest None) 0;
       AddPlayer videoUp (freshPlayer "bob") "session-bob";
       CreateJoinRequest "lounge" 1 "request-bob";
       UpdateJoinRequest 0 true bobsRequest;
       AddPlayer videoUp
         (Player.mk "cat" "cat" (UserLocation.mk 20 0 Front false None) Normal None None)
         "session-cat";
       AddConversationArea
         (ServerConversationArea.mk "den" (Some "books") [] (BoundingBox.mk 20 0 5 5)
            AvailableToRequest None []) 2;
       UpdatePlayerLocation 1 (UserLocation.mk 0 0 Front false (Some "den"));
       AddConversationArea
         (ServerConversationArea.mk "nook" (Some "tea") [] (BoundingBox.mk 40 0 5 5)
            AvailableToRequest None []) 1;
       AddPlayer videoUp (freshPlayer "dan") "session-dan";
       CreateJoinRequest "lounge" 3 "request-dan"]
    (newTown "town").

(** cat runs the den, where dan has asked to join.  ann, whose lounge has
    closed, then reported a position without label: she was taken out of the
    lounge once more, and the den, last of the active areas, went off the
    list with cat inside and dan waiting. *)
Definition townWithDroppedDen : Town :=
  run [AddPlayer videoUp (freshPlayer "ann") "session-ann";
       AddConversationArea (lounge AvailableToRequest None) 0;
       AddPlayer videoUp
         (Player.mk "cat" "cat" (UserLocation.mk 20 0 Front false None) Normal None None)
         "session-cat";
       AddConversationArea
         (ServerConversationArea.mk "den" (Some "books") [] (BoundingBox.mk 20 0 5 5)
            AvailableToRequest None []) 1;
       AddPlayer videoUp
         (Player.mk "dan" "dan" (UserLocation.mk 20 0 Front false None) Normal None None)
         "session-dan";
       CreateJoinRequest "den" 2 "request-dan";
       UpdatePlayerLocation 0 (UserLocation.mk 0 0 Front false (Some "den"));
       UpdatePlayerLocation 0 (UserLocation.mk 0 0 Front false None)]
    (newTown "town").

(** ann's lounge was created from a request body that already listed a
    request of bob, addressed to a den. *)
Definition townWithForeignRequest : Town :=
  run [AddPlayer videoUp (freshPlayer "ann") "session-ann";
       AddPlayer videoUp
         (Player.mk "bob" "bob" (UserLocation.mk 30 30 Front false None) Normal None None)
         "session-bob";
       AddConversationArea
         (ServerConversationArea.mk "lounge" (Some "chat") [] (BoundingBox.mk 0 0 5 5)
            AvailableToRequest None [JoinRequest.mk "request-bob" "bob" "den"]) 0]
    (newTown "town").

(** ann runs the lounge, where bob has asked to join; cat runs the den and
    has set it to do-not-disturb; eve has joined the town. *)
Definition townWithQuietDen : Town :=
  run [AddPlayer videoUp (freshPlayer "ann") "session-ann";
       AddConversationArea (lounge AvailableToRequest None) 0;
       AddPlayer videoUp (freshPlayer "bob") "session-bob";
       CreateJoinRequest "lounge" 1 "request-bob";
       AddPlayer videoUp
         (Player.mk "cat" "cat" (UserLocation.mk 20 0 Front false None) Normal None None)
         "session-cat";
       AddConversationArea
         (ServerConversationArea.mk "den" (Some "books") [] (BoundingBox.mk 20 0 5 5)
            AvailableToRequest None []) 2;
       UpdateConversationArea "den" 2 (Some DoNotDisturb) None;
       AddPlayer videoUp (freshPlayer "eve") "session-eve"]
    (newTown "town").

(** * Statements of the specification *)

(** What the specification asks of a join whose credential call fails. *)
Definition join_leaves_no_trace (getTokenForTown : string → string → option string)
    (newPlayer : Player.t) (sessionToken : string) (t : Town) : Prop :=
  getTokenForTown (_coveyTownID t) (Player.id newPlayer) = None →
  let r := addPlayer getTokenForTown newPlayer sessionToken t in
  r.1 = Rejected ∧ _players r.2 = _players t ∧ _sessions r.2 = _sessions t.

(** Whether some active area lists a request with this id. *)
Definition isPending (joinRequest : JoinRequest.t) (t : Town) : bool :=
  existsb (λ a, existsb (λ r, String.eqb (JoinRequest.id r) (JoinRequest.id joinRequest))
                  (ServerConversationArea.joinRequests (getArea t a)))
    (_conversationAreas t).

(** What the specification asks of a denial of a request that is gone. *)
Definition denial_of_absent_request_fails (joinRequest : JoinRequest.t) (t : Town) : Prop :=
  isPending joinRequest t = false → (removeJoinRequest joinRequest t).1 = false.

(** The request is on the pending list of the area the player is a member of
    (requests are identified by their id). *)
Definition listedForPlayer (t : Town) (player : ref) (joinRequest : JoinRequest.t) : Prop :=
  ∃ c r, Player.activeConversationArea (getPlayer t player) = Some c
         ∧ r ∈ ServerConversationArea.joinRequests (getArea t c)
         ∧ JoinRequest.id r = JoinRequest.id joinRequest.

(** What the specification asks when an admin is taken out of an area: the
    requester of every request pending at the start is an occupant and a
    member afterwards. *)
Definition admin_leaving_accepts_all (player conversation : ref) (t : Town) : Prop :=
  Player.permissions (getPlayer t player) = Admin →
  let u := removePlayerFromConversationArea player conversation t in
  Player.permissions (getPlayer u player) = Normal
  ∧ ServerConversationArea.status (getArea u conversation) = Public
  ∧ ∀ r, r ∈ ServerConversationArea.joinRequests (getArea t conversation) →
         JoinRequest.playerId r ∈ ServerConversationArea.occupantsByID (getArea u conversation)
         ∧ ∀ q, findPlayerById t (JoinRequest.playerId r) = Some q →
                Player.activeConversationArea (getPlayer u q) = Some conversation.

(** The same of the requests other than the player's own whose requester is
    a player of the town, with nothing supposed of the area. *)
Definition admin_leaving_accepts_others (player conversation : ref) (t : Town) : Prop :=
  Player.permissions (getPlayer t player) = Admin →
  let u := removePlayerFromConversationArea player conversation t in
  ∀ r q, r ∈ ServerConversationArea.joinRequests (getArea t conversation) →
         (∀ own, Player.activeJoinRequest (getPlayer t player) = Some own →
                 JoinRequest.id r ≠ JoinRequest.id own) →
         findPlayerById t (JoinRequest.playerId r) = Some q →
         JoinRequest.playerId r ∈ ServerConversationArea.occupantsByID (getArea u conversation)
         ∧ Player.activeConversationArea (getPlayer u q) = Some conversation.

(** * Stages of the two cascading methods *)

(** The writes of a successful [acceptJoinRequest], up to the check for a
    full area. *)
Definition letIn (c q : ref) (joinRequest : JoinRequest.t) (t : Town) : Town :=
  let t := modArea c
             (λ a, ServerConversationArea.set_occupantsByID
                     (ServerConversationArea.occupantsByID a ++ [Player.id (getPlayer t q)]) a) t in
  let t := modPlayer q (Player.set_activeConversationArea (Some c)) t in
  let t := modPlayer q
             (λ p, Player.set_location
                     (UserLocation.set_conversationLabel
                        (Some (ServerConversationArea.label (getArea t c)))
                        (Player.location p)) p) t in
  let t := modArea c
             (λ a, ServerConversationArea.set_joinRequests
                     (withoutRequest (JoinRequest.id joinRequest)
                        (ServerConversationArea.joinRequests a)) a) t in
  modPlayer q (Player.set_activeJoinRequest None) t.

(** The check for a full area at the end of [acceptJoinRequest]. *)
Definition denyAllIfFull (c : ref) (t : Town) : Town :=
  match ServerConversationArea.maxOccupants (getArea t c) with
  | Some m =>
      if Qeq_bool m (lengthQ (ServerConversationArea.occupantsByID (getArea t c)))
      then removeJoinRequests (ServerConversationArea.joinRequests (getArea t c)) t
      else t
  | None => t
  end.

(** The four stages of [removePlayerFromConversationArea]. *)
Definition leaveOccupants (player conversation : ref) (t : Town) : Town :=
  let pid := Player.id (getPlayer t player) in
  let occupants := ServerConversationArea.occupantsByID (getArea t conversation) in
  match find (String.eqb pid) occupants with
  | Some found =>
      if String.eqb found "" then t
      else modArea conversation
             (ServerConversationArea.set_occupantsByID
                (splice1 (findIndex (String.eqb pid) occupants) occupants)) t
  | None => t
  end.

Definition withdrawOwnRequest (player conversation : ref) (t : Town) : Town :=
  match Player.activeJoinRequest (getPlayer t player) with
  | Some playerJoinRequest =>
      if existsb (λ r, String.eqb (JoinRequest.id r) (JoinRequest.id playerJoinRequest))
           (ServerConversationArea.joinRequests (getArea t conversation))
      then (removeJoinRequest playerJoinRequest t).2
      else t
  | None => t
  end.

Definition reopen (player conversation : ref) (t : Town) : Town :=
  match Player.permissions (getPlayer t player) with
  | Admin =>
      let t := modPlayer player (Player.set_permissions Normal) t in
      let t := emit (onPlayerPermissionUpdated player) t in
      let t := modArea conversation (ServerConversationArea.set_status Public) t in
      acceptJoinRequests (ServerConversationArea.joinRequests (getArea t conversation)) t
  | Normal => t
  end.

Definition closeIfEmpty (conversation : ref) (t : Town) : Town :=
  match ServerConversationArea.occupantsByID (getArea t conversation) with
  | [] =>
      let t := set_conversationAreas
                 (splice1 (findIndex (Nat.eqb conversation) (_conversationAreas t))
                    (_conversationAreas t)) t in
      emit (onConversationAreaDestroyed conversation) t
  | _ :: _ => emit (onConversationAreaUpdated conversation) t
  end.

(** The state in which [addConversationArea] has stored and listed the new
    area, before it looks for the players inside. *)
Definition withNewArea (area : ServerConversationArea.t) (t : Town) : Town :=
  set_conversationAreas (_conversationAreas t ++ [nextArea t]) (allocArea area t).2.

(** * Relations between states *)

(** From [t] to [u] nothing changed but pending lists of areas,
    [activeJoinRequest] fields of players, and the events emitted. *)
Record requests_only (t u : Town) : Prop := {
  ro_areas : _conversationAreas u = _conversationAreas t;
  ro_players : _players u = _players t;
  ro_sessions : _sessions u = _sessions t;
  ro_nextArea : nextArea u = nextArea t;
  ro_nextPlayer : nextPlayer u = nextPlayer t;
  ro_area : ∀ a, ServerConversationArea.set_joinRequests [] (getArea u a)
                 = ServerConversationArea.set_joinRequests [] (getArea t a);
  ro_player : ∀ p, Player.set_activeJoinRequest None (getPlayer u p)
                   = Player.set_activeJoinRequest None (getPlayer t p);
  ro_emitted : emitted t `prefix_of` emitted u
}.

(** From [t] to [u] the list of areas and their labels are the same, and the
    area [c] has capacity [m]. *)
Definition keeps_capacity (t : Town) (c : ref) (m : option Q) (u : Town) : Prop :=
  _conversationAreas u = _conversationAreas t
  ∧ (∀ a, ServerConversationArea.label (getArea u a)
          = ServerConversationArea.label (getArea t a))
  ∧ ServerConversationArea.maxOccupants (getArea u c) = m.

(** From [t] to [u], as far as the area [c] is concerned: the lists of areas
    and of players, labels, statuses, ids and permissions are the same;
    occupants of [c] and members of [c] remain so; events were only added. *)
Record grows (c : ref) (t u : Town) : Prop := {
  gr_areas : _conversationAreas u = _conversationAreas t;
  gr_players : _players u = _players t;
  gr_label : ∀ a, ServerConversationArea.label (getArea u a)
                  = ServerConversationArea.label (getArea t a);
  gr_status : ∀ a, ServerConversationArea.status (getArea u a)
                   = ServerConversationArea.status (getArea t a);
  gr_id : ∀ p, Player.id (getPlayer u p) = Player.id (getPlayer t p);
  gr_permissions : ∀ p, Player.permissions (getPlayer u p)
                        = Player.permissions (getPlayer t p);
  gr_occupants : ∀ i, i ∈ ServerConversationArea.occupantsByID (getArea t c) →
                      i ∈ ServerConversationArea.occupantsByID (getArea u c);
  gr_member : ∀ p, Player.activeConversationArea (getPlayer t p) = Some c →
                   Player.activeConversationArea (getPlayer u p) = Some c;
  gr_emitted : emitted t `prefix_of` emitted u
}.

(** The separation of two boxes as [boxesOverlap] finds it: one of
    [rect1.x1 >= rect2.x2], [rect2.x1 >= rect1.x2], [rect1.y1 >= rect2.y2],
    [rect2.y1 >= rect1.y2] holds of the corners the code computes. *)
Definition separated (box1 box2 : BoundingBox.t) : Prop :=
  let rect1 := toRectPoints box1 in
  let rect2 := toRectPoints box2 in
  geqF (Rect.x1 rect1) (Rect.x2 rect2) = true ∨ geqF (Rect.x1 rect2) (Rect.x2 rect1) = true
  ∨ geqF (Rect.y1 rect1) (Rect.y2 rect2) = true ∨ geqF (Rect.y1 rect2) (Rect.y2 rect1) = true.

Definition boxOf (t : Town) (a : ref) : BoundingBox.t :=
  ServerConversationArea.boundingBox (getArea t a).

Definition labelOf (t : Town) (a : ref) : string :=
  ServerConversationArea.label (getArea t a).

(** Every element of the list is related to the ones after it. *)
Fixpoint pairwise {A} (R : A → A → Prop) (l : list A) : Prop :=
  match l with
  | [] => True
  | a :: rest => Forall (R a) rest ∧ pairwise R rest
  end.

(** From [t] to [u] no area was created, active areas were at most removed,
    and no bounding box and no label changed. *)
Record frame (t u : Town) : Prop := {
  frame_nextArea : nextArea u = nextArea t;
  frame_areas : _conversationAreas u `sublist_of` _conversationAreas t;
  frame_box : ∀ a, boxOf u a = boxOf t a;
  frame_label : ∀ a, labelOf u a = labelOf t a
}.

(** The invariant: active areas are allocated objects, clear of each other,
    with labels of their own. *)
Record areasInvariant (t : Town) : Prop := {
  inv_allocated : Forall (λ a, a < nextArea t) (_conversationAreas t);
  inv_apart : pairwise (λ a b, boxesOverlap (boxOf t a) (boxOf t b) = false)
                (_conversationAreas t);
  inv_labels : pairwise (λ a b, labelOf t a ≠ labelOf t b) (_conversationAreas t)
}.

(** * More of the controller *)

(** [this._sessions.find(p => p.sessionToken === token)] *)
Definition getSessionByToken (token : string) (t : Town) : option PlayerSession.t :=
  find (λ p, String.eqb (PlayerSession.sessionToken p) token) (_sessions t).

(** ** Joining, with the calls that run during the [await] *)

(** What can run between the two halves of a join: whole calls, and the
    halves of other joins. *)
Inductive Step :=
| Call (c : Command)
| BeginJoin (newPlayer : Player.t) (sessionToken : string)
| ResumeJoin (newPlayerRef : ref) (sessionToken : string) (answer : option string).

Definition step (s : Step) (t : Town) : Town :=
  match s with
  | Call c => exec c t
  | BeginJoin newPlayer sessionToken => (addPlayer_begin newPlayer sessionToken t).2
  | ResumeJoin p sessionToken answer => (addPlayer_resume p sessionToken answer t).2
  end.

Definition runSteps (steps : list Step) (t : Town) : Town :=
  fold_left (λ t s, step s t) steps t.

(** The step does not destroy a session of this token. *)
Definition undisturbed (sessionToken : string) (s : Step) : Prop :=
  match s with
  | Call (DestroySession session) => PlayerSession.sessionToken session ≠ sessionToken
  | _ => True
  end.

(** The session found under the token is the one of this player. *)
Definition joining (p : ref) (sessionToken : string) (t : Town) : Prop :=
  ∃ videoToken,
    getSessionByToken sessionToken t = Some (PlayerSession.mk p sessionToken videoToken).

(** A location without its conversation label: where the player stands. *)
Definition position (l : UserLocation.t) : UserLocation.t :=
  UserLocation.set_conversationLabel None l.

(** What leaving an area and the cascades it starts keep of an area. *)
Definition areaFrame (a : ServerConversationArea.t)
    : string * option string * BoundingBox.t * option Q :=
  (ServerConversationArea.label a, ServerConversationArea.topic a,
   ServerConversationArea.boundingBox a, ServerConversationArea.maxOccupants a).

(** What leaving an area and the cascades it starts keep of a player. *)
Definition playerFrame (p : Player.t) : string * string * UserLocation.t :=
  (Player.id p, Player.userName p, position (Player.location p)).

(** From [t] to [u] players kept their identity and their position, the lists
    of players and sessions are the same, areas were at most closed or opened
    to the public, and events were only added. *)
Record departed (t u : Town) : Prop := {
  dp_players : _players u = _players t;
  dp_sessions : _sessions u = _sessions t;
  dp_areas : _conversationAreas u `sublist_of` _conversationAreas t;
  dp_area : ∀ a, areaFrame (getArea u a) = areaFrame (getArea t a)
                 ∧ (ServerConversationArea.status (getArea u a)
                    = ServerConversationArea.status (getArea t a)
                    ∨ ServerConversationArea.status (getArea u a) = Public);
  dp_player : ∀ p, playerFrame (getPlayer u p) = playerFrame (getPlayer t p);
  dp_emitted : emitted t `prefix_of` emitted u
}.

(** The player [p] stands where [l] says. *)
Definition standsAt (p : ref) (l : UserLocation.t) (u : Town) : Prop :=
  position (Player.location (getPlayer u p)) = position l.

(** ann ran the lounge and cat runs the den, both open on request.  ann
    reported the den's label from where she stood: she was taken out of the
    lounge, which closed, and her [activeConversationArea] is still the
    lounge. *)
Definition townWithClosedLounge : Town :=
  run [AddPlayer videoUp (freshPlayer "ann") "session-ann";
       AddConversationArea (lounge AvailableToRequest None) 0;
       AddPlayer videoUp
         (Player.mk "cat" "cat" (UserLocation.mk 20 0 Front false None) Normal None None)
         "session-cat";
       AddConversationArea
         (ServerConversationArea.mk "den" (Some "books") [] (BoundingBox.mk 20 0 5 5)
            AvailableToRequest None []) 1;
       UpdatePlayerLocation 0 (UserLocation.mk 0 0 Front false (Some "den"))]
    (newTown "town").

(** * The request handlers *)

(** [ResponseEnvelope<T>]; [response] is the object sent back, [message] is
    [None] where the handler leaves it [undefined]. *)
Module ResponseEnvelope.
Record t (A : Type) := mk { isOK : bool; message : option string; response : A }.
Arguments mk {A} isOK message response.
Arguments isOK {A} _.
Arguments message {A} _.
Arguments response {A} _.
End ResponseEnvelope.

(** [townController?.getSessionByToken(sessionToken)?.player], where
    [townController] is what [getControllerForTown] gave for the town id of
    the request: [None] when the store has no such town. *)
Definition sessionPlayer (townController : option Town) (sessionToken : string) : option ref :=
  match townController with
  | Some t => PlayerSession.player <$> getSessionByToken sessionToken t
  | None => None
  end.

(** A handler returns its envelope; the second component is the controller
    of the town after the call.  The response of these handlers is the empty
    object. *)
Definition conversationAreaCreateHandler (townController : option Town)
    (sessionToken : string) (conversationArea : ServerConversationArea.t)
    : ResponseEnvelope.t unit * option Town :=
  let message :=
    String.append "Unable to create conversation area "
      (String.append (ServerConversationArea.label conversationArea)
         (String.append " with topic "
            (default "undefined" (ServerConversationArea.topic conversationArea)))) in
  match townController, sessionPlayer townController sessionToken with
  | Some t, Some player =>
      let '(success, t) := addConversationArea conversationArea player t in
      (ResponseEnvelope.mk success (if success then None else Some message) tt, Some t)
  | _, _ => (ResponseEnvelope.mk false (Some message) tt, townController)
  end.

Definition conversationAreaUpdateHandler (townController : option Town)
    (sessionToken conversationLabel : string) (status : option ConversationAreaStatus)
    (maxOccupants : option Q) : ResponseEnvelope.t unit * option Town :=
  let message := String.append "Unable to update conversation area " conversationLabel in
  match townController, sessionPlayer townController sessionToken with
  | Some t, Some player =>
      let '(success, t) :=
        updateConversationArea conversationLabel player status maxOccupants t in
      (ResponseEnvelope.mk success (if success then None else Some message) tt, Some t)
  | _, _ => (ResponseEnvelope.mk false (Some message) tt, townController)
  end.

(** [response] is [None] for the empty object and the list for
    [{ joinRequests }]; an empty list is truthy and is sent. *)
Definition joinRequestListHandler (townController : option Town)
    (sessionToken conversationAreaLabel : string)
    : Asserted (ResponseEnvelope.t (option (list JoinRequestListEntry.t))) :=
  let refusal :=
    ResponseEnvelope.mk false
      (Some (String.append "Unable to get join requests for " conversationAreaLabel)) None in
  match townController, sessionPlayer townController sessionToken with
  | Some t, Some player =>
      match getJoinRequests conversationAreaLabel player t with
      | AssertionError => AssertionError
      | Returns None => Returns refusal
      | Returns (Some joinRequests) =>
          Returns (ResponseEnvelope.mk true None (Some joinRequests))
      end
  | _, _ => Returns refusal
  end.

(** [newId] is the id [createJoinRequest] draws. *)
Definition joinRequestCreateHandler (townController : option Town)
    (sessionToken conversationAreaLabel newId : string)
    : ResponseEnvelope.t unit * option Town :=
  let message (userName : string) :=
    String.append "Unable to create join requests for "
      (String.append conversationAreaLabel (String.append " for " userName)) in
  match townController, sessionPlayer townController sessionToken with
  | Some t, Some player =>
      let userName := Player.userName (getPlayer t player) in
      let '(success, t) := createJoinRequest conversationAreaLabel player newId t in
      (ResponseEnvelope.mk success (if success then None else Some (message userName)) tt,
       Some t)
  | _, _ => (ResponseEnvelope.mk false (Some (message "undefined")) tt, townController)
  end.

(** [playerText] is the text a player object has in a template string,
    which is for the [Player] class to say. *)
Definition joinRequestUpdateHandler (playerText : Player.t → string)
    (townController : option Town) (sessionToken : string) (adminDecision : bool)
    (joinRequest : JoinRequest.t) : ResponseEnvelope.t unit * option Town :=
  let message (player : string) := String.append "Unable to create admin response for " player in
  match townController, sessionPlayer townController sessionToken with
  | Some t, Some player =>
      let '(success, t) := updateJoinRequest player adminDecision joinRequest t in
      (ResponseEnvelope.mk success
         (if success then None else Some (message (playerText (getPlayer t player)))) tt,
       Some t)
  | _, _ => (ResponseEnvelope.mk false (Some (message "undefined")) tt, townController)
  end.

(** * The client's conversation area

    The class [ConversationArea] of the frontend.  Its listeners are objects
    with optional callbacks; they are named by numbers here, and [told] lists
    the calls [listener.onXChange?.(value)] that were evaluated, oldest
    first.  The accessor [limit] is left out: its text depends on how numbers
    print, and its setter assigns to itself. *)
Module ConversationArea.

Inductive Notice :=
| onTopicChange (newTopic : option string)
| onOccupantsChange (newOccupants : list string)
| onStatusChange (newStatus : ConversationAreaStatus)
| onJoinRequestChange (newJoinRequests : list JoinRequest.t).

Record t := mk {
  _occupants : list string;
  _label : string;
  _topic : option string;
  _boundingBox : BoundingBox.t;
  _status : ConversationAreaStatus;
  _maxOccupants : option Q;
  _joinRequests : list JoinRequest.t;
  _listeners : list nat;
  told : list (nat * Notice)
}.

(** [this._listeners.forEach(listener => listener.onXChange?.(value))] *)
Definition tell (n : Notice) (a : t) : t :=
  mk (_occupants a) (_label a) (_topic a) (_boundingBox a) (_status a) (_maxOccupants a)
    (_joinRequests a) (_listeners a) (told a ++ map (λ l, (l, n)) (_listeners a)).

Definition constructor (label : string) (boundingBox : BoundingBox.t) (topic : option string)
    (status : option ConversationAreaStatus) (maxOccupants : option Q) : t :=
  mk [] label topic boundingBox
    (match status with Some s => s | None => Public end) maxOccupants [] [] [].

Definition label (a : t) : string := _label a.

Definition set_occupants (newOccupants : list string) (a : t) : t :=
  if negb (Nat.eqb (length newOccupants) (length (_occupants a)))
     || negb (forallb (λ oldOccupant, existsb (String.eqb oldOccupant) newOccupants)
                (_occupants a))
  then
    let a := tell (onOccupantsChange newOccupants) a in
    mk newOccupants (_label a) (_topic a) (_boundingBox a) (_status a) (_maxOccupants a)
      (_joinRequests a) (_listeners a) (told a)
  else a.

Definition occupants (a : t) : list string := _occupants a.

Definition status (a : t) : ConversationAreaStatus := _status a.

Definition set_status (newStatus : ConversationAreaStatus) (a : t) : t :=
  if negb (ConversationAreaStatus_eqb (_status a) newStatus)
  then
    tell (onStatusChange newStatus)
      (mk (_occupants a) (_label a) (_topic a) (_boundingBox a) newStatus (_maxOccupants a)
         (_joinRequests a) (_listeners a) (told a))
  else a.

Definition set_topic (newTopic : option string) (a : t) : t :=
  let a :=
    if match _topic a, newTopic with
       | Some s, Some s' => negb (String.eqb s s')
       | None, None => false
       | _, _ => true
       end
    then tell (onTopicChange newTopic) a
    else a in
  mk (_occupants a) (_label a) newTopic (_boundingBox a) (_status a) (_maxOccupants a)
    (_joinRequests a) (_listeners a) (told a).

(** [this._topic || '(No topic)'] *)
Definition topic (a : t) : string :=
  match orUndefined (_topic a) with
  | Some s => s
  | None => "(No topic)"
  end.

Definition set_maxOccupants (newMaxOccupants : option Q) (a : t) : t :=
  mk (_occupants a) (_label a) (_topic a) (_boundingBox a) (_status a) newMaxOccupants
    (_joinRequests a) (_listeners a) (told a).

Definition maxOccupants (a : t) : option Q := _maxOccupants a.

Definition set_joinRequests (newJoinRequests : list JoinRequest.t) (a : t) : t :=
  if negb (Nat.eqb (length newJoinRequests) (length (_joinRequests a)))
     || negb (forallb
                (λ oldJoinRequest,
                   existsb (λ newJoinRequest,
                              String.eqb (JoinRequest.id newJoinRequest)
                                (JoinRequest.id oldJoinRequest))
                     newJoinRequests)
                (_joinRequests a))
  then
    let a := tell (onJoinRequestChange newJoinRequests) a in
    mk (_occupants a) (_label a) (_topic a) (_boundingBox a) (_status a) (_maxOccupants a)
      newJoinRequests (_listeners a) (told a)
  else a.

Definition joinRequests (a : t) : list JoinRequest.t := _joinRequests a.

Definition isEmpty (a : t) : bool :=
  match _topic a with Some _ => false | None => true end.

Definition getBoundingBox (a : t) : BoundingBox.t := _boundingBox a.

Definition toServerConversationArea (a : t) : ServerConversationArea.t :=
  ServerConversationArea.mk (label a) (Some (topic a)) (occupants a) (getBoundingBox a)
    (status a) (maxOccupants a) (joinRequests a).

Definition addListener (listener : nat) (a : t) : t :=
  mk (_occupants a) (_label a) (_topic a) (_boundingBox a) (_status a) (_maxOccupants a)
    (_joinRequests a) (_listeners a ++ [listener]) (told a).

Definition removeListener (listener : nat) (a : t) : t :=
  mk (_occupants a) (_label a) (_topic a) (_boundingBox a) (_status a) (_maxOccupants a)
    (_joinRequests a)
    (List.filter (λ eachListener, negb (Nat.eqb eachListener listener)) (_listeners a))
    (told a).

Definition fromServerConversationArea (serverArea : ServerConversationArea.t) : t :=
  let ret :=
    constructor (ServerConversationArea.label serverArea)
      (ServerConversationArea.boundingBox serverArea)
      (ServerConversationArea.topic serverArea)
      (Some (ServerConversationArea.status serverArea))
      (ServerConversationArea.maxOccupants serverArea) in
  let ret := set_occupants (ServerConversationArea.occupantsByID serverArea) ret in
  set_joinRequests (ServerConversationArea.joinRequests serverArea) ret.

End ConversationArea.

(** * The numbers behind the doubles *)

(** The number a finite double stands for; [None] for NaN and the
    infinities. *)
Definition valueOf (f : float) : option Q :=
  match Prim2SF f with
  | SpecFloat.S754_zero _ => Some 0%Q
  | SpecFloat.S754_finite s m e =>
      Some (inject_Z (if s then Z.neg m else Z.pos m) * 2 ^ e)%Q
  | _ => None
  end.

(** The overlap of the specification taken on the numbers themselves: the
    boxes are turned into the rectangles [x ± width/2] × [y ± height/2]
    without rounding, and overlap when none of [rect1.x1 >= rect2.x2],
    [rect2.x1 >= rect1.x2], [rect1.y1 >= rect2.y2], [rect2.y1 >= rect1.y2]
    holds. *)
Definition overlapOfNumbers (box1 box2 : BoundingBox.t) : option bool :=
  x1 ← valueOf (BoundingBox.x box1); y1 ← valueOf (BoundingBox.y box1);
  w1 ← valueOf (BoundingBox.width box1); h1 ← valueOf (BoundingBox.height box1);
  x2 ← valueOf (BoundingBox.x box2); y2 ← valueOf (BoundingBox.y box2);
  w2 ← valueOf (BoundingBox.width box2); h2 ← valueOf (BoundingBox.height box2);
  Some (negb (geq (x1 - w1 / 2) (x2 + w2 / 2) || geq (x2 - w2 / 2) (x1 + w1 / 2)
              || geq (y1 - h1 / 2) (y2 + h2 / 2) || geq (y2 - h2 / 2) (y1 + h1 / 2))%Q).

(** Far from the origin, where neighbouring doubles are 16384 apart: ann
    opens a lounge one unit wide and then a kitchen with the very same box. *)
Definition townWithTwinRooms : Town :=
  run [AddPlayer videoUp (freshPlayer "ann") "session-ann";
       AddConversationArea
         (ServerConversationArea.mk "lounge" (Some "chat") [] (BoundingBox.mk 1e20 0 1 1)
            Public None []) 0;
       AddConversationArea
         (ServerConversationArea.mk "kitchen" (Some "tea") [] (BoundingBox.mk 1e20 0 1 1)
            Public None []) 0]
    (newTown "town").

(** Where neighbouring doubles are 2 apart: a lounge around 1e16, 3 wide,
    and a kitchen around 1e16 + 4, 5.5 wide. *)
Definition townWithCloseRooms : Town :=
  run [AddPlayer videoUp (freshPlayer "ann") "session-ann";
       AddConversationArea
         (ServerConversationArea.mk "lounge" (Some "chat") [] (BoundingBox.mk 1e16 0 3 5)
            Public None []) 0;
       AddConversationArea
         (ServerConversationArea.mk "kitchen" (Some "tea") []
            (BoundingBox.mk 10000000000000004 0 5.5 5) Public None []) 0]
    (newTown "town").

(** * Runs are reachable *)

Lemma reachable_run cs t : reachable t → reachable (run cs t).
Proof.
  revert t. induction cs as [|c cs IH]; intros t Ht; [done|].
  simpl. apply IH. by constructor.
Qed.

(** * Tests of the controller, replayed on the embedding *)

(** "should successfully accept a valid join request and deny all pending
    request since the conversation area is full" *)
Example accept_fills_the_lounge :
  let r := acceptJoinRequest bobsRequest townWithThreeRequests in
  r.1 = true
  ∧ ServerConversationArea.occupantsByID (getArea r.2 0) = ["ann"; "bob"]
  ∧ ServerConversationArea.joinRequests (getArea r.2 0) = []
  ∧ Player.activeJoinRequest (getPlayer r.2 2) = None
  ∧ Player.activeJoinRequest (getPlayer r.2 3) = None.
Proof. vm_compute. repeat split. Qed.

(** "players join request will be automatically deny if the conversation area
    occups number reach the limit" *)
Example request_on_full_lounge_is_denied :
  let t := run [AddPlayer videoUp (freshPlayer "ann") "session-ann";
                AddConversationArea (lounge AvailableToRequest (Some 1%Q)) 0;
                AddPlayer videoUp (freshPlayer "bob") "session-bob"]
             (newTown "town") in
  let r := createJoinRequest "lounge" 1 "request-bob" t in
  r.1 = true
  ∧ ServerConversationArea.joinRequests (getArea r.2 0) = []
  ∧ Player.activeJoinRequest (getPlayer r.2 1) = None
  ∧ ServerConversationArea.occupantsByID (getArea r.2 0) = ["ann"].
Proof. vm_compute. repeat split. Qed.

(** "should not allow player to create a join request if player is not in
    conversation area" *)
Example request_from_outside_is_refused :
  let t := run [UpdatePlayerLocation 1 (UserLocation.mk 10 10 Front false None)]
             (run [AddPlayer videoUp (freshPlayer "ann") "session-ann";
                   AddConversationArea (lounge AvailableToRequest None) 0;
                   AddPlayer videoUp (freshPlayer "bob") "session-bob"]
                (newTown "town")) in
  createJoinRequest "lounge" 1 "request-bob" t = (false, t).
Proof. vm_compute. reflexivity. Qed.

(** "should accept all active join requests when a conversation area's admin
    leaves" *)
Example admin_leaves_two_requests :
  let t := run [AddPlayer videoUp (freshPlayer "ann") "session-ann";
                AddConversationArea (lounge AvailableToRequest None) 0;
                AddPlayer videoUp (freshPlayer "bob") "session-bob";
                CreateJoinRequest "lounge" 1 "request-bob";
                AddPlayer videoUp (freshPlayer "cat") "session-cat";
                CreateJoinRequest "lounge" 2 "request-cat";
                RemovePlayerFromConversationArea 0 0]
             (newTown "town") in
  ServerConversationArea.occupantsByID (getArea t 0) = ["bob"; "cat"]
  ∧ ServerConversationArea.status (getArea t 0) = Public
  ∧ Player.activeConversationArea (getPlayer t 1) = Some 0
  ∧ Player.activeConversationArea (getPlayer t 2) = Some 0.
Proof. vm_compute. repeat split. Qed.

(** "should not allow admin of another conversation area to accept or
    reject" *)
Example admin_of_no_area_is_refused :
  let t := run [AddPlayer videoUp
                  (Player.mk "eve" "eve" (UserLocation.mk 0 0 Front false None)
                     Admin None None) "session-eve"]
             townWithRequest in
  updateJoinRequest 2 true bobsRequest t = (false, t).
Proof. vm_compute. reflexivity. Qed.

(** "should change the player's permissions to normal when they leave if they
    were the admin": the creator was never added to the town, is in no area,
    and stays [Admin], as the test expects. *)
Example creator_outside_the_town_stays_admin :
  let t := run [NewPlayer (freshPlayer "mock");
                AddConversationArea
                  (ServerConversationArea.mk "far" (Some "chat") [] (BoundingBox.mk 10 10 5 5)
                     AvailableToRequest None []) 0;
                UpdatePlayerLocation 0 (UserLocation.mk 30 25 Front false None)]
             (newTown "town") in
  Player.permissions (getPlayer t 0) = Admin.
Proof. vm_compute. reflexivity. Qed.

(** "deny all pending requests if conversation areas occupants limitation has
    been set to the current occupants amount" *)
Example limit_at_occupancy_denies_all :
  let r := updateConversationArea "lounge" 0 None (Some 1%Q) townWithThreeRequests in
  r.1 = true
  ∧ ServerConversationArea.joinRequests (getArea r.2 0) = []
  ∧ ServerConversationArea.status (getArea r.2 0) = AvailableToRequest
  ∧ Player.activeConversationArea (getPlayer r.2 1) = None.
Proof. vm_compute. repeat split. Qed.

(** * Reading the store after a write *)

Lemma getArea_modArea a f t b :
  getArea (modArea a f t) b = if decide (a = b) then f (getArea t a) else getArea t b.
Proof.
  unfold getArea, modArea; simpl.
  destruct (decide (a = b)) as [->|Hne].
  - apply lookup_total_insert_eq.
  - by apply lookup_total_insert_ne.
Qed.

Lemma getArea_modArea_eq a f t : getArea (modArea a f t) a = f (getArea t a).
Proof. rewrite getArea_modArea. by rewrite decide_True. Qed.

Lemma getPlayer_modPlayer p f t q :
  getPlayer (modPlayer p f t) q = if decide (p = q) then f (getPlayer t p) else getPlayer t q.
Proof.
  unfold getPlayer, modPlayer; simpl.
  destruct (decide (p = q)) as [->|Hne].
  - apply lookup_total_insert_eq.
  - by apply lookup_total_insert_ne.
Qed.

Lemma getPlayer_modPlayer_eq p f t : getPlayer (modPlayer p f t) p = f (getPlayer t p).
Proof. rewrite getPlayer_modPlayer. by rewrite decide_True. Qed.

Lemma getArea_modPlayer p f t a : getArea (modPlayer p f t) a = getArea t a.
Proof. reflexivity. Qed.

Lemma getPlayer_modArea a f t p : getPlayer (modArea a f t) p = getPlayer t p.
Proof. reflexivity. Qed.

Lemma getArea_emit e t a : getArea (emit e t) a = getArea t a.
Proof. reflexivity. Qed.

Lemma getPlayer_emit e t p : getPlayer (emit e t) p = getPlayer t p.
Proof. reflexivity. Qed.

Lemma getArea_set_conversationAreas l t a : getArea (set_conversationAreas l t) a = getArea t a.
Proof. reflexivity. Qed.

Lemma getPlayer_set_conversationAreas l t p :
  getPlayer (set_conversationAreas l t) p = getPlayer t p.
Proof. reflexivity. Qed.

Lemma getArea_set_players l t a : getArea (set_players l t) a = getArea t a.
Proof. reflexivity. Qed.

Lemma getArea_set_sessions l t a : getArea (set_sessions l t) a = getArea t a.
Proof. reflexivity. Qed.

Lemma getPlayer_set_players l t p : getPlayer (set_players l t) p = getPlayer t p.
Proof. reflexivity. Qed.

Lemma getPlayer_set_sessions l t p : getPlayer (set_sessions l t) p = getPlayer t p.
Proof. reflexivity. Qed.

Lemma getArea_allocPlayer v t a : getArea (allocPlayer v t).2 a = getArea t a.
Proof. reflexivity. Qed.

Lemma getArea_allocArea v t a :
  getArea (allocArea v t).2 a = if decide (nextArea t = a) then v else getArea t a.
Proof.
  unfold getArea, allocArea; simpl.
  destruct (decide (nextArea t = a)) as [->|Hne].
  - apply lookup_total_insert_eq.
  - by apply lookup_total_insert_ne.
Qed.

(** The two lookups only depend on the lists and on the fields they read. *)
Lemma findAreaByLabel_ext t u l :
  _conversationAreas u = _conversationAreas t →
  (∀ a, ServerConversationArea.label (getArea u a) = ServerConversationArea.label (getArea t a)) →
  findAreaByLabel u l = findAreaByLabel t l.
Proof.
  intros Hl Hlab. unfold findAreaByLabel. rewrite Hl. clear Hl.
  induction (_conversationAreas t) as [|a rest IH]; simpl; [done|].
  by rewrite Hlab, IH.
Qed.

Lemma findPlayerById_ext t u i :
  _players u = _players t →
  (∀ p, Player.id (getPlayer u p) = Player.id (getPlayer t p)) →
  findPlayerById u i = findPlayerById t i.
Proof.
  intros Hl Hid. unfold findPlayerById. rewrite Hl. clear Hl.
  induction (_players t) as [|p rest IH]; simpl; [done|].
  by rewrite Hid, IH.
Qed.

Lemma findAreaByLabel_Some t l a :
  findAreaByLabel t l = Some a →
  a ∈ _conversationAreas t ∧ ServerConversationArea.label (getArea t a) = l.
Proof.
  unfold findAreaByLabel. intros H. apply find_some in H as [Hin Heq].
  split; [by apply list_elem_of_In|]. by apply String.eqb_eq.
Qed.

Lemma findPlayerById_Some t i p :
  findPlayerById t i = Some p →
  p ∈ _players t ∧ Player.id (getPlayer t p) = i.
Proof.
  unfold findPlayerById. intros H. apply find_some in H as [Hin Heq].
  split; [by apply list_elem_of_In|]. by apply String.eqb_eq.
Qed.

(** * What denying a request can change *)

Lemma requests_only_refl t : requests_only t t.
Proof. by split. Qed.

Lemma requests_only_trans t u v : requests_only t u → requests_only u v → requests_only t v.
Proof.
  intros [] []. split; try congruence; intros; by etrans.
Qed.

Lemma removeJoinRequest_requests_only jr t : requests_only t (removeJoinRequest jr t).2.
Proof.
  unfold removeJoinRequest.
  destruct (findAreaByLabel t _) as [c|]; [|apply requests_only_refl].
  destruct (findPlayerById t _) as [p|]; [|apply requests_only_refl].
  split; simpl; try done.
  - intros a. rewrite !getArea_emit, getArea_modPlayer, getArea_modArea.
    by destruct (decide (c = a)) as [->|].
  - intros q. rewrite !getPlayer_emit, getPlayer_modPlayer, getPlayer_modArea.
    by destruct (decide (p = q)) as [->|].
  - rewrite <- app_assoc. by apply prefix_app_r.
Qed.

Lemma removeJoinRequests_requests_only rs t : requests_only t (removeJoinRequests rs t).
Proof.
  unfold removeJoinRequests. revert t.
  induction rs as [|r rs IH]; intros t; simpl; [apply requests_only_refl|].
  eapply requests_only_trans; [apply removeJoinRequest_requests_only | apply IH].
Qed.

(** Field by field. *)
Section requests_only_fields.
Context {t u : Town} (H : requests_only t u).

Lemma ro_label a :
  ServerConversationArea.label (getArea u a) = ServerConversationArea.label (getArea t a).
Proof. exact (f_equal ServerConversationArea.label (ro_area _ _ H a)). Qed.

Lemma ro_occupantsByID a :
  ServerConversationArea.occupantsByID (getArea u a)
  = ServerConversationArea.occupantsByID (getArea t a).
Proof. exact (f_equal ServerConversationArea.occupantsByID (ro_area _ _ H a)). Qed.

Lemma ro_boundingBox a :
  ServerConversationArea.boundingBox (getArea u a)
  = ServerConversationArea.boundingBox (getArea t a).
Proof. exact (f_equal ServerConversationArea.boundingBox (ro_area _ _ H a)). Qed.

Lemma ro_status a :
  ServerConversationArea.status (getArea u a) = ServerConversationArea.status (getArea t a).
Proof. exact (f_equal ServerConversationArea.status (ro_area _ _ H a)). Qed.

Lemma ro_maxOccupants a :
  ServerConversationArea.maxOccupants (getArea u a)
  = ServerConversationArea.maxOccupants (getArea t a).
Proof. exact (f_equal ServerConversationArea.maxOccupants (ro_area _ _ H a)). Qed.

Lemma ro_id p : Player.id (getPlayer u p) = Player.id (getPlayer t p).
Proof. exact (f_equal Player.id (ro_player _ _ H p)). Qed.

Lemma ro_permissions p :
  Player.permissions (getPlayer u p) = Player.permissions (getPlayer t p).
Proof. exact (f_equal Player.permissions (ro_player _ _ H p)). Qed.

Lemma ro_location p : Player.location (getPlayer u p) = Player.location (getPlayer t p).
Proof. exact (f_equal Player.location (ro_player _ _ H p)). Qed.

Lemma ro_activeConversationArea p :
  Player.activeConversationArea (getPlayer u p)
  = Player.activeConversationArea (getPlayer t p).
Proof. exact (f_equal Player.activeConversationArea (ro_player _ _ H p)). Qed.

Lemma ro_findAreaByLabel l : findAreaByLabel u l = findAreaByLabel t l.
Proof. apply findAreaByLabel_ext; [apply H | apply ro_label]. Qed.

Lemma ro_findPlayerById i : findPlayerById u i = findPlayerById t i.
Proof. apply findPlayerById_ext; [apply H | apply ro_id]. Qed.

End requests_only_fields.

(** * Join is not atomic (C1) *)

(** C1, counterexample: when the video client rejects, ann and her session
    are already in the controller's lists. *)
Lemma rejected_join_leaves_trace :
  ¬ join_leaves_no_trace videoDown (freshPlayer "ann") "session-ann" (newTown "town").
Proof.
  unfold join_leaves_no_trace. intros H.
  specialize (H eq_refl). destruct H as (_ & Hplayers & _).
  apply (f_equal length) in Hplayers. clear -Hplayers.
  vm_compute in Hplayers. lia.
Qed.

(** C1, as amended: when the credential call fails the promise is rejected
    and no [onPlayerJoined] is sent, but the new player and a session without
    video token have been appended to [_players] and [_sessions]; the
    conversation areas are untouched. *)
Theorem addPlayer_rejected getTokenForTown newPlayer sessionToken t :
  getTokenForTown (_coveyTownID t) (Player.id newPlayer) = None →
  let r := addPlayer getTokenForTown newPlayer sessionToken t in
  r.1 = Rejected
  ∧ _players r.2 = _players t ++ [nextPlayer t]
  ∧ getPlayer r.2 (nextPlayer t) = newPlayer
  ∧ _sessions r.2 = _sessions t ++ [PlayerSession.mk (nextPlayer t) sessionToken None]
  ∧ emitted r.2 = emitted t
  ∧ _conversationAreas r.2 = _conversationAreas t
  ∧ areaObjs r.2 = areaObjs t.
Proof.
  intros Hfail. unfold addPlayer, allocPlayer. cbv zeta. simpl.
  match goal with
  | |- context [getTokenForTown _ (Player.id ?b)] =>
      replace b with newPlayer by (symmetry; apply lookup_total_insert_eq)
  end.
  rewrite Hfail. simpl. repeat split; try done.
  apply lookup_total_insert_eq.
Qed.

(** The video client is down when ann joins the new town. *)
Lemma addPlayer_rejected_witness :
  videoDown (_coveyTownID (newTown "town")) (Player.id (freshPlayer "ann")) = None
  ∧ (addPlayer videoDown (freshPlayer "ann") "session-ann" (newTown "town")).1 = Rejected
  ∧ _players (addPlayer videoDown (freshPlayer "ann") "session-ann" (newTown "town")).2 = [0].
Proof.
  split; [reflexivity|].
  pose proof (addPlayer_rejected videoDown (freshPlayer "ann") "session-ann"
                (newTown "town") eq_refl) as (H1 & H2 & _).
  split; [exact H1 | exact H2].
Defined.

(** * Refusals of [addConversationArea] (C5) *)

(** The refusals that [addConversationArea] does make: a label in use, an
    empty topic, a negative capacity, an overlapping box.  Nothing is changed
    and nothing is emitted. *)
Lemma addConversationArea_refusals area player t :
  (∃ a, a ∈ _conversationAreas t
        ∧ ServerConversationArea.label (getArea t a) = ServerConversationArea.label area)
  ∨ ServerConversationArea.topic area = Some ""
  ∨ (∃ m, ServerConversationArea.maxOccupants area = Some m ∧ (m < 0)%Q)
  ∨ (∃ a, a ∈ _conversationAreas t
          ∧ boxesOverlap (ServerConversationArea.boundingBox (getArea t a))
              (ServerConversationArea.boundingBox area) = true) →
  addConversationArea area player t = (false, t).
Proof.
  intros H. unfold addConversationArea.
  destruct (existsb (λ a, String.eqb _ _) (_conversationAreas t)) eqn:Hlabel; [done|].
  destruct (match ServerConversationArea.topic area with
            | Some s => String.eqb s "" | None => false end) eqn:Htopic; [done|].
  destruct (truthyNumber _ && _) eqn:Hmax; [done|].
  destruct (existsb (λ a, boxesOverlap _ _) (_conversationAreas t)) eqn:Hbox; [done|].
  exfalso. destruct H as [(a & Hin & Ha)|[Ht|[(m & Hm & Hneg)|(a & Hin & Ha)]]].
  - apply not_true_iff_false in Hlabel. apply Hlabel, existsb_exists.
    exists a. split; [by apply list_elem_of_In | by apply String.eqb_eq].
  - rewrite Ht in Htopic. discriminate.
  - rewrite Hm in Hmax. simpl in Hmax.
    apply andb_false_iff in Hmax as [Hz|Hle].
    + apply negb_false_iff, Qeq_bool_iff in Hz. rewrite Hz in Hneg.
      by apply Qlt_irrefl in Hneg.
    + apply not_true_iff_false in Hle. apply Hle, Qle_bool_iff. by apply Qlt_le_weak.
  - apply not_true_iff_false in Hbox. apply Hbox, existsb_exists.
    exists a. split; [by apply list_elem_of_In | done].
Qed.

(** C5, failing input: a capacity of 0 is not refused.  [0 && 0 <= 0] is
    falsy, so the guard written with [<= 0] lets the area through: it is
    created, ann is put in it and the update is emitted. *)
Theorem addConversationArea_accepts_capacity_zero :
  let r := addConversationArea (lounge Public (Some 0%Q)) 0 townWithAnn in
  reachable townWithAnn
  ∧ r.1 = true
  ∧ _conversationAreas r.2 = [0]
  ∧ ServerConversationArea.maxOccupants (getArea r.2 0) = Some 0%Q
  ∧ ServerConversationArea.occupantsByID (getArea r.2 0) = ["ann"]
  ∧ emitted r.2 = emitted townWithAnn ++ [onConversationAreaUpdated 0].
Proof.
  split; [apply reachable_run, reachable_new|].
  vm_compute. repeat split.
Qed.

(** * Denying a request that is not pending (C7) *)

(** C7, counterexample: ann has denied bob's request, which is on no
    pending list any more; denying it again returns [true], since the lounge
    and bob are still there. *)
Lemma removeJoinRequest_twice_succeeds :
  ¬ denial_of_absent_request_fails bobsRequest townAfterDenial.
Proof.
  unfold denial_of_absent_request_fails. intros H.
  assert (Hnot : isPending bobsRequest townAfterDenial = false) by (vm_compute; reflexivity).
  specialize (H Hnot). clear Hnot. vm_compute in H. discriminate H.
Qed.

(** C7, as amended: denying a request whose id no pending request of an
    active area carries never throws (the function is total) and leaves every
    pending list as it was; it returns [false], changing nothing, exactly
    when no active area has the request's label or no player of the town has
    the request's player id, and [true] otherwise. *)
Theorem removeJoinRequest_not_pending joinRequest t :
  isPending joinRequest t = false →
  let r := removeJoinRequest joinRequest t in
  (r.1 = false ↔
     findAreaByLabel t (JoinRequest.conversationLabel joinRequest) = None
     ∨ findPlayerById t (JoinRequest.playerId joinRequest) = None)
  ∧ (r.1 = false → r.2 = t)
  ∧ ∀ a, ServerConversationArea.joinRequests (getArea r.2 a)
         = ServerConversationArea.joinRequests (getArea t a).
Proof.
  intros Hnot. unfold removeJoinRequest.
  destruct (findAreaByLabel t _) as [c|] eqn:Hc; [|simpl; repeat split; auto].
  destruct (findPlayerById t _) as [p|] eqn:Hp; [|simpl; repeat split; auto].
  simpl. split; [split; [done | by intros [?|?]] |]. split; [done|].
  intros a. rewrite !getArea_emit, getArea_modPlayer, getArea_modArea.
  destruct (decide (c = a)) as [<-|]; [|done]. simpl.
  apply findAreaByLabel_Some in Hc as [Hin _].
  unfold isPending in Hnot.
  assert (Hc : existsb (λ r, String.eqb (JoinRequest.id r) (JoinRequest.id joinRequest))
                 (ServerConversationArea.joinRequests (getArea t c)) = false).
  { destruct (existsb _ (ServerConversationArea.joinRequests _)) eqn:E; [|done].
    apply not_true_iff_false in Hnot. exfalso. apply Hnot, existsb_exists.
    exists c. split; [by apply list_elem_of_In | done]. }
  unfold withoutRequest. clear Hnot Hin.
  induction (ServerConversationArea.joinRequests (getArea t c)) as [|r rs IH]; [done|].
  simpl in *. apply orb_false_iff in Hc as [Hr Hrs]. rewrite Hr. simpl. by rewrite IH.
Qed.

(** bob's request, already denied by ann, is denied once more. *)
Lemma removeJoinRequest_not_pending_witness :
  isPending bobsRequest townAfterDenial = false
  ∧ ∀ a, ServerConversationArea.joinRequests
           (getArea (removeJoinRequest bobsRequest townAfterDenial).2 a)
         = ServerConversationArea.joinRequests (getArea townAfterDenial a).
Proof.
  assert (Hnot : isPending bobsRequest townAfterDenial = false) by (vm_compute; reflexivity).
  split; [exact Hnot|].
  exact (proj2 (proj2 (removeJoinRequest_not_pending bobsRequest townAfterDenial Hnot))).
Defined.

(** Requests are told apart by their id alone.  A request object that is on
    no pending list but carries the id of bob's pending request counts as
    pending, and denying it takes bob's request off the lounge. *)
Remark removeJoinRequest_of_reused_id :
  let forged := JoinRequest.mk "request-bob" "ann" "lounge" in
  ServerConversationArea.joinRequests (getArea townWithRequest 0) = [bobsRequest]
  ∧ forged ≠ bobsRequest
  ∧ isPending forged townWithRequest = true
  ∧ (removeJoinRequest forged townWithRequest).1 = true
  ∧ ServerConversationArea.joinRequests
      (getArea (removeJoinRequest forged townWithRequest).2 0) = [].
Proof. vm_compute. repeat split. discriminate. Qed.

(** * Who may resolve a join request (C8) *)

Lemma listedOnActiveArea_true t player joinRequest :
  listedOnActiveArea t player joinRequest = true ↔ listedForPlayer t player joinRequest.
Proof.
  unfold listedOnActiveArea, listedForPlayer.
  destruct (Player.activeConversationArea (getPlayer t player)) as [c|].
  - rewrite existsb_exists. split.
    + intros (r & Hin & Hid). exists c, r.
      split; [done|]. split; [by apply list_elem_of_In | by apply String.eqb_eq].
    + intros (c' & r & [= <-] & Hin & Hid). exists r.
      split; [by apply list_elem_of_In | by apply String.eqb_eq].
  - split; [done|]. by intros (c & r & ? & _).
Qed.

(** The gate of [updateJoinRequest] as the code evaluates it: it returns
    [true] only for a player without [Admin] who denies a request carrying
    their own id, or for an [Admin] (accepting or denying) when a request of
    the same id is listed on the area in their [activeConversationArea]; in
    every other case it returns [false] and the state is the one it was
    given.  In particular a player without [Admin] never accepts. *)
Theorem updateJoinRequest_authorization player decision joinRequest t :
  let r := updateJoinRequest player decision joinRequest t in
  (r.1 = true ↔
     (Player.permissions (getPlayer t player) ≠ Admin
      ∧ decision = false
      ∧ Player.id (getPlayer t player) = JoinRequest.playerId joinRequest)
     ∨ (Player.permissions (getPlayer t player) = Admin
        ∧ listedForPlayer t player joinRequest))
  ∧ (r.1 = false → r.2 = t).
Proof.
  unfold updateJoinRequest. rewrite <- listedOnActiveArea_true.
  destruct (Player.permissions (getPlayer t player)); simpl.
  - destruct decision; simpl.
    + split; [|done]. split; [done|]. by intros [(_ & ? & _)|(? & _)].
    + destruct (String.eqb _ _) eqn:Hid; simpl.
      * apply String.eqb_eq in Hid. split; [|done]. split; [|done].
        intros _. by left.
      * apply String.eqb_neq in Hid. split; [|done]. split; [done|].
        by intros [(_ & _ & ?)|(? & _)].
  - destruct (listedOnActiveArea t player joinRequest); simpl.
    + split; [|by destruct decision]. split; [intros _; by right|by destruct decision].
    + split; [|done]. split; [done|]. by intros [(? & _)|(_ & ?)].
Qed.

(** C8, failing inputs.  The gate takes as the admin's area the one in
    [activeConversationArea] and, unlike [getJoinRequests] and
    [updateConversationArea], does not look at the occupants; and it takes a
    request as listed when some listed request has its id.  First, ann,
    admin of the lounge, passes a request that carries the id of bob's
    pending request but names eve and the den: the request is on no pending
    list, yet the call returns [true] and eve is put into cat's den, which
    is do-not-disturb, while bob's request stays pending.  Second, bob holds
    [Admin] and is no occupant of the lounge, which his
    [activeConversationArea] still names: he accepts dan's request there. *)
Theorem updateJoinRequest_resolves_unlisted_request :
  let forged := JoinRequest.mk "request-bob" "eve" "den" in
  let r := updateJoinRequest 0 true forged townWithQuietDen in
  let r' := updateJoinRequest 1 true (JoinRequest.mk "request-dan" "dan" "lounge")
              townWithStaleMember in
  (reachable townWithQuietDen
   ∧ Player.permissions (getPlayer townWithQuietDen 0) = Admin
   ∧ Player.activeConversationArea (getPlayer townWithQuietDen 0) = Some 0
   ∧ ServerConversationArea.occupantsByID (getArea townWithQuietDen 0) = ["ann"]
   ∧ ServerConversationArea.joinRequests (getArea townWithQuietDen 0) = [bobsRequest]
   ∧ ServerConversationArea.joinRequests (getArea townWithQuietDen 1) = []
   ∧ ServerConversationArea.status (getArea townWithQuietDen 1) = DoNotDisturb
   ∧ ServerConversationArea.occupantsByID (getArea townWithQuietDen 1) = ["cat"]
   ∧ r.1 = true
   ∧ ServerConversationArea.occupantsByID (getArea r.2 1) = ["cat"; "eve"]
   ∧ Player.activeConversationArea (getPlayer r.2 3) = Some 1
   ∧ ServerConversationArea.joinRequests (getArea r.2 0) = [bobsRequest])
  ∧ (reachable townWithStaleMember
     ∧ Player.permissions (getPlayer townWithStaleMember 1) = Admin
     ∧ Player.activeConversationArea (getPlayer townWithStaleMember 1) = Some 0
     ∧ ServerConversationArea.occupantsByID (getArea townWithStaleMember 0) = ["ann"]
     ∧ r'.1 = true
     ∧ ServerConversationArea.occupantsByID (getArea r'.2 0) = ["ann"; "dan"]).
Proof.
  cbv zeta. split.
  - split; [apply reachable_run, reachable_new|]. vm_compute. repeat split.
  - split; [apply reachable_run, reachable_new|]. vm_compute. repeat split.
Qed.

(** * The capacity after an update (C9) *)

Lemma keeps_capacity_emit t c m e u :
  keeps_capacity t c m u → keeps_capacity t c m (emit e u).
Proof. done. Qed.

Lemma keeps_capacity_modPlayer t c m p f u :
  keeps_capacity t c m u → keeps_capacity t c m (modPlayer p f u).
Proof. done. Qed.

Lemma keeps_capacity_requests_only t c m u v :
  requests_only u v → keeps_capacity t c m u → keeps_capacity t c m v.
Proof.
  intros H (Hl & Hlab & Hm). split; [|split].
  - by rewrite (ro_areas _ _ H).
  - intros a. by rewrite (ro_label H).
  - by rewrite (ro_maxOccupants H).
Qed.

Ltac peel_keeps_capacity :=
  repeat match goal with
  | |- keeps_capacity _ _ _ (emit _ _) => apply keeps_capacity_emit
  | |- keeps_capacity _ _ _ (modPlayer _ _ _) => apply keeps_capacity_modPlayer
  | |- keeps_capacity _ _ _ (removeJoinRequests _ _) =>
      eapply keeps_capacity_requests_only; [apply removeJoinRequests_requests_only|]
  | |- keeps_capacity _ _ _ (match ?s with _ => _ end) => destruct s
  end.

(** C9: after a successful [updateConversationArea] the area found under the
    label is still the same object and its [maxOccupants] is the argument of
    the call; with the argument left out ([None]) the area is unlimited,
    whatever limit it had. *)
Theorem updateConversationArea_sets_maxOccupants label player status maxOccupants t t' :
  updateConversationArea label player status maxOccupants t = (true, t') →
  ∃ a, findAreaByLabel t label = Some a
       ∧ findAreaByLabel t' label = Some a
       ∧ ServerConversationArea.maxOccupants (getArea t' a) = maxOccupants.
Proof.
  unfold updateConversationArea.
  destruct (findAreaByLabel t label) as [c|] eqn:Hc; [|done].
  destruct (_ || _); [done|]. destruct (negb _); [done|].
  destruct (match maxOccupants with Some _ => _ | None => _ end); [done|].
  cbv zeta. intros [= <-]. exists c. split; [done|].
  match goal with
  | |- findAreaByLabel ?u _ = _ ∧ _ => enough (keeps_capacity t c maxOccupants u) as (Hl & Hlab & Hm)
  end.
  { split; [|exact Hm]. by rewrite (findAreaByLabel_ext t _ label Hl Hlab). }
  assert (HY : keeps_capacity t c maxOccupants
                 (modArea c (ServerConversationArea.set_maxOccupants maxOccupants)
                    match status with
                    | Some s => modArea c (ServerConversationArea.set_status s) t
                    | None => t
                    end)).
  { split; [by destruct status|]. split.
    - intros a. rewrite getArea_modArea. destruct status; simpl.
      + rewrite !getArea_modArea. by repeat case_decide; subst.
      + by case_decide; subst.
    - by rewrite getArea_modArea_eq. }
  peel_keeps_capacity; exact HY.
Qed.

(** ann sets her lounge, limited to three, to do-not-disturb and passes no
    capacity: the limit is gone. *)
Lemma updateConversationArea_sets_maxOccupants_witness :
  ServerConversationArea.maxOccupants (getArea townWithLimit 0) = Some 3%Q
  ∧ ∃ a, findAreaByLabel townWithLimit "lounge" = Some a
         ∧ findAreaByLabel (updateConversationArea "lounge" 0 (Some DoNotDisturb) None
                              townWithLimit).2 "lounge" = Some a
         ∧ ServerConversationArea.maxOccupants
             (getArea (updateConversationArea "lounge" 0 (Some DoNotDisturb) None
                         townWithLimit).2 a) = None.
Proof.
  split; [vm_compute; reflexivity|].
  apply (updateConversationArea_sets_maxOccupants "lounge" 0 (Some DoNotDisturb) None
           townWithLimit).
  vm_compute. reflexivity.
Defined.

(** * A declared label of a do-not-disturb area (C4) *)

(** In the do-not-disturb branch the location has already been overwritten
    when the label to keep is read, and the method returns before the
    player-moved event: the declared label is stored and nothing is emitted.
    Areas and membership are left alone. *)
Lemma doNotDisturb_branch player location t c :
  findAreaByOptLabel t (UserLocation.conversationLabel location) = Some c →
  ServerConversationArea.status (getArea t c) = DoNotDisturb →
  let u := updatePlayerLocation player location t in
  UserLocation.conversationLabel (Player.location (getPlayer u player))
  = orUndefined (UserLocation.conversationLabel location)
  ∧ emitted u = emitted t
  ∧ areaObjs u = areaObjs t
  ∧ _conversationAreas u = _conversationAreas t
  ∧ Player.activeConversationArea (getPlayer u player)
    = Player.activeConversationArea (getPlayer t player).
Proof.
  intros Hc Hstatus. unfold updatePlayerLocation. cbv zeta.
  change (findAreaByOptLabel (modPlayer player (Player.set_location location) t)
            (UserLocation.conversationLabel location))
    with (findAreaByOptLabel t (UserLocation.conversationLabel location)).
  rewrite Hc. rewrite getArea_modPlayer, Hstatus. simpl.
  rewrite !getPlayer_modPlayer_eq. done.
Qed.

(** C4, failing input: bob, whose stored location has no conversation label,
    reports a location with the label of the do-not-disturb lounge.  The
    stored label becomes ["lounge"], not the previous one, and no
    [onPlayerMoved] is sent; the lounge's occupants and bob's membership stay
    as they were. *)
Theorem updatePlayerLocation_doNotDisturb_stores_declared_label :
  let u := updatePlayerLocation 1 (UserLocation.mk 1 1 Front true (Some "lounge")) quietTown in
  reachable quietTown
  ∧ ServerConversationArea.status (getArea quietTown 0) = DoNotDisturb
  ∧ UserLocation.conversationLabel (Player.location (getPlayer quietTown 1)) = None
  ∧ UserLocation.conversationLabel (Player.location (getPlayer u 1)) = Some "lounge"
  ∧ emitted u = emitted quietTown
  ∧ ServerConversationArea.occupantsByID (getArea u 0) = ["ann"]
  ∧ Player.activeConversationArea (getPlayer u 1) = None.
Proof.
  split; [apply reachable_run, reachable_new|].
  vm_compute. repeat split.
Qed.

(** * Pending requests of players who left (C10) *)

(** The assertion of [getJoinRequests] holds exactly when every request of
    the list names a player of the town. *)
Lemma joinRequestEntries_returns t area requests :
  (∃ entries, joinRequestEntries t area requests = Returns entries)
  ↔ Forall (λ r, is_Some (findPlayerById t (JoinRequest.playerId r))) requests.
Proof.
  induction requests as [|r rs IH]; simpl.
  - split; [by constructor | by eexists].
  - rewrite Forall_cons, <- IH.
    destruct (findPlayerById t (JoinRequest.playerId r)) as [q|].
    + destruct (joinRequestEntries t area rs) as [entries|].
      * split; [intros _; split; by eexists | by eexists].
      * split; [by intros [? ?] | by intros [_ [? ?]]].
    + split; [by intros [? ?] | by intros [[? ?] _]].
Qed.

(** A session destroyed for a player who is in no area: the player leaves
    [_players], and no area object is touched, pending lists included. *)
Lemma destroySession_keeps_requests session t :
  Player.activeConversationArea (getPlayer t (PlayerSession.player session)) = None →
  areaObjs (destroySession session t) = areaObjs t
  ∧ _conversationAreas (destroySession session t) = _conversationAreas t
  ∧ findPlayerById (destroySession session t)
      (Player.id (getPlayer t (PlayerSession.player session))) = None.
Proof.
  intros Hnone. unfold destroySession. cbv zeta.
  rewrite getPlayer_emit, getPlayer_set_sessions, getPlayer_set_players, Hnone.
  split; [done|]. split; [done|].
  unfold findPlayerById. simpl.
  change (λ p, String.eqb (Player.id (getPlayer _ p)) ?i)
    with (λ p, String.eqb (Player.id (getPlayer t p)) i).
  set (i := Player.id (getPlayer t (PlayerSession.player session))).
  induction (_players t) as [|p ps IH]; simpl; [done|].
  destruct (String.eqb (Player.id (getPlayer t p)) i) eqn:E; simpl; [done|].
  change (getPlayer _ p) with (getPlayer t p). by rewrite E.
Qed.

(** C10, failing input: [destroySession] only looks at the player's active
    conversation area, so bob's request outlives him; when ann then lists the
    lounge's requests, the assertion in [getJoinRequests] fails. *)
Theorem getJoinRequests_assertion_fails :
  reachable townAfterBobLeft
  ∧ _conversationAreas townAfterBobLeft = [0]
  ∧ ServerConversationArea.joinRequests (getArea townAfterBobLeft 0)
    = [JoinRequest.mk "request-bob" "bob" "lounge"]
  ∧ findPlayerById townAfterBobLeft "bob" = None
  ∧ getJoinRequests "lounge" 0 townAfterBobLeft = AssertionError.
Proof.
  split; [apply reachable_run, reachable_new|].
  vm_compute. repeat split.
Qed.

(** * Capacity (C2) *)

(** A successful [acceptJoinRequest] appends the player to the occupants of
    the area, whatever the capacity. *)
Lemma acceptJoinRequest_appends_occupant joinRequest t c q :
  findAreaByLabel t (JoinRequest.conversationLabel joinRequest) = Some c →
  findPlayerById t (JoinRequest.playerId joinRequest) = Some q →
  (acceptJoinRequest joinRequest t).1 = true
  ∧ ServerConversationArea.occupantsByID (getArea (acceptJoinRequest joinRequest t).2 c)
    = ServerConversationArea.occupantsByID (getArea t c) ++ [Player.id (getPlayer t q)]
  ∧ ServerConversationArea.maxOccupants (getArea (acceptJoinRequest joinRequest t).2 c)
    = ServerConversationArea.maxOccupants (getArea t c).
Proof.
  intros Hc Hq. unfold acceptJoinRequest. rewrite Hc, Hq. cbv zeta. simpl.
  split; [done|]. rewrite !getArea_emit.
  match goal with
  | |- context [getArea (match ?m with Some _ => _ | None => ?u end) c] =>
      assert (Hro : requests_only u (match m with
                                     | Some m0 =>
                                         if Qeq_bool m0
                                              (lengthQ (ServerConversationArea.occupantsByID
                                                          (getArea u c)))
                                         then removeJoinRequests
                                                (ServerConversationArea.joinRequests (getArea u c)) u
                                         else u
                                     | None => u
                                     end))
  end.
  { destruct (ServerConversationArea.maxOccupants _); [|apply requests_only_refl].
    destruct (Qeq_bool _ _); [|apply requests_only_refl].
    apply removeJoinRequests_requests_only. }
  rewrite (ro_occupantsByID Hro), (ro_maxOccupants Hro).
  rewrite !getArea_modPlayer, getArea_modArea_eq, !getArea_modPlayer, getArea_modArea_eq.
  done.
Qed.

(** C2, failing inputs.  When ann walks out of her lounge, the cascade walks
    the array of requests it started with: dan's request is denied when the
    lounge fills up with bob and cat, and is accepted all the same, leaving
    three occupants in a lounge for two.  And an area created with capacity
    one around two players has two occupants. *)
Theorem capacity_exceeded :
  let left := updatePlayerLocation 0 (UserLocation.mk 30 25 Front false None)
                townWithThreeRequests in
  let made := addConversationArea (lounge Public (Some 1%Q)) 0 townWithAnnAndBob in
  (reachable townWithThreeRequests
   ∧ ServerConversationArea.maxOccupants (getArea left 0) = Some 2%Q
   ∧ ServerConversationArea.occupantsByID (getArea left 0) = ["bob"; "cat"; "dan"]
   ∧ _conversationAreas left = [0])
  ∧ (reachable townWithAnnAndBob
     ∧ made.1 = true
     ∧ ServerConversationArea.maxOccupants (getArea made.2 0) = Some 1%Q
     ∧ ServerConversationArea.occupantsByID (getArea made.2 0) = ["ann"; "bob"]).
Proof.
  split.
  - split; [apply reachable_run, reachable_new|]. vm_compute. repeat split.
  - split; [apply reachable_run, reachable_new|]. vm_compute. repeat split.
Qed.

(** * Active areas and [boxesOverlap] (C3) *)

Lemma boxesOverlap_false box1 box2 : boxesOverlap box1 box2 = false ↔ separated box1 box2.
Proof.
  unfold boxesOverlap, separated. cbv zeta.
  rewrite negb_false_iff, !orb_true_iff. tauto.
Qed.

Lemma boxesOverlap_sym box1 box2 : boxesOverlap box1 box2 = boxesOverlap box2 box1.
Proof.
  unfold boxesOverlap. cbv zeta.
  destruct (geqF (Rect.x1 (toRectPoints box1)) _), (geqF (Rect.x1 (toRectPoints box2)) _),
    (geqF (Rect.y1 (toRectPoints box1)) _), (geqF (Rect.y1 (toRectPoints box2)) _); reflexivity.
Qed.

Lemma pairwise_sublist {A} (R : A → A → Prop) l' l :
  l' `sublist_of` l → pairwise R l → pairwise R l'.
Proof.
  induction 1 as [|x l1 l2 Hsub IH|x l1 l2 Hsub IH]; simpl; [done| |].
  - intros [Hx Hrest]. split; [|by apply IH].
    rewrite Forall_forall in Hx |- *. intros b Hb. apply Hx.
    by eapply elem_of_sublist.
  - intros [_ Hrest]. by apply IH.
Qed.

Lemma pairwise_impl {A} (R R' : A → A → Prop) l :
  (∀ a b, R a b → R' a b) → pairwise R l → pairwise R' l.
Proof.
  intros HR. induction l as [|a rest IH]; simpl; [done|].
  intros [Ha Hrest]. split; [|by apply IH].
  eapply Forall_impl; [exact Ha|]. apply HR.
Qed.

Lemma pairwise_snoc {A} (R : A → A → Prop) l n :
  pairwise R l → Forall (λ a, R a n) l → pairwise R (l ++ [n]).
Proof.
  induction l as [|a rest IH]; simpl; [done|].
  intros [Ha Hrest] Hn. apply Forall_cons in Hn as [Han Hn]. split; [|by apply IH].
  apply Forall_app. split; [done|]. by apply Forall_singleton.
Qed.

Lemma pairwise_lookup {A} (R : A → A → Prop) l i j a b :
  pairwise R l → i < j → l !! i = Some a → l !! j = Some b → R a b.
Proof.
  revert i j. induction l as [|x rest IH]; intros i j Hl Hij Hi Hj; [done|].
  destruct Hl as [Hx Hrest]. destruct j as [|j]; [lia|]. simpl in Hj.
  destruct i as [|i]; simpl in Hi.
  - injection Hi as ->. rewrite Forall_forall in Hx. apply Hx.
    by eapply list_elem_of_lookup_2.
  - apply (IH i j); [done|lia|done|done].
Qed.

Lemma frame_refl t : frame t t.
Proof. by split. Qed.

Lemma frame_trans t u v : frame t u → frame u v → frame t v.
Proof.
  intros [Hn1 Hl1 Hb1 Hs1] [Hn2 Hl2 Hb2 Hs2]. split.
  - congruence.
  - by trans (_conversationAreas u).
  - intros a. by rewrite Hb2.
  - intros a. by rewrite Hs2.
Qed.

Lemma frame_emit t u e : frame t u → frame t (emit e u).
Proof. intros []. by split. Qed.

Lemma frame_modPlayer t u p f : frame t u → frame t (modPlayer p f u).
Proof. intros []. by split. Qed.

Lemma frame_set_players t u l : frame t u → frame t (set_players l u).
Proof. intros []. by split. Qed.

Lemma frame_set_sessions t u l : frame t u → frame t (set_sessions l u).
Proof. intros []. by split. Qed.

Lemma frame_allocPlayer t u v : frame t u → frame t (allocPlayer v u).2.
Proof. intros []. by split. Qed.

Lemma frame_modArea t u a f :
  (∀ x, ServerConversationArea.boundingBox (f x) = ServerConversationArea.boundingBox x
        ∧ ServerConversationArea.label (f x) = ServerConversationArea.label x) →
  frame t u → frame t (modArea a f u).
Proof.
  intros Hf [Hn Hl Hb Hs]. split; [done|done| |].
  - intros b. unfold boxOf. rewrite getArea_modArea.
    case_decide; subst; [rewrite (proj1 (Hf _))|]; apply Hb.
  - intros b. unfold labelOf. rewrite getArea_modArea.
    case_decide; subst; [rewrite (proj2 (Hf _))|]; apply Hs.
Qed.

Lemma splice1_sublist {A} i (l : list A) : splice1 i l `sublist_of` l.
Proof.
  destruct i as [n|]; simpl; [apply sublist_delete|].
  rewrite removelast_firstn_len. apply sublist_take.
Qed.

Lemma frame_splice t u i :
  frame t u → frame t (set_conversationAreas (splice1 i (_conversationAreas u)) u).
Proof.
  intros []. split; [done| |done|done]. simpl. etrans; [apply splice1_sublist|done].
Qed.

Lemma frame_requests_only t u v : requests_only u v → frame t u → frame t v.
Proof.
  intros H [Hn Hl Hb Hs]. split.
  - by rewrite (ro_nextArea _ _ H).
  - by rewrite (ro_areas _ _ H).
  - intros a. unfold boxOf. rewrite (ro_boundingBox H). apply Hb.
  - intros a. unfold labelOf. rewrite (ro_label H). apply Hs.
Qed.

Lemma frame_removeJoinRequest t u jr : frame t u → frame t (removeJoinRequest jr u).2.
Proof. apply frame_requests_only, removeJoinRequest_requests_only. Qed.

Lemma frame_removeJoinRequests t u rs : frame t u → frame t (removeJoinRequests rs u).
Proof. apply frame_requests_only, removeJoinRequests_requests_only. Qed.

(** Walk down a state expression of the controller, one write at a time. *)
Ltac peel_frame_step :=
  match goal with
  | H : frame ?t ?u |- frame ?t ?u => exact H
  | |- frame ?t ?t => apply frame_refl
  | |- frame _ (emit _ _) => apply frame_emit
  | |- frame _ (modPlayer _ _ _) => apply frame_modPlayer
  | |- frame _ (set_players _ _) => apply frame_set_players
  | |- frame _ (set_sessions _ _) => apply frame_set_sessions
  | |- frame _ (modArea _ _ _) => apply frame_modArea; [intros ?; split; reflexivity|]
  | |- frame _ (set_conversationAreas (splice1 _ _) _) => apply frame_splice
  | |- frame _ (snd (removeJoinRequest _ _)) => apply frame_removeJoinRequest
  | |- frame _ (removeJoinRequests _ _) => apply frame_removeJoinRequests
  | |- frame _ (snd (match ?s with _ => _ end)) => destruct s; cbn [snd]
  | |- frame _ (match ?s with _ => _ end) => destruct s
  end.

Lemma frame_acceptJoinRequest t u jr : frame t u → frame t (acceptJoinRequest jr u).2.
Proof. intros H. unfold acceptJoinRequest. cbv zeta. repeat peel_frame_step. Qed.

Lemma frame_acceptJoinRequests t u rs : frame t u → frame t (acceptJoinRequests rs u).
Proof.
  unfold acceptJoinRequests. revert u.
  induction rs as [|r rs IH]; intros u H; simpl; [done|].
  by apply IH, frame_acceptJoinRequest.
Qed.

Lemma frame_removePlayerFromConversationArea t u p c :
  frame t u → frame t (removePlayerFromConversationArea p c u).
Proof.
  intros H. unfold removePlayerFromConversationArea. cbv zeta.
  repeat first [peel_frame_step | apply frame_acceptJoinRequests].
Qed.

Lemma frame_destroySession t u s : frame t u → frame t (destroySession s u).
Proof.
  intros H. unfold destroySession. cbv zeta.
  repeat first [peel_frame_step | apply frame_removePlayerFromConversationArea].
Qed.

Lemma frame_updatePlayerLocation t u p l : frame t u → frame t (updatePlayerLocation p l u).
Proof.
  intros H. unfold updatePlayerLocation. cbv zeta.
  repeat first [peel_frame_step | apply frame_removePlayerFromConversationArea].
Qed.

Lemma frame_updateConversationArea t u l p s m :
  frame t u → frame t (updateConversationArea l p s m u).2.
Proof. intros H. unfold updateConversationArea. cbv zeta. repeat peel_frame_step. Qed.

Lemma frame_updateJoinRequest t u p d jr : frame t u → frame t (updateJoinRequest p d jr u).2.
Proof.
  intros H. unfold updateJoinRequest. cbv zeta.
  repeat first [peel_frame_step | apply frame_acceptJoinRequest].
Qed.

Lemma frame_createJoinRequest t u l p i : frame t u → frame t (createJoinRequest l p i u).2.
Proof. intros H. unfold createJoinRequest. cbv zeta. repeat peel_frame_step. Qed.

Lemma frame_addPlayer t u tok p s : frame t u → frame t (addPlayer tok p s u).2.
Proof.
  intros H. unfold addPlayer, allocPlayer. cbv zeta. cbn [fst snd].
  repeat first [peel_frame_step | by destruct H].
Qed.

Lemma frame_fold_modPlayer t u f ps :
  frame t u → frame t (fold_left (λ t p, modPlayer p f t) ps u).
Proof.
  revert u. induction ps as [|p ps IH]; intros u H; simpl; [done|].
  by apply IH, frame_modPlayer.
Qed.

Lemma areasInvariant_frame t u : frame t u → areasInvariant t → areasInvariant u.
Proof.
  intros [Hn Hl Hb Hs] [Hlt Hap Hlab]. split.
  - rewrite Hn. rewrite Forall_forall in Hlt |- *. intros a Ha.
    apply Hlt. by eapply elem_of_sublist.
  - apply (pairwise_sublist _ _ _ Hl).
    eapply pairwise_impl; [|exact Hap]. intros a b. by rewrite !Hb.
  - apply (pairwise_sublist _ _ _ Hl).
    eapply pairwise_impl; [|exact Hlab]. intros a b. by rewrite !Hs.
Qed.

Lemma areasInvariant_withNewArea area t :
  areasInvariant t →
  existsb (λ a, String.eqb (ServerConversationArea.label (getArea t a))
                  (ServerConversationArea.label area))
    (_conversationAreas t) = false →
  existsb (λ a, boxesOverlap (ServerConversationArea.boundingBox (getArea t a))
                  (ServerConversationArea.boundingBox area))
    (_conversationAreas t) = false →
  areasInvariant (withNewArea area t).
Proof.
  intros [Hlt Hap Hlab] Hfree Hclear.
  assert (Hold : ∀ a, a ∈ _conversationAreas t →
                      getArea (withNewArea area t) a = getArea t a).
  { intros a Ha. unfold withNewArea.
    rewrite getArea_set_conversationAreas, getArea_allocArea.
    rewrite Forall_forall in Hlt. specialize (Hlt a Ha).
    rewrite decide_False; [done|lia]. }
  assert (Hnew : getArea (withNewArea area t) (nextArea t) = area).
  { unfold withNewArea.
    rewrite getArea_set_conversationAreas, getArea_allocArea. by rewrite decide_True. }
  assert (Hext : ∀ (R R' : ref → ref → Prop) l,
            (∀ a b, a ∈ l → b ∈ l → R a b → R' a b) → pairwise R l → pairwise R' l).
  { intros R R' l. induction l as [|a rest IH]; simpl; [done|].
    intros HR [Ha Hrest]. split.
    - rewrite Forall_forall in Ha |- *. intros b Hb.
      apply HR; [by left | by right | by apply Ha].
    - apply IH; [|done]. intros a' b' Ha' Hb'. apply HR; by right. }
  split; simpl.
  - apply Forall_app. split; [|apply Forall_singleton; lia].
    eapply Forall_impl; [exact Hlt|]. simpl. lia.
  - apply pairwise_snoc.
    + eapply Hext; [|exact Hap]. intros a b Ha Hb. unfold boxOf. by rewrite !Hold.
    + rewrite Forall_forall. intros a Ha. unfold boxOf. rewrite Hnew, (Hold a Ha).
      destruct (boxesOverlap _ _) eqn:E; [|done].
      apply not_true_iff_false in Hclear. exfalso. apply Hclear, existsb_exists.
      exists a. split; [by apply list_elem_of_In | done].
  - apply pairwise_snoc.
    + eapply Hext; [|exact Hlab]. intros a b Ha Hb. unfold labelOf. by rewrite !Hold.
    + rewrite Forall_forall. intros a Ha. unfold labelOf. rewrite Hnew, (Hold a Ha).
      intros Heq. apply not_true_iff_false in Hfree. apply Hfree, existsb_exists.
      exists a. split; [by apply list_elem_of_In | by apply String.eqb_eq].
Qed.

Lemma areasInvariant_addConversationArea area p t :
  areasInvariant t → areasInvariant (addConversationArea area p t).2.
Proof.
  intros H. unfold addConversationArea.
  destruct (existsb (λ a, String.eqb _ _) (_conversationAreas t)) eqn:Hfree; [done|].
  destruct (match ServerConversationArea.topic area with
            | Some s => String.eqb s "" | None => false end); [done|].
  destruct (truthyNumber _ && _); [done|].
  destruct (existsb (λ a, boxesOverlap _ _) (_conversationAreas t)) eqn:Hclear; [done|].
  apply (areasInvariant_frame (withNewArea area t)); [|by apply areasInvariant_withNewArea].
  unfold allocArea. cbv beta iota zeta. cbn [snd].
  repeat first [peel_frame_step | apply frame_fold_modPlayer | apply frame_refl].
Qed.

Lemma areasInvariant_exec c t : areasInvariant t → areasInvariant (exec c t).
Proof.
  intros H. destruct c; simpl;
    try (by apply areasInvariant_addConversationArea);
    (eapply areasInvariant_frame; [|exact H]).
  - apply frame_allocPlayer, frame_refl.
  - apply frame_addPlayer, frame_refl.
  - apply frame_destroySession, frame_refl.
  - apply frame_updatePlayerLocation, frame_refl.
  - apply frame_removePlayerFromConversationArea, frame_refl.
  - apply frame_updateConversationArea, frame_refl.
  - apply frame_updateJoinRequest, frame_refl.
  - apply frame_createJoinRequest, frame_refl.
  - apply frame_acceptJoinRequest, frame_refl.
  - apply frame_removeJoinRequest, frame_refl.
Qed.

Lemma frame_addPlayer_begin t u p s : frame t u → frame t (addPlayer_begin p s u).2.
Proof. intros []. by split. Qed.

Lemma frame_addPlayer_resume t u p s answer :
  frame t u → frame t (addPlayer_resume p s answer u).2.
Proof. intros []. destruct answer; by split. Qed.

Lemma areasInvariant_reachable t : reachable t → areasInvariant t.
Proof.
  induction 1 as [townID|c t _ IH|newPlayer sessionToken t _ IH|p sessionToken answer t _ IH].
  - by split.
  - by apply areasInvariant_exec.
  - eapply areasInvariant_frame; [|exact IH]. apply frame_addPlayer_begin, frame_refl.
  - eapply areasInvariant_frame; [|exact IH]. apply frame_addPlayer_resume, frame_refl.
Qed.

(** Labels are unique among the active areas of a reachable state, so an
    active area is the one found under its label. *)
Lemma active_area_found_by_label t a :
  reachable t → a ∈ _conversationAreas t →
  findAreaByLabel t (ServerConversationArea.label (getArea t a)) = Some a.
Proof.
  intros Ht Ha. apply areasInvariant_reachable in Ht as [_ _ Hlab].
  unfold findAreaByLabel. fold (labelOf t a).
  change (λ x, String.eqb (ServerConversationArea.label (getArea t x)) (labelOf t a))
    with (λ x, String.eqb (labelOf t x) (labelOf t a)).
  induction (_conversationAreas t) as [|x rest IH]; [by apply elem_of_nil in Ha|].
  destruct Hlab as [Hx Hrest]. simpl.
  destruct (String.eqb (labelOf t x) (labelOf t a)) eqn:E.
  - apply String.eqb_eq in E. apply elem_of_cons in Ha as [->|Ha]; [done|].
    rewrite Forall_forall in Hx. by destruct (Hx a Ha).
  - apply elem_of_cons in Ha as [->|Ha]; [by rewrite String.eqb_refl in E|].
    by apply IH.
Qed.

(** X24: in every state the controller can reach, [boxesOverlap] is false of
    the boxes of two distinct active areas, in either order: one of its four
    comparisons holds of the corners it computes. *)
Theorem active_areas_pass_boxesOverlap t i j a b :
  reachable t →
  i ≠ j →
  _conversationAreas t !! i = Some a →
  _conversationAreas t !! j = Some b →
  boxesOverlap (ServerConversationArea.boundingBox (getArea t a))
    (ServerConversationArea.boundingBox (getArea t b)) = false
  ∧ boxesOverlap (ServerConversationArea.boundingBox (getArea t b))
      (ServerConversationArea.boundingBox (getArea t a)) = false
  ∧ separated (ServerConversationArea.boundingBox (getArea t a))
      (ServerConversationArea.boundingBox (getArea t b)).
Proof.
  intros Ht Hij Hi Hj. rewrite <- boxesOverlap_false.
  enough (boxesOverlap (boxOf t a) (boxOf t b) = false) as H.
  { split; [exact H|]. split; [|exact H]. rewrite boxesOverlap_sym. exact H. }
  apply areasInvariant_reachable in Ht as [_ Hap _].
  destruct (decide (i < j)) as [Hlt|Hge].
  - by apply (pairwise_lookup (λ a b, boxesOverlap (boxOf t a) (boxOf t b) = false)
                (_conversationAreas t) i j).
  - rewrite boxesOverlap_sym.
    apply (pairwise_lookup (λ a b, boxesOverlap (boxOf t a) (boxOf t b) = false)
             (_conversationAreas t) j i); [done|lia|done|done].
Qed.

(** The lounge and the kitchen, which share an edge, are both active. *)
Lemma active_areas_pass_boxesOverlap_witness :
  (reachable townWithTwoRooms
   ∧ 0 ≠ 1
   ∧ _conversationAreas townWithTwoRooms !! 0 = Some 0
   ∧ _conversationAreas townWithTwoRooms !! 1 = Some 1)
  ∧ boxesOverlap (ServerConversationArea.boundingBox (getArea townWithTwoRooms 0))
      (ServerConversationArea.boundingBox (getArea townWithTwoRooms 1)) = false.
Proof.
  assert (Hr : reachable townWithTwoRooms) by apply reachable_run, reachable_new.
  assert (H0 : _conversationAreas townWithTwoRooms !! 0 = Some 0) by (vm_compute; reflexivity).
  assert (H1 : _conversationAreas townWithTwoRooms !! 1 = Some 1) by (vm_compute; reflexivity).
  assert (Hne : 0 ≠ 1) by lia.
  split; [exact (conj Hr (conj Hne (conj H0 H1)))|].
  exact (proj1 (active_areas_pass_boxesOverlap townWithTwoRooms 0 1 0 1 Hr Hne H0 H1)).
Defined.

(** C3, failing inputs.  The corners [x ± width/2] are rounded to doubles.
    Around 1e20 a box one unit wide has both its left and its right corner
    at 1e20, so [rect1.x1 >= rect2.x2] holds of a box and itself: the
    kitchen is accepted on the very box of the lounge.  Around 1e16 the
    right corner of the lounge, 1e16 + 1.5, and the left corner of the
    kitchen, 1e16 + 1.25, both become 1e16 + 2: the kitchen is accepted
    although the two rectangles share a strip 0.25 wide.  In both towns
    [boxesOverlap] is false of two active areas whose boxes overlap. *)
Theorem active_areas_overlap_after_rounding :
  let far := BoundingBox.mk 1e20 0 1 1 in
  let west := BoundingBox.mk 1e16 0 3 5 in
  let east := BoundingBox.mk 10000000000000004 0 5.5 5 in
  (reachable townWithTwinRooms
   ∧ _conversationAreas townWithTwinRooms = [0; 1]
   ∧ ServerConversationArea.boundingBox (getArea townWithTwinRooms 0) = far
   ∧ ServerConversationArea.boundingBox (getArea townWithTwinRooms 1) = far
   ∧ toRectPoints far = Rect.mk 1e20 1e20 (-0.5) 0.5
   ∧ boxesOverlap far far = false
   ∧ overlapOfNumbers far far = Some true)
  ∧ (reachable townWithCloseRooms
     ∧ _conversationAreas townWithCloseRooms = [0; 1]
     ∧ ServerConversationArea.boundingBox (getArea townWithCloseRooms 0) = west
     ∧ ServerConversationArea.boundingBox (getArea townWithCloseRooms 1) = east
     ∧ Rect.x2 (toRectPoints west) = 10000000000000002%float
     ∧ Rect.x1 (toRectPoints east) = 10000000000000002%float
     ∧ boxesOverlap west east = false
     ∧ overlapOfNumbers west east = Some true).
Proof.
  cbv zeta. split.
  - split; [apply reachable_run, reachable_new|]. vm_compute. repeat split.
  - split; [apply reachable_run, reachable_new|]. vm_compute. repeat split.
Qed.

(** * An admin leaves (C6) *)

Lemma acceptJoinRequest_stages joinRequest t :
  acceptJoinRequest joinRequest t
  = match findAreaByLabel t (JoinRequest.conversationLabel joinRequest),
          findPlayerById t (JoinRequest.playerId joinRequest) with
    | Some c, Some q =>
        (true, emit (onConversationAreaUpdated c)
                 (emit (onPlayerMoved q) (denyAllIfFull c (letIn c q joinRequest t))))
    | _, _ => (false, t)
    end.
Proof. reflexivity. Qed.

Lemma removePlayerFromConversationArea_stages player conversation t :
  removePlayerFromConversationArea player conversation t
  = closeIfEmpty conversation
      (reopen player conversation
         (withdrawOwnRequest player conversation (leaveOccupants player conversation t))).
Proof. reflexivity. Qed.

Lemma grows_refl c t : grows c t t.
Proof. by split. Qed.

Lemma grows_trans c t u v : grows c t u → grows c u v → grows c t v.
Proof.
  intros H1 H2. split.
  - rewrite (gr_areas _ _ _ H2). apply H1.
  - rewrite (gr_players _ _ _ H2). apply H1.
  - intros a. rewrite (gr_label _ _ _ H2). apply H1.
  - intros a. rewrite (gr_status _ _ _ H2). apply H1.
  - intros p. rewrite (gr_id _ _ _ H2). apply H1.
  - intros p. rewrite (gr_permissions _ _ _ H2). apply H1.
  - intros i Hi. by apply H2, H1.
  - intros p Hp. by apply H2, H1.
  - etrans; [apply H1 | apply H2].
Qed.

Lemma requests_only_grows c t u : requests_only t u → grows c t u.
Proof.
  intros H. split; try apply H.
  - apply (ro_label H).
  - apply (ro_status H).
  - apply (ro_id H).
  - apply (ro_permissions H).
  - intros i. by rewrite (ro_occupantsByID H).
  - intros p. by rewrite (ro_activeConversationArea H).
Qed.

Lemma grows_emit c t e : grows c t (emit e t).
Proof. split; try done. by apply prefix_app_r. Qed.

Lemma denyAllIfFull_requests_only c t : requests_only t (denyAllIfFull c t).
Proof.
  unfold denyAllIfFull.
  destruct (ServerConversationArea.maxOccupants _); [|apply requests_only_refl].
  destruct (Qeq_bool _ _); [|apply requests_only_refl].
  apply removeJoinRequests_requests_only.
Qed.

Create Rewrite HintDb store.

#[local] Hint Rewrite getArea_modPlayer getArea_modArea getPlayer_modPlayer getPlayer_modArea
  getArea_emit getPlayer_emit getArea_set_conversationAreas getPlayer_set_conversationAreas
  : store.

Ltac store_simpl := autorewrite with store; rewrite ?decide_True by done.

Lemma letIn_grows c q joinRequest t : grows c t (letIn c q joinRequest t).
Proof.
  unfold letIn. cbv zeta. split; try done.
  - intros a. store_simpl. by repeat case_decide; subst.
  - intros a. store_simpl. by repeat case_decide; subst.
  - intros p. store_simpl. by repeat case_decide; subst.
  - intros p. store_simpl. by repeat case_decide; subst.
  - intros i Hi. store_simpl. simpl. apply elem_of_app. by left.
  - intros p Hp. store_simpl. by repeat case_decide; subst.
Qed.

Lemma letIn_accepted c q joinRequest t :
  Player.id (getPlayer t q)
    ∈ ServerConversationArea.occupantsByID (getArea (letIn c q joinRequest t) c)
  ∧ Player.activeConversationArea (getPlayer (letIn c q joinRequest t) q) = Some c.
Proof.
  unfold letIn. cbv zeta. split.
  - store_simpl. simpl. apply elem_of_app. right. by apply list_elem_of_singleton.
  - by store_simpl.
Qed.

Lemma acceptJoinRequest_grows c joinRequest t :
  findAreaByLabel t (JoinRequest.conversationLabel joinRequest) = Some c →
  grows c t (acceptJoinRequest joinRequest t).2.
Proof.
  intros Hc. rewrite acceptJoinRequest_stages, Hc.
  destruct (findPlayerById t _) as [q|]; simpl; [|apply grows_refl].
  eapply grows_trans; [|apply grows_emit].
  eapply grows_trans; [|apply grows_emit].
  eapply grows_trans; [apply letIn_grows|].
  apply requests_only_grows, denyAllIfFull_requests_only.
Qed.

Lemma acceptJoinRequest_accepted c q joinRequest t :
  findAreaByLabel t (JoinRequest.conversationLabel joinRequest) = Some c →
  findPlayerById t (JoinRequest.playerId joinRequest) = Some q →
  Player.id (getPlayer t q)
    ∈ ServerConversationArea.occupantsByID (getArea (acceptJoinRequest joinRequest t).2 c)
  ∧ Player.activeConversationArea (getPlayer (acceptJoinRequest joinRequest t).2 q) = Some c.
Proof.
  intros Hc Hq. rewrite acceptJoinRequest_stages, Hc, Hq. simpl.
  rewrite !getArea_emit, !getPlayer_emit.
  pose proof (denyAllIfFull_requests_only c (letIn c q joinRequest t)) as Hro.
  rewrite (ro_occupantsByID Hro), (ro_activeConversationArea Hro).
  apply letIn_accepted.
Qed.

(** The cascade: every request of the list whose player is found is
    accepted into [c], also when the list is walked after some of its
    requests were denied on the way. *)
Lemma acceptJoinRequests_accepted c rs t :
  findAreaByLabel t (ServerConversationArea.label (getArea t c)) = Some c →
  Forall (λ r, JoinRequest.conversationLabel r = ServerConversationArea.label (getArea t c)) rs →
  grows c t (acceptJoinRequests rs t)
  ∧ ∀ r q, r ∈ rs → findPlayerById t (JoinRequest.playerId r) = Some q →
           Player.id (getPlayer t q)
             ∈ ServerConversationArea.occupantsByID (getArea (acceptJoinRequests rs t) c)
           ∧ Player.activeConversationArea (getPlayer (acceptJoinRequests rs t) q) = Some c.
Proof.
  unfold acceptJoinRequests. revert t.
  induction rs as [|r rs IH]; intros t Hc Hrs; simpl.
  { split; [apply grows_refl|]. intros r q Hr. by apply elem_of_nil in Hr. }
  apply Forall_cons in Hrs as [Hr Hrs].
  assert (Hcr : findAreaByLabel t (JoinRequest.conversationLabel r) = Some c) by by rewrite Hr.
  pose proof (acceptJoinRequest_grows c r t Hcr) as Hg.
  set (t' := (acceptJoinRequest r t).2) in *.
  assert (Hlab : ServerConversationArea.label (getArea t' c)
                 = ServerConversationArea.label (getArea t c)) by apply Hg.
  destruct (IH t') as [Hg' Hadm].
  { rewrite Hlab. rewrite <- Hc. apply findAreaByLabel_ext; apply Hg. }
  { by rewrite Hlab. }
  split; [by eapply grows_trans|].
  intros r0 q Hr0 Hq. apply elem_of_cons in Hr0 as [->|Hr0].
  - destruct (acceptJoinRequest_accepted c q r t Hcr Hq) as [Hocc Hmem].
    split; [by apply Hg' | by apply Hg'].
  - rewrite <- (gr_id _ _ _ Hg q). apply (Hadm r0 q Hr0).
    rewrite <- Hq. apply findPlayerById_ext; apply Hg.
Qed.

Lemma withoutRequest_elem r i rs :
  r ∈ withoutRequest i rs ↔ r ∈ rs ∧ JoinRequest.id r ≠ i.
Proof.
  unfold withoutRequest. rewrite !list_elem_of_In, filter_In, negb_true_iff.
  by rewrite String.eqb_neq.
Qed.

Lemma removeJoinRequest_pending joinRequest t a r :
  (r ∈ ServerConversationArea.joinRequests (getArea (removeJoinRequest joinRequest t).2 a) →
   r ∈ ServerConversationArea.joinRequests (getArea t a))
  ∧ (r ∈ ServerConversationArea.joinRequests (getArea t a) →
     JoinRequest.id r ≠ JoinRequest.id joinRequest →
     r ∈ ServerConversationArea.joinRequests (getArea (removeJoinRequest joinRequest t).2 a)).
Proof.
  unfold removeJoinRequest.
  destruct (findAreaByLabel t _) as [c|]; [|done].
  destruct (findPlayerById t _) as [p|]; [|done].
  simpl. rewrite !getArea_emit, getArea_modPlayer, getArea_modArea.
  destruct (decide (c = a)) as [->|]; [|done]. simpl.
  rewrite withoutRequest_elem. split; [by intros [? _] | done].
Qed.

Lemma leaveOccupants_kept player conversation t :
  let u := leaveOccupants player conversation t in
  _conversationAreas u = _conversationAreas t
  ∧ _players u = _players t
  ∧ emitted u = emitted t
  ∧ playerObjs u = playerObjs t
  ∧ ∀ a, ServerConversationArea.label (getArea u a) = ServerConversationArea.label (getArea t a)
         ∧ ServerConversationArea.joinRequests (getArea u a)
           = ServerConversationArea.joinRequests (getArea t a).
Proof.
  unfold leaveOccupants. cbv zeta.
  destruct (find _ _) as [found|]; [|done].
  destruct (String.eqb found ""); [done|].
  repeat split; try done; rewrite getArea_modArea; by case_decide; subst.
Qed.

Lemma withdrawOwnRequest_requests_only player conversation t :
  requests_only t (withdrawOwnRequest player conversation t).
Proof.
  unfold withdrawOwnRequest.
  destruct (Player.activeJoinRequest _); [|apply requests_only_refl].
  destruct (existsb _ _); [|apply requests_only_refl].
  apply removeJoinRequest_requests_only.
Qed.

Lemma withdrawOwnRequest_pending player conversation t a r :
  (r ∈ ServerConversationArea.joinRequests (getArea (withdrawOwnRequest player conversation t) a) →
   r ∈ ServerConversationArea.joinRequests (getArea t a))
  ∧ (r ∈ ServerConversationArea.joinRequests (getArea t a) →
     (∀ own, Player.activeJoinRequest (getPlayer t player) = Some own →
             JoinRequest.id r ≠ JoinRequest.id own) →
     r ∈ ServerConversationArea.joinRequests (getArea (withdrawOwnRequest player conversation t) a)).
Proof.
  unfold withdrawOwnRequest.
  destruct (Player.activeJoinRequest _) as [own|]; [|done].
  destruct (existsb _ _); [|done].
  destruct (removeJoinRequest_pending own t a r) as [Hsub Hkeep].
  split; [done|]. intros Hr Hown. apply Hkeep; [done|]. by apply Hown.
Qed.

Lemma closeIfEmpty_kept conversation t :
  let u := closeIfEmpty conversation t in
  playerObjs u = playerObjs t ∧ areaObjs u = areaObjs t
  ∧ ∃ e, emitted u = emitted t ++ [e].
Proof.
  unfold closeIfEmpty.
  destruct (ServerConversationArea.occupantsByID _); simpl; eauto.
Qed.

(** Accepting writes no permission and no status, and only adds events. *)
Lemma acceptJoinRequests_keeps rs t :
  let u := acceptJoinRequests rs t in
  (∀ p, Player.permissions (getPlayer u p) = Player.permissions (getPlayer t p))
  ∧ (∀ a, ServerConversationArea.status (getArea u a)
          = ServerConversationArea.status (getArea t a))
  ∧ emitted t `prefix_of` emitted u.
Proof.
  cbv zeta. unfold acceptJoinRequests. revert t.
  induction rs as [|r rs IH]; intros t; simpl; [done|].
  destruct (IH (acceptJoinRequest r t).2) as (Hp & Hs & He).
  assert (Hstep : (∀ p, Player.permissions (getPlayer (acceptJoinRequest r t).2 p)
                        = Player.permissions (getPlayer t p))
                  ∧ (∀ a, ServerConversationArea.status (getArea (acceptJoinRequest r t).2 a)
                          = ServerConversationArea.status (getArea t a))
                  ∧ emitted t `prefix_of` emitted (acceptJoinRequest r t).2).
  { destruct (findAreaByLabel t (JoinRequest.conversationLabel r)) as [c|] eqn:Hc.
    - pose proof (acceptJoinRequest_grows c r t Hc) as Hg.
      split; [apply Hg|]. split; apply Hg.
    - rewrite acceptJoinRequest_stages, Hc. done. }
  destruct Hstep as (Hp1 & Hs1 & He1).
  split; [|split].
  - intros p. by rewrite Hp.
  - intros a. by rewrite Hs.
  - by etrans.
Qed.

(** C6, as amended: when a player holding [Admin] is removed from an area,
    then after the call the player is [Normal], a permission event was
    emitted during the call, and the area is [Public].  If moreover the area
    is the active area of its label and its pending requests are addressed
    to it, then of the requests pending at the start every one other than
    the player's own whose requester is a player of the town has been
    accepted: the requester is among the occupants and has the area as
    active conversation area. *)
Theorem removePlayerFromConversationArea_admin player conversation t :
  Player.permissions (getPlayer t player) = Admin →
  let u := removePlayerFromConversationArea player conversation t in
  Player.permissions (getPlayer u player) = Normal
  ∧ (∃ before after,
       emitted u = emitted t ++ before ++ onPlayerPermissionUpdated player :: after)
  ∧ ServerConversationArea.status (getArea u conversation) = Public
  ∧ (findAreaByLabel t (ServerConversationArea.label (getArea t conversation))
       = Some conversation →
     Forall (λ r, JoinRequest.conversationLabel r
                  = ServerConversationArea.label (getArea t conversation))
       (ServerConversationArea.joinRequests (getArea t conversation)) →
     ∀ r q,
       r ∈ ServerConversationArea.joinRequests (getArea t conversation) →
       (∀ own, Player.activeJoinRequest (getPlayer t player) = Some own →
               JoinRequest.id r ≠ JoinRequest.id own) →
       findPlayerById t (JoinRequest.playerId r) = Some q →
       JoinRequest.playerId r ∈ ServerConversationArea.occupantsByID (getArea u conversation)
       ∧ Player.activeConversationArea (getPlayer u q) = Some conversation).
Proof.
  intros Hadmin. rewrite removePlayerFromConversationArea_stages. cbv zeta.
  destruct (leaveOccupants_kept player conversation t) as (H1l & H1p & H1e & H1o & H1a).
  set (t1 := leaveOccupants player conversation t) in *.
  assert (H1g : ∀ p, getPlayer t1 p = getPlayer t p) by (intros p; unfold getPlayer; by rewrite H1o).
  pose proof (withdrawOwnRequest_requests_only player conversation t1) as Hro.
  pose proof (withdrawOwnRequest_pending player conversation t1 conversation) as Hpend.
  set (t2 := withdrawOwnRequest player conversation t1) in *.
  assert (Hlab2 : ∀ a, ServerConversationArea.label (getArea t2 a)
                       = ServerConversationArea.label (getArea t a)).
  { intros a. rewrite (ro_label Hro). apply H1a. }
  unfold reopen. rewrite (ro_permissions Hro), H1g, Hadmin. cbv zeta.
  set (t3 := modArea conversation (ServerConversationArea.set_status Public)
               (emit (onPlayerPermissionUpdated player)
                  (modPlayer player (Player.set_permissions Normal) t2))).
  assert (Hlab3 : ∀ a, ServerConversationArea.label (getArea t3 a)
                       = ServerConversationArea.label (getArea t a)).
  { intros a. unfold t3. store_simpl. rewrite <- Hlab2. by case_decide; subst. }
  assert (Hrs3 : ServerConversationArea.joinRequests (getArea t3 conversation)
                 = ServerConversationArea.joinRequests (getArea t2 conversation)).
  { unfold t3. by store_simpl. }
  assert (Hid3 : ∀ p, Player.id (getPlayer t3 p) = Player.id (getPlayer t p)).
  { intros p. unfold t3. store_simpl. rewrite <- H1g, <- (ro_id Hro). by case_decide; subst. }
  assert (Hfa3 : ∀ l, findAreaByLabel t3 l = findAreaByLabel t l).
  { intros l. apply findAreaByLabel_ext; [|done]. simpl. by rewrite (ro_areas _ _ Hro). }
  assert (Hfp3 : ∀ i, findPlayerById t3 i = findPlayerById t i).
  { intros i. apply findPlayerById_ext; [|done]. simpl. by rewrite (ro_players _ _ Hro). }
  destruct (acceptJoinRequests_keeps
              (ServerConversationArea.joinRequests (getArea t3 conversation)) t3)
    as (Hkp & Hks & Hke).
  set (t4 := acceptJoinRequests (ServerConversationArea.joinRequests (getArea t3 conversation)) t3)
    in *.
  destruct (closeIfEmpty_kept conversation t4) as (H5p & H5a & e & H5e).
  set (u := closeIfEmpty conversation t4) in *.
  assert (H5gp : ∀ p, getPlayer u p = getPlayer t4 p) by (intros p; unfold getPlayer; by rewrite H5p).
  assert (H5ga : ∀ a, getArea u a = getArea t4 a) by (intros a; unfold getArea; by rewrite H5a).
  split; [|split; [|split]].
  - rewrite H5gp, Hkp. unfold t3. by store_simpl.
  - destruct (ro_emitted _ _ Hro) as [k1 Hk1]. destruct Hke as [k2 Hk2].
    exists k1, (k2 ++ [e]). rewrite H5e, Hk2. unfold t3. simpl. rewrite Hk1, H1e.
    by rewrite <- !app_assoc.
  - rewrite H5ga, Hks. unfold t3. by store_simpl.
  - intros Hactive Hlabels r q Hr Hown Hq. rewrite H5ga, H5gp.
    destruct (acceptJoinRequests_accepted conversation
                (ServerConversationArea.joinRequests (getArea t3 conversation)) t3)
      as [Hg Hadm].
    { by rewrite Hlab3, Hfa3. }
    { rewrite Hlab3, Hrs3. rewrite Forall_forall in Hlabels |- *.
      intros r0 Hr0. apply Hlabels. rewrite <- (proj2 (H1a conversation)). by apply Hpend. }
    assert (Hr3 : r ∈ ServerConversationArea.joinRequests (getArea t3 conversation)).
    { rewrite Hrs3. apply Hpend.
      - by rewrite (proj2 (H1a conversation)).
      - intros own. rewrite H1g. apply Hown. }
    rewrite <- Hfp3 in Hq. destruct (Hadm r q Hr3 Hq) as [Hocc Hmem].
    split; [|done]. rewrite Hfp3 in Hq. apply findPlayerById_Some in Hq as [_ <-].
    by rewrite <- Hid3.
Qed.

(** C6, counterexample: bob holds [Admin] and his own request is pending on
    the lounge he is removed from; that request is denied, not accepted, and
    bob is not among the occupants afterwards. *)
Lemma admin_leaving_denies_own_request :
  ¬ admin_leaving_accepts_all 1 0 townWithBobInside.
Proof.
  unfold admin_leaving_accepts_all. intros H.
  assert (Hadmin : Player.permissions (getPlayer townWithBobInside 1) = Admin)
    by (vm_compute; reflexivity).
  destruct (H Hadmin) as (_ & _ & Hall). clear H.
  assert (Hr : JoinRequest.mk "request-bob" "bob" "lounge"
               ∈ ServerConversationArea.joinRequests (getArea townWithBobInside 0)).
  { replace (ServerConversationArea.joinRequests (getArea townWithBobInside 0))
      with [JoinRequest.mk "request-bob" "bob" "lounge"] by (vm_compute; reflexivity).
    apply list_elem_of_singleton. reflexivity. }
  destruct (Hall _ Hr) as [Hocc _]. clear -Hocc.
  replace (ServerConversationArea.occupantsByID
             (getArea (removePlayerFromConversationArea 1 0 townWithBobInside) 0))
    with ["ann"] in Hocc by (vm_compute; reflexivity).
  apply list_elem_of_singleton in Hocc. discriminate.
Qed.

(** The request of a player who has left the town is not accepted either:
    when ann leaves her lounge after bob disconnected, bob's request stays
    behind and nobody is let in. *)
Lemma admin_leaving_skips_absent_requester :
  ¬ admin_leaving_accepts_all 0 0 townAfterBobLeft.
Proof.
  unfold admin_leaving_accepts_all. intros H.
  assert (Hadmin : Player.permissions (getPlayer townAfterBobLeft 0) = Admin)
    by (vm_compute; reflexivity).
  destruct (H Hadmin) as (_ & _ & Hall). clear H.
  assert (Hr : JoinRequest.mk "request-bob" "bob" "lounge"
               ∈ ServerConversationArea.joinRequests (getArea townAfterBobLeft 0)).
  { replace (ServerConversationArea.joinRequests (getArea townAfterBobLeft 0))
      with [JoinRequest.mk "request-bob" "bob" "lounge"] by (vm_compute; reflexivity).
    apply list_elem_of_singleton. reflexivity. }
  destruct (Hall _ Hr) as [Hocc _]. clear -Hocc.
  replace (ServerConversationArea.occupantsByID
             (getArea (removePlayerFromConversationArea 0 0 townAfterBobLeft) 0))
    with (@nil string) in Hocc by (vm_compute; reflexivity).
  by apply elem_of_nil in Hocc.
Qed.

(** Nor is a request pending on an area that is not the active area of its
    label: cat is taken out of the den, which had gone off the list; dan's
    request is addressed to the den, not cat's own, and dan is a player of
    the town, but under the label "den" no active area is found and dan is
    not let in. *)
Lemma admin_leaving_unlisted_area :
  reachable townWithDroppedDen
  ∧ findAreaByLabel townWithDroppedDen
      (ServerConversationArea.label (getArea townWithDroppedDen 1)) = None
  ∧ Forall (λ r, JoinRequest.conversationLabel r
                 = ServerConversationArea.label (getArea townWithDroppedDen 1))
      (ServerConversationArea.joinRequests (getArea townWithDroppedDen 1))
  ∧ ¬ admin_leaving_accepts_others 1 1 townWithDroppedDen.
Proof.
  split; [apply reachable_run, reachable_new|].
  assert (Hrs : ServerConversationArea.joinRequests (getArea townWithDroppedDen 1)
                = [JoinRequest.mk "request-dan" "dan" "den"]) by (vm_compute; reflexivity).
  split; [vm_compute; reflexivity|]. split.
  { rewrite Hrs. replace (ServerConversationArea.label (getArea townWithDroppedDen 1))
      with "den" by (vm_compute; reflexivity). repeat constructor. }
  unfold admin_leaving_accepts_others. intros H.
  assert (Hadmin : Player.permissions (getPlayer townWithDroppedDen 1) = Admin)
    by (vm_compute; reflexivity).
  specialize (H Hadmin (JoinRequest.mk "request-dan" "dan" "den") 2). clear Hadmin.
  destruct H as [Hocc _].
  - rewrite Hrs. apply list_elem_of_here.
  - intros own Hown. exfalso. clear -Hown. vm_compute in Hown. discriminate Hown.
  - vm_compute. reflexivity.
  - clear -Hocc.
    replace (ServerConversationArea.occupantsByID
               (getArea (removePlayerFromConversationArea 1 1 townWithDroppedDen) 1))
      with (@nil string) in Hocc by (vm_compute; reflexivity).
    by apply elem_of_nil in Hocc.
Qed.

(** Nor is a request addressed to another label: ann is taken out of her
    lounge, the active area of its label; the request of bob listed on it
    names a den, which no active area is, and bob is not let in. *)
Lemma admin_leaving_request_for_elsewhere :
  reachable townWithForeignRequest
  ∧ findAreaByLabel townWithForeignRequest
      (ServerConversationArea.label (getArea townWithForeignRequest 0)) = Some 0
  ∧ ServerConversationArea.occupantsByID (getArea townWithForeignRequest 0) = ["ann"]
  ∧ ServerConversationArea.joinRequests (getArea townWithForeignRequest 0)
    = [JoinRequest.mk "request-bob" "bob" "den"]
  ∧ ¬ admin_leaving_accepts_others 0 0 townWithForeignRequest.
Proof.
  split; [apply reachable_run, reachable_new|].
  assert (Hrs : ServerConversationArea.joinRequests (getArea townWithForeignRequest 0)
                = [JoinRequest.mk "request-bob" "bob" "den"]) by (vm_compute; reflexivity).
  split; [vm_compute; reflexivity|]. split; [vm_compute; reflexivity|]. split; [exact Hrs|].
  unfold admin_leaving_accepts_others. intros H.
  assert (Hadmin : Player.permissions (getPlayer townWithForeignRequest 0) = Admin)
    by (vm_compute; reflexivity).
  specialize (H Hadmin (JoinRequest.mk "request-bob" "bob" "den") 1). clear Hadmin.
  destruct H as [Hocc _].
  - rewrite Hrs. apply list_elem_of_here.
  - intros own Hown. exfalso. clear -Hown. vm_compute in Hown. discriminate Hown.
  - vm_compute. reflexivity.
  - clear -Hocc.
    replace (ServerConversationArea.occupantsByID
               (getArea (removePlayerFromConversationArea 0 0 townWithForeignRequest) 0))
      with (@nil string) in Hocc by (vm_compute; reflexivity).
    by apply elem_of_nil in Hocc.
Qed.

(** ann is taken out of her lounge for two while bob, cat and dan are waiting:
    dan, third in line, is let in as well. *)
Lemma removePlayerFromConversationArea_admin_witness :
  (Player.permissions (getPlayer townWithThreeRequests 0) = Admin
   ∧ findAreaByLabel townWithThreeRequests
       (ServerConversationArea.label (getArea townWithThreeRequests 0)) = Some 0
   ∧ Forall (λ r, JoinRequest.conversationLabel r
                  = ServerConversationArea.label (getArea townWithThreeRequests 0))
       (ServerConversationArea.joinRequests (getArea townWithThreeRequests 0)))
  ∧ Player.permissions
      (getPlayer (removePlayerFromConversationArea 0 0 townWithThreeRequests) 0) = Normal
  ∧ ServerConversationArea.status
      (getArea (removePlayerFromConversationArea 0 0 townWithThreeRequests) 0) = Public
  ∧ "dan" ∈ ServerConversationArea.occupantsByID
              (getArea (removePlayerFromConversationArea 0 0 townWithThreeRequests) 0)
  ∧ Player.activeConversationArea
      (getPlayer (removePlayerFromConversationArea 0 0 townWithThreeRequests) 3) = Some 0.
Proof.
  assert (Hadmin : Player.permissions (getPlayer townWithThreeRequests 0) = Admin)
    by (vm_compute; reflexivity).
  assert (Hactive : findAreaByLabel townWithThreeRequests
            (ServerConversationArea.label (getArea townWithThreeRequests 0)) = Some 0)
    by (vm_compute; reflexivity).
  assert (Hrs : ServerConversationArea.joinRequests (getArea townWithThreeRequests 0)
                = [JoinRequest.mk "request-bob" "bob" "lounge";
                   JoinRequest.mk "request-cat" "cat" "lounge";
                   JoinRequest.mk "request-dan" "dan" "lounge"])
    by (vm_compute; reflexivity).
  assert (Hlabels : Forall (λ r, JoinRequest.conversationLabel r
                      = ServerConversationArea.label (getArea townWithThreeRequests 0))
            (ServerConversationArea.joinRequests (getArea townWithThreeRequests 0))).
  { rewrite Hrs.
    replace (ServerConversationArea.label (getArea townWithThreeRequests 0))
      with "lounge" by (vm_compute; reflexivity).
    repeat constructor. }
  split; [exact (conj Hadmin (conj Hactive Hlabels))|].
  destruct (removePlayerFromConversationArea_admin 0 0 townWithThreeRequests Hadmin)
    as (Hnormal & _ & Hpublic & Haccepted).
  split; [exact Hnormal|]. split; [exact Hpublic|].
  apply (Haccepted Hactive Hlabels (JoinRequest.mk "request-dan" "dan" "lounge") 3).
  - rewrite Hrs. do 2 apply list_elem_of_further. apply list_elem_of_here.
  - intros own Hown.
    replace (Player.activeJoinRequest (getPlayer townWithThreeRequests 0))
      with (@None JoinRequest.t) in Hown by (vm_compute; reflexivity).
    discriminate Hown.
  - vm_compute. reflexivity.
Defined.

(** * What leaving an area keeps *)

Lemma departed_refl t : departed t t.
Proof. split; try done. intros a. by split; [|left]. Qed.

Lemma departed_trans t u v : departed t u → departed u v → departed t v.
Proof.
  intros [Hp1 Hs1 Hl1 Ha1 Hq1 He1] [Hp2 Hs2 Hl2 Ha2 Hq2 He2]. split.
  - congruence.
  - congruence.
  - by trans (_conversationAreas u).
  - intros a. destruct (Ha1 a) as [Hf1 Hst1], (Ha2 a) as [Hf2 Hst2].
    split; [congruence|]. destruct Hst2 as [Hst2|Hst2]; [|by right].
    rewrite Hst2. exact Hst1.
  - intros p. by rewrite Hq2.
  - by trans (emitted u).
Qed.

Lemma departed_emit t u e : departed t u → departed t (emit e u).
Proof.
  intros [Hp Hs Hl Ha Hq He]. split; try done.
  simpl. trans (emitted u); [done|]. by apply prefix_app_r.
Qed.

Lemma departed_modPlayer t u p f :
  (∀ x, playerFrame (f x) = playerFrame x) → departed t u → departed t (modPlayer p f u).
Proof.
  intros Hf [Hp Hs Hl Ha Hq He]. split; try done.
  intros q. rewrite getPlayer_modPlayer. case_decide; subst; [rewrite Hf|]; apply Hq.
Qed.

Lemma departed_modArea t u a f :
  (∀ x, areaFrame (f x) = areaFrame x
        ∧ (ServerConversationArea.status (f x) = ServerConversationArea.status x
           ∨ ServerConversationArea.status (f x) = Public)) →
  departed t u → departed t (modArea a f u).
Proof.
  intros Hf [Hp Hs Hl Ha Hq He]. split; try done.
  intros b. rewrite getArea_modArea. case_decide; subst; [|apply Ha].
  destruct (Hf (getArea u b)) as [Hfr Hst], (Ha b) as [Hfr' Hst'].
  split; [congruence|]. destruct Hst as [Hst|Hst]; [|by right].
  rewrite Hst. exact Hst'.
Qed.

Lemma departed_splice t u i :
  departed t u → departed t (set_conversationAreas (splice1 i (_conversationAreas u)) u).
Proof.
  intros [Hp Hs Hl Ha Hq He]. split; try done.
  simpl. etrans; [apply splice1_sublist|done].
Qed.

Lemma departed_requests_only t u v : requests_only u v → departed t u → departed t v.
Proof.
  intros H Hd. eapply departed_trans; [exact Hd|]. split.
  - apply H.
  - apply H.
  - by rewrite (ro_areas _ _ H).
  - intros a. split; [|left; apply (ro_status H)].
    unfold areaFrame. f_equal; [f_equal; [f_equal|]|].
    + apply (ro_label H).
    + exact (f_equal ServerConversationArea.topic (ro_area _ _ H a)).
    + apply (ro_boundingBox H).
    + apply (ro_maxOccupants H).
  - intros p. unfold playerFrame. f_equal; [f_equal|].
    + apply (ro_id H).
    + exact (f_equal Player.userName (ro_player _ _ H p)).
    + by rewrite (ro_location H).
  - apply H.
Qed.

Lemma departed_removeJoinRequest t u jr : departed t u → departed t (removeJoinRequest jr u).2.
Proof. apply departed_requests_only, removeJoinRequest_requests_only. Qed.

Lemma departed_removeJoinRequests t u rs : departed t u → departed t (removeJoinRequests rs u).
Proof. apply departed_requests_only, removeJoinRequests_requests_only. Qed.

Ltac peel_departed_step :=
  match goal with
  | H : departed ?t ?u |- departed ?t ?u => exact H
  | |- departed ?t ?t => apply departed_refl
  | |- departed _ (emit _ _) => apply departed_emit
  | |- departed _ (modPlayer _ _ _) => apply departed_modPlayer; [intros ?; reflexivity|]
  | |- departed _ (modArea _ _ _) =>
      apply departed_modArea;
      [intros ?; split; [reflexivity | first [left; reflexivity | right; reflexivity]]|]
  | |- departed _ (set_conversationAreas (splice1 _ _) _) => apply departed_splice
  | |- departed _ (snd (removeJoinRequest _ _)) => apply departed_removeJoinRequest
  | |- departed _ (removeJoinRequests _ _) => apply departed_removeJoinRequests
  | |- departed _ (snd (match ?s with _ => _ end)) => destruct s; cbn [snd]
  | |- departed _ (match ?s with _ => _ end) => destruct s
  end.

Lemma departed_acceptJoinRequest t u jr : departed t u → departed t (acceptJoinRequest jr u).2.
Proof. intros H. unfold acceptJoinRequest. cbv zeta. repeat peel_departed_step. Qed.

Lemma departed_acceptJoinRequests t u rs : departed t u → departed t (acceptJoinRequests rs u).
Proof.
  unfold acceptJoinRequests. revert u.
  induction rs as [|r rs IH]; intros u H; simpl; [done|].
  by apply IH, departed_acceptJoinRequest.
Qed.

Lemma departed_removePlayerFromConversationArea t u p c :
  departed t u → departed t (removePlayerFromConversationArea p c u).
Proof.
  intros H. unfold removePlayerFromConversationArea. cbv zeta.
  repeat first [peel_departed_step | apply departed_acceptJoinRequests].
Qed.

Lemma emitted_emit e t : emitted (emit e t) = emitted t ++ [e].
Proof. reflexivity. Qed.

Lemma last_emit e t : last (emitted (emit e t)) = Some e.
Proof. rewrite emitted_emit. apply last_snoc. Qed.

Lemma find_filter_none {A} (f : A → bool) (l : list A) :
  find f (List.filter (λ x, negb (f x)) l) = None.
Proof.
  induction l as [|a l IH]; simpl; [done|].
  destruct (f a) eqn:E; simpl; [done|]. by rewrite E.
Qed.

(** * Leaving the town *)

(** X1: after [destroySession] no listed player has the id of the session's
    player and no session has its token; the other players and sessions are
    kept in order, and the disconnection was announced. *)
Theorem destroySession_forgets_player_and_session session t :
  let sp := PlayerSession.player session in
  let u := destroySession session t in
  findPlayerById u (Player.id (getPlayer t sp)) = None
  ∧ getSessionByToken (PlayerSession.sessionToken session) u = None
  ∧ _players u
    = List.filter (λ p, negb (String.eqb (Player.id (getPlayer t p)) (Player.id (getPlayer t sp))))
        (_players t)
  ∧ _sessions u
    = List.filter (λ s, negb (String.eqb (PlayerSession.sessionToken s)
                               (PlayerSession.sessionToken session)))
        (_sessions t)
  ∧ ∃ later, emitted u = emitted t ++ onPlayerDisconnected sp :: later.
Proof.
  cbv zeta. unfold destroySession. cbv zeta.
  set (sp := PlayerSession.player session).
  set (t3 := emit (onPlayerDisconnected sp)
               (set_sessions _ (set_players _ t))).
  assert (Hd : departed t3 match Player.activeConversationArea (getPlayer t3 sp) with
                           | Some conversation => removePlayerFromConversationArea sp conversation t3
                           | None => t3
                           end).
  { destruct (Player.activeConversationArea _);
      [apply departed_removePlayerFromConversationArea|]; apply departed_refl. }
  destruct Hd as [Hp Hs _ _ Hq [later He]].
  set (u := match Player.activeConversationArea (getPlayer t3 sp) with
            | Some conversation => removePlayerFromConversationArea sp conversation t3
            | None => t3
            end) in *.
  assert (Hid : ∀ p, Player.id (getPlayer u p) = Player.id (getPlayer t p)).
  { intros p. exact (f_equal (λ x, x.1.1) (Hq p)). }
  split; [|split; [|split; [exact Hp | split; [exact Hs|]]]].
  - rewrite (findPlayerById_ext t3 u); [|exact Hp|intros p; by rewrite Hid].
    unfold findPlayerById. simpl. apply find_filter_none.
  - unfold getSessionByToken. rewrite Hs. simpl. apply find_filter_none.
  - exists later. rewrite He. simpl. by rewrite <- app_assoc.
Qed.

(** * Joining the town *)

Lemma insert_last {A} (l : list A) (x y : A) : <[length l := y]> (l ++ [x]) = l ++ [y].
Proof. rewrite insert_app_r_alt by lia. by rewrite Nat.sub_diag. Qed.

Lemma find_snoc_fresh {A} (f : A → bool) (l : list A) (x : A) :
  find f l = None → f x = true → find f (l ++ [x]) = Some x.
Proof.
  intros Hnone Hx. induction l as [|a l IH]; simpl in *; [by rewrite Hx|].
  destruct (f a); [done|]. by apply IH.
Qed.

(** * Moving *)

Lemma standsAt_emit p l e u : standsAt p l u → standsAt p l (emit e u).
Proof. done. Qed.

Lemma standsAt_modArea p l a f u : standsAt p l u → standsAt p l (modArea a f u).
Proof. done. Qed.

Lemma standsAt_set_location p l u : standsAt p l (modPlayer p (Player.set_location l) u).
Proof. unfold standsAt. by rewrite getPlayer_modPlayer_eq. Qed.

Lemma standsAt_keepLabel p l c u :
  standsAt p l
    (modPlayer p (λ x, Player.set_location (UserLocation.set_conversationLabel (c x) l) x) u).
Proof. unfold standsAt. by rewrite getPlayer_modPlayer_eq. Qed.

Lemma standsAt_modPlayer p l q f u :
  (∀ x, playerFrame (f x) = playerFrame x) → standsAt p l u → standsAt p l (modPlayer q f u).
Proof.
  unfold standsAt. intros Hf H. rewrite getPlayer_modPlayer.
  case_decide; subst; [|done].
  rewrite <- H. exact (f_equal snd (Hf _)).
Qed.

Lemma standsAt_departed p l u v : departed u v → standsAt p l u → standsAt p l v.
Proof.
  unfold standsAt. intros Hd H. rewrite <- H. exact (f_equal snd (dp_player _ _ Hd p)).
Qed.

Ltac peel_standsAt_step :=
  match goal with
  | H : standsAt ?p ?l ?u |- standsAt ?p ?l ?u => exact H
  | |- standsAt _ _ (emit _ _) => apply standsAt_emit
  | |- standsAt _ _ (modArea _ _ _) => apply standsAt_modArea
  | |- standsAt _ _ (modPlayer _ _ _) =>
      first [ apply standsAt_set_location
            | apply (standsAt_keepLabel _ _ (λ x, orUndefined _))
            | apply standsAt_modPlayer; [intros ?; reflexivity|] ]
  | |- standsAt _ _ (removePlayerFromConversationArea _ _ _) =>
      eapply standsAt_departed;
      [apply departed_removePlayerFromConversationArea, departed_refl|]
  | |- standsAt _ _ (snd (removeJoinRequest _ _)) =>
      eapply standsAt_departed; [apply departed_removeJoinRequest, departed_refl|]
  | f := _ : Town → Town |- standsAt _ _ (?g _) => unify f g; unfold f
  | |- standsAt _ _ (match ?s with _ => _ end) => destruct s
  end.

(** The states of a method are taken one [let] at a time: what is known of a
    state is proved when it is bound, and its construction is then forgotten. *)
Ltac standsAt_steps :=
  repeat first
    [ peel_standsAt_step
    | lazymatch goal with
      | |- standsAt ?p ?l (let x := ?v in @?b x) =>
          let y := fresh x in
          pose (y := v); change (standsAt p l (b y)); cbv beta;
          lazymatch type of y with
          | Town =>
              let H := fresh "H" in
              assert (H : standsAt p l y) by (subst y; standsAt_steps);
              clearbody y
          | Town → Town => idtac
          | _ => clearbody y
          end
      end ].

(** X3: whatever branch [updatePlayerLocation] takes, the player is afterwards
    stored at the reported coordinates, facing and moving as reported; only
    the conversation label may differ from the report. *)
Theorem updatePlayerLocation_stores_position player location t :
  let l := Player.location (getPlayer (updatePlayerLocation player location t) player) in
  UserLocation.x l = UserLocation.x location
  ∧ UserLocation.y l = UserLocation.y location
  ∧ UserLocation.rotation l = UserLocation.rotation location
  ∧ UserLocation.moving l = UserLocation.moving location.
Proof.
  cbv zeta.
  enough (H : standsAt player location (updatePlayerLocation player location t)).
  { unfold standsAt, position in H.
    repeat split.
    - exact (f_equal UserLocation.x H).
    - exact (f_equal UserLocation.y H).
    - exact (f_equal UserLocation.rotation H).
    - exact (f_equal UserLocation.moving H). }
  cbv beta delta [updatePlayerLocation].
  standsAt_steps.
Qed.

(** X4: unless the reported label names a do-not-disturb area, the last event
    of [updatePlayerLocation] is the player's [onPlayerMoved]. *)
Theorem updatePlayerLocation_emits_moved_last player location t :
  (∀ c, findAreaByOptLabel t (UserLocation.conversationLabel location) = Some c →
        ServerConversationArea.status (getArea t c) ≠ DoNotDisturb) →
  last (emitted (updatePlayerLocation player location t)) = Some (onPlayerMoved player).
Proof.
  intros Hopen. unfold updatePlayerLocation. cbv beta zeta.
  change (findAreaByOptLabel (modPlayer player (Player.set_location location) t)
            (UserLocation.conversationLabel location))
    with (findAreaByOptLabel t (UserLocation.conversationLabel location)).
  destruct (findAreaByOptLabel t (UserLocation.conversationLabel location)) as [c|] eqn:Hc.
  - rewrite getArea_modPlayer. specialize (Hopen c eq_refl).
    destruct (ServerConversationArea.status (getArea t c)) eqn:Hs; [|done|]; simpl;
      apply last_emit.
  - apply last_emit.
Qed.

(** bob, in no area, walks through the town of ann's open lounge. *)
Lemma updatePlayerLocation_emits_moved_last_witness :
  (∀ c, findAreaByOptLabel townWithRequest
          (UserLocation.conversationLabel (UserLocation.mk 9 9 Front true None)) = Some c →
        ServerConversationArea.status (getArea townWithRequest c) ≠ DoNotDisturb)
  ∧ last (emitted (updatePlayerLocation 1 (UserLocation.mk 9 9 Front true None) townWithRequest))
    = Some (onPlayerMoved 1).
Proof.
  assert (H : ∀ c, findAreaByOptLabel townWithRequest
                (UserLocation.conversationLabel (UserLocation.mk 9 9 Front true None)) = Some c →
              ServerConversationArea.status (getArea townWithRequest c) ≠ DoNotDisturb)
    by (intros c Hc; discriminate Hc).
  split; [exact H|].
  exact (updatePlayerLocation_emits_moved_last 1 (UserLocation.mk 9 9 Front true None)
           townWithRequest H).
Defined.

(** * Leaving a conversation area *)

(** X5: [removePlayerFromConversationArea], with the denials and acceptances
    it starts, writes neither the list of players nor the sessions; it opens
    no area and changes no label, topic, box or capacity; a status changes
    to [Public] or not at all; every player keeps id, name and position; and
    events are only added. *)
Theorem removePlayerFromConversationArea_keeps player conversation t :
  let u := removePlayerFromConversationArea player conversation t in
  _players u = _players t
  ∧ _sessions u = _sessions t
  ∧ _conversationAreas u `sublist_of` _conversationAreas t
  ∧ (∀ a, ServerConversationArea.label (getArea u a) = ServerConversationArea.label (getArea t a)
          ∧ ServerConversationArea.topic (getArea u a) = ServerConversationArea.topic (getArea t a)
          ∧ ServerConversationArea.boundingBox (getArea u a)
            = ServerConversationArea.boundingBox (getArea t a)
          ∧ ServerConversationArea.maxOccupants (getArea u a)
            = ServerConversationArea.maxOccupants (getArea t a)
          ∧ (ServerConversationArea.status (getArea u a)
             = ServerConversationArea.status (getArea t a)
             ∨ ServerConversationArea.status (getArea u a) = Public))
  ∧ (∀ p, Player.id (getPlayer u p) = Player.id (getPlayer t p)
          ∧ Player.userName (getPlayer u p) = Player.userName (getPlayer t p)
          ∧ UserLocation.x (Player.location (getPlayer u p))
            = UserLocation.x (Player.location (getPlayer t p))
          ∧ UserLocation.y (Player.location (getPlayer u p))
            = UserLocation.y (Player.location (getPlayer t p)))
  ∧ emitted t `prefix_of` emitted u.
Proof.
  cbv zeta.
  destruct (departed_removePlayerFromConversationArea t t player conversation (departed_refl t))
    as [Hp Hs Ha Hf Hq He].
  split; [exact Hp|]. split; [exact Hs|]. split; [exact Ha|].
  split; [|split; [|exact He]].
  - intros a. destruct (Hf a) as [Hfr Hst].
    split; [exact (f_equal (λ x, x.1.1.1) Hfr)|].
    split; [exact (f_equal (λ x, x.1.1.2) Hfr)|].
    split; [exact (f_equal (λ x, x.1.2) Hfr)|].
    split; [exact (f_equal (λ x, x.2) Hfr) | exact Hst].
  - intros p. pose proof (Hq p) as Hfr.
    split; [exact (f_equal (λ x, x.1.1) Hfr)|].
    split; [exact (f_equal (λ x, x.1.2) Hfr)|].
    split; [exact (f_equal (λ x, UserLocation.x x.2) Hfr)
           | exact (f_equal (λ x, UserLocation.y x.2) Hfr)].
Qed.

Lemma findIndex_absent (c : ref) (l : list ref) : c ∉ l → findIndex (Nat.eqb c) l = None.
Proof.
  induction l as [|a l IH]; simpl; [done|].
  intros Hc. apply not_elem_of_cons in Hc as [Hne Hc].
  destruct (Nat.eqb_spec c a); [done|]. by rewrite IH.
Qed.

Lemma filter_absent (c : ref) (l : list ref) :
  c ∉ l → List.filter (λ a, negb (Nat.eqb c a)) l = l.
Proof.
  induction l as [|b l IH]; simpl; [done|].
  intros Hc. apply not_elem_of_cons in Hc as [Hne Hc].
  destruct (Nat.eqb_spec c b); [done|]. simpl. f_equal. by apply IH.
Qed.

Lemma findIndex_present (c : ref) (l : list ref) : c ∈ l → is_Some (findIndex (Nat.eqb c) l).
Proof.
  induction l as [|b l IH]; intros Hc; [by apply elem_of_nil in Hc|].
  simpl. destruct (Nat.eqb_spec c b); [by eexists|].
  apply elem_of_cons in Hc as [->|Hc]; [done|].
  destruct (IH Hc) as [i ->]. by eexists.
Qed.

Lemma splice1_findIndex_NoDup (c : ref) (l : list ref) :
  NoDup l → c ∈ l →
  splice1 (findIndex (Nat.eqb c) l) l = List.filter (λ a, negb (Nat.eqb c a)) l.
Proof.
  induction l as [|a l IH]; intros Hnd Hc; [by apply elem_of_nil in Hc|].
  apply NoDup_cons in Hnd as [Ha Hnd]. simpl.
  destruct (Nat.eqb_spec c a) as [->|Hne]; simpl.
  - symmetry. by apply filter_absent.
  - apply elem_of_cons in Hc as [->|Hc]; [done|].
    specialize (IH Hnd Hc). destruct (findIndex_present c l Hc) as [i Hi].
    rewrite Hi in *. simpl in *. by f_equal.
Qed.

(** When a player without [Admin] permission is taken out and the area has
    no occupant left, the area is spliced out of the active ones at the
    index [findIndex] gives, and its destruction is the last event. *)
Lemma removePlayerFromConversationArea_empty player conversation t :
  ServerConversationArea.occupantsByID (getArea (leaveOccupants player conversation t) conversation)
    = [] →
  Player.permissions (getPlayer t player) = Normal →
  let u := removePlayerFromConversationArea player conversation t in
  _conversationAreas u
    = splice1 (findIndex (Nat.eqb conversation) (_conversationAreas t)) (_conversationAreas t)
  ∧ ServerConversationArea.occupantsByID (getArea u conversation) = []
  ∧ last (emitted u) = Some (onConversationAreaDestroyed conversation).
Proof.
  intros Hocc Hperm. cbv zeta. rewrite removePlayerFromConversationArea_stages.
  destruct (leaveOccupants_kept player conversation t) as (Hl & _ & _ & Hobjs & _).
  set (t1 := leaveOccupants player conversation t) in *.
  pose proof (withdrawOwnRequest_requests_only player conversation t1) as Hro.
  set (t2 := withdrawOwnRequest player conversation t1) in *.
  assert (Hperm2 : Player.permissions (getPlayer t2 player) = Normal).
  { rewrite (ro_permissions Hro). unfold getPlayer. by rewrite Hobjs. }
  assert (Hocc2 : ServerConversationArea.occupantsByID (getArea t2 conversation) = []).
  { by rewrite (ro_occupantsByID Hro). }
  unfold reopen. rewrite Hperm2. unfold closeIfEmpty. rewrite Hocc2.
  split; [|split].
  - simpl. by rewrite (ro_areas _ _ Hro), Hl.
  - rewrite getArea_emit, getArea_set_conversationAreas. exact Hocc2.
  - apply last_emit.
Qed.

(** X6: when the only occupant of an active area, not its admin, is taken out
    of it, the area leaves the active ones, which are otherwise kept in
    order, and [onConversationAreaDestroyed] is the last event. *)
Theorem removePlayerFromConversationArea_closes_area player conversation t :
  NoDup (_conversationAreas t) →
  conversation ∈ _conversationAreas t →
  ServerConversationArea.occupantsByID (getArea t conversation)
    = [Player.id (getPlayer t player)] →
  Player.id (getPlayer t player) ≠ "" →
  Player.permissions (getPlayer t player) = Normal →
  let u := removePlayerFromConversationArea player conversation t in
  _conversationAreas u
    = List.filter (λ a, negb (Nat.eqb conversation a)) (_conversationAreas t)
  ∧ ServerConversationArea.occupantsByID (getArea u conversation) = []
  ∧ last (emitted u) = Some (onConversationAreaDestroyed conversation).
Proof.
  intros Hnd Hin Hocc Hid Hperm. cbv zeta.
  rewrite <- (splice1_findIndex_NoDup conversation _ Hnd Hin).
  apply removePlayerFromConversationArea_empty; [|exact Hperm].
  unfold leaveOccupants. cbv zeta. rewrite Hocc. simpl. rewrite String.eqb_refl.
  destruct (String.eqb_spec (Player.id (getPlayer t player)) ""); [done|].
  by rewrite getArea_modArea_eq.
Qed.

(** bob walked into ann's public lounge after she left it for good. *)
Lemma removePlayerFromConversationArea_closes_area_witness :
  let t := run [UpdateConversationArea "lounge" 0 (Some Public) None;
                UpdatePlayerLocation 1 (UserLocation.mk 0 0 Front false (Some "lounge"));
                UpdatePlayerLocation 0 (UserLocation.mk 30 30 Front false None)]
             townWithRequest in
  (NoDup (_conversationAreas t)
   ∧ 0 ∈ _conversationAreas t
   ∧ ServerConversationArea.occupantsByID (getArea t 0) = [Player.id (getPlayer t 1)]
   ∧ Player.id (getPlayer t 1) ≠ ""
   ∧ Player.permissions (getPlayer t 1) = Normal)
  ∧ _conversationAreas (removePlayerFromConversationArea 1 0 t) = [].
Proof.
  cbv zeta.
  set (t := run _ townWithRequest).
  assert (H1 : NoDup (_conversationAreas t)) by (vm_compute; apply NoDup_singleton).
  assert (H2 : 0 ∈ _conversationAreas t) by (vm_compute; apply list_elem_of_here).
  assert (H3 : ServerConversationArea.occupantsByID (getArea t 0) = [Player.id (getPlayer t 1)])
    by (vm_compute; reflexivity).
  assert (H4 : Player.id (getPlayer t 1) ≠ "") by (vm_compute; discriminate).
  assert (H5 : Player.permissions (getPlayer t 1) = Normal) by (vm_compute; reflexivity).
  split; [exact (conj H1 (conj H2 (conj H3 (conj H4 H5))))|].
  rewrite (proj1 (removePlayerFromConversationArea_closes_area 1 0 t H1 H2 H3 H4 H5)).
  vm_compute. reflexivity.
Defined.

(** X7: when a player without [Admin] permission is taken out of an area that
    has no occupants and is not among the active ones, [findIndex] gives -1
    and [splice(-1, 1)] takes the last active area off the list, whichever it
    is; the event names the area asked for. *)
Theorem removePlayerFromConversationArea_of_closed_area player conversation t :
  conversation ∉ _conversationAreas t →
  ServerConversationArea.occupantsByID (getArea t conversation) = [] →
  Player.permissions (getPlayer t player) = Normal →
  let u := removePlayerFromConversationArea player conversation t in
  _conversationAreas u = removelast (_conversationAreas t)
  ∧ last (emitted u) = Some (onConversationAreaDestroyed conversation).
Proof.
  intros Hout Hocc Hperm. cbv zeta.
  destruct (removePlayerFromConversationArea_empty player conversation t) as (Hl & _ & He).
  - unfold leaveOccupants. cbv zeta. rewrite Hocc. simpl. exact Hocc.
  - exact Hperm.
  - split; [|exact He]. rewrite Hl, findIndex_absent by exact Hout. reflexivity.
Qed.

(** ann, whose lounge has closed, is taken out of it once more: cat's den,
    the one active area, is taken off the list with cat inside. *)
Lemma removePlayerFromConversationArea_of_closed_area_witness :
  ((0 ∉ _conversationAreas townWithClosedLounge)
   ∧ ServerConversationArea.occupantsByID (getArea townWithClosedLounge 0) = []
   ∧ Player.permissions (getPlayer townWithClosedLounge 0) = Normal)
  ∧ _conversationAreas townWithClosedLounge = [1]
  ∧ ServerConversationArea.occupantsByID (getArea townWithClosedLounge 1) = ["cat"]
  ∧ _conversationAreas (removePlayerFromConversationArea 0 0 townWithClosedLounge) = [].
Proof.
  assert (H1 : 0 ∉ _conversationAreas townWithClosedLounge).
  { vm_compute. intros H. apply list_elem_of_singleton in H. discriminate H. }
  assert (H2 : ServerConversationArea.occupantsByID (getArea townWithClosedLounge 0) = [])
    by (vm_compute; reflexivity).
  assert (H3 : Player.permissions (getPlayer townWithClosedLounge 0) = Normal)
    by (vm_compute; reflexivity).
  split; [exact (conj H1 (conj H2 H3))|].
  split; [vm_compute; reflexivity|]. split; [vm_compute; reflexivity|].
  rewrite (proj1 (removePlayerFromConversationArea_of_closed_area 0 0 townWithClosedLounge
                    H1 H2 H3)).
  vm_compute. reflexivity.
Defined.

(** The same through the public path: ann reports a position without label. *)
Remark updatePlayerLocation_closes_foreign_area :
  reachable townWithClosedLounge
  ∧ _conversationAreas townWithClosedLounge = [1]
  ∧ ServerConversationArea.occupantsByID (getArea townWithClosedLounge 1) = ["cat"]
  ∧ _conversationAreas
      (updatePlayerLocation 0 (UserLocation.mk 0 0 Front false None) townWithClosedLounge)
    = [].
Proof.
  split; [apply reachable_run, reachable_new|].
  vm_compute. auto.
Qed.
(** The end of [updatePlayerLocation]: a request for another area is
    withdrawn, which writes pending lists and [activeJoinRequest] only. *)
Lemma withdraw_elsewhere_requests_only player (conversation : option ref) t :
  requests_only t
    match Player.activeJoinRequest (getPlayer t player) with
    | Some activeJoinRequest =>
        if match conversation with
           | Some c => String.eqb (JoinRequest.conversationLabel activeJoinRequest)
                         (ServerConversationArea.label (getArea t c))
           | None => false
           end
        then t else (removeJoinRequest activeJoinRequest t).2
    | None => t
    end.
Proof.
  destruct (Player.activeJoinRequest _); [|apply requests_only_refl].
  destruct (match conversation with Some _ => _ | None => _ end);
    [apply requests_only_refl | apply removeJoinRequest_requests_only].
Qed.

(** X8: a player who is in no area and reports the label of a [Public] area
    becomes its last occupant and a member of it, and is stored at the
    reported location, label included; the capacity of the area is not
    looked at. *)
Theorem updatePlayerLocation_enters_public_area player location t c :
  findAreaByOptLabel t (UserLocation.conversationLabel location) = Some c →
  ServerConversationArea.status (getArea t c) = Public →
  Player.activeConversationArea (getPlayer t player) = None →
  let u := updatePlayerLocation player location t in
  ServerConversationArea.occupantsByID (getArea u c)
    = ServerConversationArea.occupantsByID (getArea t c) ++ [Player.id (getPlayer t player)]
  ∧ Player.activeConversationArea (getPlayer u player) = Some c
  ∧ Player.location (getPlayer u player) = location.
Proof.
  intros Hc Hst Hprev. cbv zeta.
  cbv beta delta [updatePlayerLocation]. cbv zeta.
  change (findAreaByOptLabel (modPlayer player (Player.set_location location) t)
            (UserLocation.conversationLabel location))
    with (findAreaByOptLabel t (UserLocation.conversationLabel location)).
  rewrite Hc. rewrite !getArea_modPlayer, Hst.
  rewrite (getPlayer_modPlayer_eq player (Player.set_location location) t).
  change (Player.activeConversationArea (Player.set_location location (getPlayer t player)))
    with (Player.activeConversationArea (getPlayer t player)).
  rewrite Hprev. cbn [ConversationAreaStatus_eqb refs_differ].
  cbv iota.
  match goal with
  | |- context [emit (onPlayerMoved player)
                  match Player.activeJoinRequest (getPlayer ?T player) with _ => _ end] =>
      pose proof (withdraw_elsewhere_requests_only player (Some c) T) as Hro
  end.
  rewrite !getArea_emit, !getPlayer_emit.
  rewrite (ro_occupantsByID Hro), (ro_activeConversationArea Hro), (ro_location Hro).
  clear Hro. store_simpl. rewrite Hst. cbn [ConversationAreaStatus_eqb]. store_simpl.
  done.
Qed.

(** bob, new in the town, walks into ann's public lounge. *)
Lemma updatePlayerLocation_enters_public_area_witness :
  let t := run [AddPlayer videoUp (freshPlayer "bob") "session-bob"] townWithTwoRooms in
  let location := UserLocation.mk 1 1 Front true (Some "lounge") in
  (findAreaByOptLabel t (UserLocation.conversationLabel location) = Some 0
   ∧ ServerConversationArea.status (getArea t 0) = Public
   ∧ Player.activeConversationArea (getPlayer t 1) = None)
  ∧ ServerConversationArea.occupantsByID (getArea (updatePlayerLocation 1 location t) 0)
    = ["ann"; "bob"].
Proof.
  cbv zeta.
  set (t := run _ townWithTwoRooms).
  set (location := UserLocation.mk 1 1 Front true (Some "lounge")).
  assert (H1 : findAreaByOptLabel t (UserLocation.conversationLabel location) = Some 0)
    by (vm_compute; reflexivity).
  assert (H2 : ServerConversationArea.status (getArea t 0) = Public)
    by (vm_compute; reflexivity).
  assert (H3 : Player.activeConversationArea (getPlayer t 1) = None)
    by (vm_compute; reflexivity).
  split; [exact (conj H1 (conj H2 H3))|].
  rewrite (proj1 (updatePlayerLocation_enters_public_area 1 location t 0 H1 H2 H3)).
  vm_compute. reflexivity.
Defined.

(** X9: a player who is in no area and reports the label of an area that is
    open on request becomes neither an occupant nor a member of any area;
    the stored location nevertheless carries the reported label. *)
Theorem updatePlayerLocation_stays_outside_area_on_request player location t c :
  findAreaByOptLabel t (UserLocation.conversationLabel location) = Some c →
  ServerConversationArea.status (getArea t c) = AvailableToRequest →
  Player.activeConversationArea (getPlayer t player) = None →
  let u := updatePlayerLocation player location t in
  (∀ a, ServerConversationArea.occupantsByID (getArea u a)
        = ServerConversationArea.occupantsByID (getArea t a))
  ∧ Player.activeConversationArea (getPlayer u player) = None
  ∧ UserLocation.conversationLabel (Player.location (getPlayer u player))
    = orUndefined (UserLocation.conversationLabel location).
Proof.
  intros Hc Hst Hprev. cbv zeta.
  cbv beta delta [updatePlayerLocation]. cbv zeta.
  change (findAreaByOptLabel (modPlayer player (Player.set_location location) t)
            (UserLocation.conversationLabel location))
    with (findAreaByOptLabel t (UserLocation.conversationLabel location)).
  rewrite Hc. rewrite !getArea_modPlayer, Hst.
  rewrite (getPlayer_modPlayer_eq player (Player.set_location location) t).
  change (Player.activeConversationArea (Player.set_location location (getPlayer t player)))
    with (Player.activeConversationArea (getPlayer t player)).
  rewrite Hprev. cbn [ConversationAreaStatus_eqb refs_differ].
  cbv iota.
  match goal with
  | |- context [emit (onPlayerMoved player)
                  match Player.activeJoinRequest (getPlayer ?T player) with _ => _ end] =>
      pose proof (withdraw_elsewhere_requests_only player (Some c) T) as Hro
  end.
  split; [intros a|]; rewrite ?getArea_emit, ?getPlayer_emit.
  - rewrite (ro_occupantsByID Hro). clear Hro. store_simpl. rewrite Hst.
    cbn [ConversationAreaStatus_eqb]. by store_simpl.
  - rewrite (ro_activeConversationArea Hro), (ro_location Hro).
    clear Hro. store_simpl. rewrite Hst. cbn [ConversationAreaStatus_eqb]. store_simpl.
    simpl. by rewrite Hprev.
Qed.

(** bob, new in the town, reports the label of ann's lounge. *)
Lemma updatePlayerLocation_stays_outside_area_on_request_witness :
  let t := run [AddPlayer videoUp (freshPlayer "bob") "session-bob"] townWithLimit in
  let location := UserLocation.mk 1 1 Front true (Some "lounge") in
  (findAreaByOptLabel t (UserLocation.conversationLabel location) = Some 0
   ∧ ServerConversationArea.status (getArea t 0) = AvailableToRequest
   ∧ Player.activeConversationArea (getPlayer t 1) = None)
  ∧ ServerConversationArea.occupantsByID (getArea (updatePlayerLocation 1 location t) 0)
    = ["ann"]
  ∧ UserLocation.conversationLabel
      (Player.location (getPlayer (updatePlayerLocation 1 location t) 1))
    = Some "lounge".
Proof.
  cbv zeta.
  set (t := run _ townWithLimit).
  set (location := UserLocation.mk 1 1 Front true (Some "lounge")).
  assert (H1 : findAreaByOptLabel t (UserLocation.conversationLabel location) = Some 0)
    by (vm_compute; reflexivity).
  assert (H2 : ServerConversationArea.status (getArea t 0) = AvailableToRequest)
    by (vm_compute; reflexivity).
  assert (H3 : Player.activeConversationArea (getPlayer t 1) = None)
    by (vm_compute; reflexivity).
  split; [exact (conj H1 (conj H2 H3))|].
  destruct (updatePlayerLocation_stays_outside_area_on_request 1 location t 0 H1 H2 H3)
    as (Hocc & _ & Hlab).
  rewrite Hocc, Hlab. split; vm_compute; reflexivity.
Defined.

(** * Asking to join *)

(** X10: [createJoinRequest] returns true exactly when an active area has the
    label, that area is open on request, the player is a member of no area,
    has no request of their own and stands within the area; when it returns
    false the town is as it was. *)
Theorem createJoinRequest_succeeds_iff label player newId t :
  ((createJoinRequest label player newId t).1 = true
   ↔ ∃ c, findAreaByLabel t label = Some c
          ∧ ServerConversationArea.status (getArea t c) = AvailableToRequest
          ∧ Player.activeConversationArea (getPlayer t player) = None
          ∧ Player.activeJoinRequest (getPlayer t player) = None
          ∧ isWithin (getPlayer t player) (getArea t c) = true)
  ∧ ((createJoinRequest label player newId t).1 = false
     → (createJoinRequest label player newId t).2 = t).
Proof.
  unfold createJoinRequest.
  destruct (findAreaByLabel t label) as [c|].
  2: { split; [|done]. split; [done|]. by intros (c & Hc & _). }
  destruct (ServerConversationArea.status (getArea t c)) eqn:Hst; simpl.
  2, 3: split; [|done]; split; [done|]; intros (c' & Hc & Hst' & _);
    injection Hc as <-; congruence.
  destruct (Player.activeConversationArea (getPlayer t player)) eqn:Hact; simpl.
  { split; [|done]. split; [done|]. by intros (c' & _ & _ & ? & _). }
  destruct (Player.activeJoinRequest (getPlayer t player)) eqn:Hreq; simpl.
  { split; [|done]. split; [done|]. by intros (c' & _ & _ & _ & ? & _). }
  destruct (isWithin (getPlayer t player) (getArea t c)) eqn:Hin; simpl.
  - split; [|done]. split; [|done]. intros _. by exists c.
  - split; [|done]. split; [done|]. intros (c' & Hc & _ & _ & _ & Hin').
    injection Hc as <-. congruence.
Qed.

(** The request [createJoinRequest] builds. *)
Lemma createJoinRequest_true label player newId t c :
  findAreaByLabel t label = Some c →
  (createJoinRequest label player newId t).1 = true →
  let newJoinRequest := JoinRequest.mk newId (Player.id (getPlayer t player)) label in
  let listed :=
    emit (onConversationAreaUpdated c)
      (modPlayer player (Player.set_activeJoinRequest (Some newJoinRequest))
         (modArea c
            (λ a, ServerConversationArea.set_joinRequests
                    (ServerConversationArea.joinRequests a ++ [newJoinRequest]) a) t)) in
  (createJoinRequest label player newId t).2
  = emit (onConversationAreaUpdated c)
      (if truthyNumber (ServerConversationArea.maxOccupants (getArea t c))
          && match ServerConversationArea.maxOccupants (getArea t c) with
             | Some m => Qeq_bool m (lengthQ (ServerConversationArea.occupantsByID (getArea t c)))
             | None => false
             end
       then (removeJoinRequest newJoinRequest listed).2
       else listed).
Proof.
  intros Hc. destruct (findAreaByLabel_Some t label c Hc) as [_ Hlab].
  unfold createJoinRequest. rewrite Hc.
  destruct (negb _); [done|]. destruct (_ || _); [done|]. intros _.
  cbv zeta. cbn [snd]. rewrite Hlab.
  rewrite !getArea_emit, !getArea_modPlayer, !getArea_modArea_eq.
  reflexivity.
Qed.

(** X11: a request that succeeds on an area that is not full is the last of
    the area's pending requests and the player's own request; it carries the
    drawn id, the player's id and the area's label.  No occupant list and no
    membership changes, and [onConversationAreaUpdated] is emitted twice. *)
Theorem createJoinRequest_pending label player newId t c :
  findAreaByLabel t label = Some c →
  (createJoinRequest label player newId t).1 = true →
  (∀ m, ServerConversationArea.maxOccupants (getArea t c) = Some m →
        Qeq_bool m 0 = true
        ∨ Qeq_bool m (lengthQ (ServerConversationArea.occupantsByID (getArea t c))) = false) →
  let u := (createJoinRequest label player newId t).2 in
  let newJoinRequest := JoinRequest.mk newId (Player.id (getPlayer t player)) label in
  ServerConversationArea.joinRequests (getArea u c)
    = ServerConversationArea.joinRequests (getArea t c) ++ [newJoinRequest]
  ∧ Player.activeJoinRequest (getPlayer u player) = Some newJoinRequest
  ∧ (∀ a, ServerConversationArea.occupantsByID (getArea u a)
          = ServerConversationArea.occupantsByID (getArea t a))
  ∧ (∀ p, Player.activeConversationArea (getPlayer u p)
          = Player.activeConversationArea (getPlayer t p))
  ∧ emitted u = emitted t ++ [onConversationAreaUpdated c; onConversationAreaUpdated c].
Proof.
  intros Hc Htrue Hroom. cbv zeta.
  rewrite (createJoinRequest_true label player newId t c Hc Htrue). cbv zeta.
  assert (Hfull : truthyNumber (ServerConversationArea.maxOccupants (getArea t c))
                  && match ServerConversationArea.maxOccupants (getArea t c) with
                     | Some m => Qeq_bool m (lengthQ (ServerConversationArea.occupantsByID
                                                        (getArea t c)))
                     | None => false
                     end = false).
  { destruct (ServerConversationArea.maxOccupants (getArea t c)) as [m|]; [|done].
    simpl. destruct (Hroom m eq_refl) as [-> | ->]; [done|]. apply andb_false_r. }
  rewrite Hfull. clear Hfull Hroom Htrue.
  split; [|split; [|split; [|split]]].
  - by store_simpl.
  - by store_simpl.
  - intros a. store_simpl. by case_decide; subst.
  - intros p. store_simpl. by case_decide; subst.
  - simpl. by rewrite <- app_assoc.
Qed.

(** bob, new in the town, asks to join ann's lounge for three. *)
Lemma createJoinRequest_pending_witness :
  let t := run [AddPlayer videoUp (freshPlayer "bob") "session-bob"] townWithLimit in
  (findAreaByLabel t "lounge" = Some 0
   ∧ (createJoinRequest "lounge" 1 "request-bob" t).1 = true
   ∧ (∀ m, ServerConversationArea.maxOccupants (getArea t 0) = Some m →
           Qeq_bool m 0 = true
           ∨ Qeq_bool m (lengthQ (ServerConversationArea.occupantsByID (getArea t 0))) = false))
  ∧ ServerConversationArea.joinRequests
      (getArea (createJoinRequest "lounge" 1 "request-bob" t).2 0)
    = [bobsRequest].
Proof.
  cbv zeta.
  set (t := run _ townWithLimit).
  assert (H1 : findAreaByLabel t "lounge" = Some 0) by (vm_compute; reflexivity).
  assert (H2 : (createJoinRequest "lounge" 1 "request-bob" t).1 = true)
    by (vm_compute; reflexivity).
  assert (H3 : ∀ m, ServerConversationArea.maxOccupants (getArea t 0) = Some m →
                    Qeq_bool m 0 = true
                    ∨ Qeq_bool m (lengthQ (ServerConversationArea.occupantsByID (getArea t 0)))
                      = false).
  { intros m Hm. vm_compute in Hm. injection Hm as <-. right. vm_compute. reflexivity. }
  split; [exact (conj H1 (conj H2 H3))|].
  rewrite (proj1 (createJoinRequest_pending "lounge" 1 "request-bob" t 0 H1 H2 H3)).
  vm_compute. reflexivity.
Defined.

Lemma withoutRequest_snoc i rs r :
  JoinRequest.id r = i → withoutRequest i (rs ++ [r]) = withoutRequest i rs.
Proof.
  intros <-. unfold withoutRequest. rewrite List.filter_app. simpl.
  rewrite String.eqb_refl. simpl. apply app_nil_r.
Qed.

(** X12: a request that succeeds on an area that is full (its capacity is set,
    is not 0 and equals the number of occupants) is denied in the same call
    when the player is the listed player of that id: the call returns true,
    the area's pending requests are the earlier ones and the player has no
    request. *)
Theorem createJoinRequest_on_full_area label player newId t c m :
  findAreaByLabel t label = Some c →
  (createJoinRequest label player newId t).1 = true →
  ServerConversationArea.maxOccupants (getArea t c) = Some m →
  Qeq_bool m 0 = false →
  Qeq_bool m (lengthQ (ServerConversationArea.occupantsByID (getArea t c))) = true →
  findPlayerById t (Player.id (getPlayer t player)) = Some player →
  let u := (createJoinRequest label player newId t).2 in
  ServerConversationArea.joinRequests (getArea u c)
    = withoutRequest newId (ServerConversationArea.joinRequests (getArea t c))
  ∧ Player.activeJoinRequest (getPlayer u player) = None
  ∧ (∀ a, ServerConversationArea.occupantsByID (getArea u a)
          = ServerConversationArea.occupantsByID (getArea t a)).
Proof.
  intros Hc Htrue Hm Hne Hfull Hp. cbv zeta.
  rewrite (createJoinRequest_true label player newId t c Hc Htrue). cbv zeta.
  rewrite Hm. cbn [truthyNumber]. rewrite Hne, Hfull. cbn [negb andb].
  set (newJoinRequest := JoinRequest.mk newId (Player.id (getPlayer t player)) label).
  set (listed := emit _ (modPlayer _ _ (modArea _ _ t))).
  assert (Hfa : findAreaByLabel listed label = Some c).
  { rewrite <- Hc. apply findAreaByLabel_ext; [done|].
    intros a. subst listed. store_simpl. by case_decide; subst. }
  assert (Hfp : findPlayerById listed (Player.id (getPlayer t player)) = Some player).
  { rewrite <- Hp. apply findPlayerById_ext; [done|].
    intros p. subst listed. store_simpl. by case_decide; subst. }
  unfold removeJoinRequest.
  change (JoinRequest.conversationLabel newJoinRequest) with label.
  change (JoinRequest.playerId newJoinRequest) with (Player.id (getPlayer t player)).
  rewrite Hfa, Hfp. cbv zeta. cbn [snd]. subst listed.
  split; [|split; [|intros a]]; store_simpl.
  - simpl. by apply withoutRequest_snoc.
  - done.
  - repeat (case_decide; subst); done.
Qed.

(** bob asks to join ann's lounge for one, in which ann is. *)
Lemma createJoinRequest_on_full_area_witness :
  let t := run [AddPlayer videoUp (freshPlayer "ann") "session-ann";
                AddConversationArea (lounge AvailableToRequest (Some 1%Q)) 0;
                AddPlayer videoUp (freshPlayer "bob") "session-bob"]
             (newTown "town") in
  (findAreaByLabel t "lounge" = Some 0
   ∧ (createJoinRequest "lounge" 1 "request-bob" t).1 = true
   ∧ ServerConversationArea.maxOccupants (getArea t 0) = Some 1%Q
   ∧ Qeq_bool 1 0 = false
   ∧ Qeq_bool 1 (lengthQ (ServerConversationArea.occupantsByID (getArea t 0))) = true
   ∧ findPlayerById t (Player.id (getPlayer t 1)) = Some 1)
  ∧ ServerConversationArea.joinRequests
      (getArea (createJoinRequest "lounge" 1 "request-bob" t).2 0) = []
  ∧ Player.activeJoinRequest (getPlayer (createJoinRequest "lounge" 1 "request-bob" t).2 1)
    = None.
Proof.
  cbv zeta.
  set (t := run _ (newTown "town")).
  assert (H1 : findAreaByLabel t "lounge" = Some 0) by (vm_compute; reflexivity).
  assert (H2 : (createJoinRequest "lounge" 1 "request-bob" t).1 = true)
    by (vm_compute; reflexivity).
  assert (H3 : ServerConversationArea.maxOccupants (getArea t 0) = Some 1%Q)
    by (vm_compute; reflexivity).
  assert (H4 : Qeq_bool 1 0 = false) by reflexivity.
  assert (H5 : Qeq_bool 1 (lengthQ (ServerConversationArea.occupantsByID (getArea t 0))) = true)
    by (vm_compute; reflexivity).
  assert (H6 : findPlayerById t (Player.id (getPlayer t 1)) = Some 1)
    by (vm_compute; reflexivity).
  split; [exact (conj H1 (conj H2 (conj H3 (conj H4 (conj H5 H6)))))|].
  destruct (createJoinRequest_on_full_area "lounge" 1 "request-bob" t 0 1%Q H1 H2 H3 H4 H5 H6)
    as (Hreqs & Hown & _).
  rewrite Hreqs, Hown. split; [vm_compute|]; reflexivity.
Defined.

(** * Accepting and denying *)

(** Denying clears [activeJoinRequest] fields and never sets one. *)
Lemma removeJoinRequest_no_request jr t p :
  Player.activeJoinRequest (getPlayer t p) = None →
  Player.activeJoinRequest (getPlayer (removeJoinRequest jr t).2 p) = None.
Proof.
  intros Hp. unfold removeJoinRequest.
  destruct (findAreaByLabel t _) as [c|]; [|done].
  destruct (findPlayerById t _) as [q|]; [|done].
  cbv zeta. cbn [snd]. store_simpl. by case_decide; subst.
Qed.

Lemma removeJoinRequests_no_request rs t p :
  Player.activeJoinRequest (getPlayer t p) = None →
  Player.activeJoinRequest (getPlayer (removeJoinRequests rs t) p) = None.
Proof.
  unfold removeJoinRequests. revert t.
  induction rs as [|r rs IH]; intros t Hp; simpl; [done|].
  by apply IH, removeJoinRequest_no_request.
Qed.

(** What is pending after a list of requests was denied was pending before,
    and is none of the denied requests that name the area and a player of
    the town. *)
Lemma removeJoinRequests_pending c rs t r' :
  r' ∈ ServerConversationArea.joinRequests (getArea (removeJoinRequests rs t) c) →
  r' ∈ ServerConversationArea.joinRequests (getArea t c)
  ∧ ∀ r, r ∈ rs →
         findAreaByLabel t (JoinRequest.conversationLabel r) = Some c →
         is_Some (findPlayerById t (JoinRequest.playerId r)) →
         JoinRequest.id r' ≠ JoinRequest.id r.
Proof.
  unfold removeJoinRequests. revert t.
  induction rs as [|r rs IH]; intros t Hr'; simpl in *.
  { split; [done|]. intros r Hr. by apply elem_of_nil in Hr. }
  pose proof (removeJoinRequest_requests_only r t) as Hro.
  destruct (IH _ Hr') as [Hin Hids].
  split; [by apply (removeJoinRequest_pending r t c r')|].
  intros r0 Hr0 Hc Hq. apply elem_of_cons in Hr0 as [->|Hr0].
  - clear Hids IH Hr'. revert Hin. unfold removeJoinRequest.
    rewrite Hc. destruct Hq as [q ->]. cbv zeta. cbn [snd]. store_simpl.
    simpl. rewrite withoutRequest_elem. by intros [_ ?].
  - apply Hids; [done| |].
    + by rewrite (ro_findAreaByLabel Hro).
    + by rewrite (ro_findPlayerById Hro).
Qed.

(** X13: [acceptJoinRequest] fails exactly when no active area has the
    request's label or no listed player has its player id, and then leaves
    the town as it was; it looks neither at whether the request is pending
    nor at the area's status or capacity. *)
Theorem acceptJoinRequest_fails_iff joinRequest t :
  ((acceptJoinRequest joinRequest t).1 = false
   ↔ findAreaByLabel t (JoinRequest.conversationLabel joinRequest) = None
     ∨ findPlayerById t (JoinRequest.playerId joinRequest) = None)
  ∧ ((acceptJoinRequest joinRequest t).1 = false → (acceptJoinRequest joinRequest t).2 = t).
Proof.
  rewrite acceptJoinRequest_stages.
  destruct (findAreaByLabel t _) as [c|]; [|split; [split|]; auto].
  destruct (findPlayerById t _) as [q|]; [|split; [split|]; auto].
  split; [|done]. split; [done|]. by intros [|].
Qed.

(** X14: when the area and the player of a request are found, accepting it
    makes the player the last occupant of the area and a member of it, puts
    the area's label on the player's location, leaves the player without a
    request and the area without any request of that id, and ends with the
    events [onPlayerMoved] and [onConversationAreaUpdated]. *)
Theorem acceptJoinRequest_effects joinRequest t c q :
  findAreaByLabel t (JoinRequest.conversationLabel joinRequest) = Some c →
  findPlayerById t (JoinRequest.playerId joinRequest) = Some q →
  let u := (acceptJoinRequest joinRequest t).2 in
  (acceptJoinRequest joinRequest t).1 = true
  ∧ ServerConversationArea.occupantsByID (getArea u c)
    = ServerConversationArea.occupantsByID (getArea t c) ++ [JoinRequest.playerId joinRequest]
  ∧ Player.activeConversationArea (getPlayer u q) = Some c
  ∧ Player.location (getPlayer u q)
    = UserLocation.set_conversationLabel (Some (JoinRequest.conversationLabel joinRequest))
        (Player.location (getPlayer t q))
  ∧ Player.activeJoinRequest (getPlayer u q) = None
  ∧ (∀ r, r ∈ ServerConversationArea.joinRequests (getArea u c) →
          r ∈ ServerConversationArea.joinRequests (getArea t c)
          ∧ JoinRequest.id r ≠ JoinRequest.id joinRequest)
  ∧ ∃ earlier, emitted u = earlier ++ [onPlayerMoved q; onConversationAreaUpdated c].
Proof.
  intros Hc Hq. cbv zeta.
  destruct (findAreaByLabel_Some _ _ _ Hc) as [_ Hlab].
  destruct (findPlayerById_Some _ _ _ Hq) as [_ Hid].
  rewrite acceptJoinRequest_stages, Hc, Hq. cbn [fst snd].
  split; [done|].
  pose proof (denyAllIfFull_requests_only c (letIn c q joinRequest t)) as Hro.
  rewrite !getArea_emit, !getPlayer_emit.
  rewrite (ro_occupantsByID Hro), (ro_activeConversationArea Hro), (ro_location Hro).
  split; [|split; [|split; [|split; [|split]]]].
  - unfold letIn. cbv zeta. store_simpl. simpl. by rewrite Hid.
  - unfold letIn. cbv zeta. by store_simpl.
  - unfold letIn. cbv zeta. store_simpl. simpl. by rewrite Hlab.
  - unfold denyAllIfFull.
    assert (Hnone : Player.activeJoinRequest (getPlayer (letIn c q joinRequest t) q) = None).
    { unfold letIn. cbv zeta. by store_simpl. }
    destruct (ServerConversationArea.maxOccupants _); [|done].
    destruct (Qeq_bool _ _); [|done].
    by apply removeJoinRequests_no_request.
  - intros r Hr.
    assert (Hr' : r ∈ ServerConversationArea.joinRequests (getArea (letIn c q joinRequest t) c)).
    { revert Hr. unfold denyAllIfFull.
      destruct (ServerConversationArea.maxOccupants _); [|done].
      destruct (Qeq_bool _ _); [|done].
      intros Hr. by apply (removeJoinRequests_pending c _ _ r) in Hr as [? _]. }
    revert Hr'. unfold letIn. cbv zeta. store_simpl. simpl.
    by rewrite withoutRequest_elem.
  - eexists. simpl. rewrite <- app_assoc. reflexivity.
Qed.

(** ann's town: bob's request is accepted. *)
Lemma acceptJoinRequest_effects_witness :
  (findAreaByLabel townWithRequest (JoinRequest.conversationLabel bobsRequest) = Some 0
   ∧ findPlayerById townWithRequest (JoinRequest.playerId bobsRequest) = Some 1)
  ∧ ServerConversationArea.occupantsByID
      (getArea (acceptJoinRequest bobsRequest townWithRequest).2 0) = ["ann"; "bob"].
Proof.
  assert (H1 : findAreaByLabel townWithRequest (JoinRequest.conversationLabel bobsRequest)
               = Some 0) by (vm_compute; reflexivity).
  assert (H2 : findPlayerById townWithRequest (JoinRequest.playerId bobsRequest) = Some 1)
    by (vm_compute; reflexivity).
  split; [exact (conj H1 H2)|].
  rewrite (proj1 (proj2 (acceptJoinRequest_effects bobsRequest townWithRequest 0 1 H1 H2))).
  vm_compute. reflexivity.
Defined.

(** X15: when the acceptance fills the area (its capacity equals the new
    number of occupants), every request pending on it that names the area
    and a player of the town is denied in the same call: if all pending
    requests are such, none is left. *)
Theorem acceptJoinRequest_fills_area joinRequest t c q m :
  findAreaByLabel t (JoinRequest.conversationLabel joinRequest) = Some c →
  findPlayerById t (JoinRequest.playerId joinRequest) = Some q →
  ServerConversationArea.maxOccupants (getArea t c) = Some m →
  Qeq_bool m (lengthQ (ServerConversationArea.occupantsByID (getArea t c)
                        ++ [JoinRequest.playerId joinRequest])) = true →
  Forall (λ r, findAreaByLabel t (JoinRequest.conversationLabel r) = Some c
               ∧ is_Some (findPlayerById t (JoinRequest.playerId r)))
    (ServerConversationArea.joinRequests (getArea t c)) →
  ServerConversationArea.joinRequests (getArea (acceptJoinRequest joinRequest t).2 c) = [].
Proof.
  intros Hc Hq Hm Hfull Hwf.
  destruct (findPlayerById_Some _ _ _ Hq) as [_ Hid].
  rewrite acceptJoinRequest_stages, Hc, Hq. cbn [snd]. rewrite !getArea_emit.
  set (t' := letIn c q joinRequest t).
  assert (Hlab : ∀ a, ServerConversationArea.label (getArea t' a)
                      = ServerConversationArea.label (getArea t a)).
  { intros a. subst t'. unfold letIn. cbv zeta. store_simpl. by repeat (case_decide; subst; try done). }
  assert (Hids : ∀ p, Player.id (getPlayer t' p) = Player.id (getPlayer t p)).
  { intros p. subst t'. unfold letIn. cbv zeta. store_simpl.
    by repeat (case_decide; subst; try done). }
  assert (Hreqs : ServerConversationArea.joinRequests (getArea t' c)
                  = withoutRequest (JoinRequest.id joinRequest)
                      (ServerConversationArea.joinRequests (getArea t c))).
  { subst t'. unfold letIn. cbv zeta. by store_simpl. }
  assert (Hocc : ServerConversationArea.occupantsByID (getArea t' c)
                 = ServerConversationArea.occupantsByID (getArea t c)
                   ++ [JoinRequest.playerId joinRequest]).
  { subst t'. unfold letIn. cbv zeta. store_simpl. simpl. by rewrite Hid. }
  assert (Hmax : ServerConversationArea.maxOccupants (getArea t' c) = Some m).
  { subst t'. unfold letIn. cbv zeta. by store_simpl. }
  unfold denyAllIfFull. rewrite Hmax, Hocc, Hfull.
  destruct (ServerConversationArea.joinRequests
              (getArea (removeJoinRequests (ServerConversationArea.joinRequests (getArea t' c)) t')
                 c)) as [|r rest] eqn:Hleft; [done|].
  exfalso.
  assert (Hr : r ∈ ServerConversationArea.joinRequests
                     (getArea (removeJoinRequests
                                 (ServerConversationArea.joinRequests (getArea t' c)) t') c))
    by (rewrite Hleft; apply list_elem_of_here).
  apply removeJoinRequests_pending in Hr as [Hin Hne].
  apply (Hne r Hin); [| |done].
  - rewrite Hreqs in Hin. apply withoutRequest_elem in Hin as [Hin _].
    rewrite Forall_forall in Hwf. destruct (Hwf r Hin) as [Hfa _].
    rewrite <- Hfa. by apply findAreaByLabel_ext.
  - rewrite Hreqs in Hin. apply withoutRequest_elem in Hin as [Hin _].
    rewrite Forall_forall in Hwf. destruct (Hwf r Hin) as [_ Hfp].
    erewrite findPlayerById_ext; [exact Hfp|done|exact Hids].
Qed.

(** bob is accepted into ann's lounge for two while cat and dan wait. *)
Lemma acceptJoinRequest_fills_area_witness :
  (findAreaByLabel townWithThreeRequests (JoinRequest.conversationLabel bobsRequest) = Some 0
   ∧ findPlayerById townWithThreeRequests (JoinRequest.playerId bobsRequest) = Some 1
   ∧ ServerConversationArea.maxOccupants (getArea townWithThreeRequests 0) = Some 2%Q
   ∧ Qeq_bool 2 (lengthQ (ServerConversationArea.occupantsByID (getArea townWithThreeRequests 0)
                          ++ [JoinRequest.playerId bobsRequest])) = true
   ∧ Forall (λ r, findAreaByLabel townWithThreeRequests (JoinRequest.conversationLabel r)
                  = Some 0
                  ∧ is_Some (findPlayerById townWithThreeRequests (JoinRequest.playerId r)))
       (ServerConversationArea.joinRequests (getArea townWithThreeRequests 0)))
  ∧ length (ServerConversationArea.joinRequests (getArea townWithThreeRequests 0)) = 3
  ∧ ServerConversationArea.joinRequests
      (getArea (acceptJoinRequest bobsRequest townWithThreeRequests).2 0) = [].
Proof.
  assert (H1 : findAreaByLabel townWithThreeRequests (JoinRequest.conversationLabel bobsRequest)
               = Some 0) by (vm_compute; reflexivity).
  assert (H2 : findPlayerById townWithThreeRequests (JoinRequest.playerId bobsRequest) = Some 1)
    by (vm_compute; reflexivity).
  assert (H3 : ServerConversationArea.maxOccupants (getArea townWithThreeRequests 0)
               = Some 2%Q) by (vm_compute; reflexivity).
  assert (H4 : Qeq_bool 2 (lengthQ (ServerConversationArea.occupantsByID
                                      (getArea townWithThreeRequests 0)
                                    ++ [JoinRequest.playerId bobsRequest])) = true)
    by (vm_compute; reflexivity).
  assert (H5 : Forall (λ r, findAreaByLabel townWithThreeRequests
                              (JoinRequest.conversationLabel r) = Some 0
                            ∧ is_Some (findPlayerById townWithThreeRequests
                                         (JoinRequest.playerId r)))
                 (ServerConversationArea.joinRequests (getArea townWithThreeRequests 0))).
  { replace (ServerConversationArea.joinRequests (getArea townWithThreeRequests 0))
      with [bobsRequest; JoinRequest.mk "request-cat" "cat" "lounge";
            JoinRequest.mk "request-dan" "dan" "lounge"] by (vm_compute; reflexivity).
    repeat constructor; vm_compute; eauto. }
  split; [exact (conj H1 (conj H2 (conj H3 (conj H4 H5))))|].
  split; [vm_compute; reflexivity|].
  exact (acceptJoinRequest_fills_area bobsRequest townWithThreeRequests 0 1 2%Q H1 H2 H3 H4 H5).
Defined.

(** X16: when the area and the player of a request are found, denying it
    takes the requests of that id off that area's pending list and clears
    the player's request, whichever request that was; no other pending list
    or request field, no occupant list, membership, permission or location
    changes, and the events are [onPlayerMoved], [onConversationAreaUpdated]. *)
Theorem removeJoinRequest_effects joinRequest t c q :
  findAreaByLabel t (JoinRequest.conversationLabel joinRequest) = Some c →
  findPlayerById t (JoinRequest.playerId joinRequest) = Some q →
  let u := (removeJoinRequest joinRequest t).2 in
  ServerConversationArea.joinRequests (getArea u c)
    = withoutRequest (JoinRequest.id joinRequest)
        (ServerConversationArea.joinRequests (getArea t c))
  ∧ Player.activeJoinRequest (getPlayer u q) = None
  ∧ (∀ a, a ≠ c → getArea u a = getArea t a)
  ∧ (∀ p, p ≠ q → getPlayer u p = getPlayer t p)
  ∧ (∀ a, ServerConversationArea.occupantsByID (getArea u a)
          = ServerConversationArea.occupantsByID (getArea t a))
  ∧ (∀ p, Player.activeConversationArea (getPlayer u p)
          = Player.activeConversationArea (getPlayer t p)
          ∧ Player.permissions (getPlayer u p) = Player.permissions (getPlayer t p)
          ∧ Player.location (getPlayer u p) = Player.location (getPlayer t p))
  ∧ emitted u = emitted t ++ [onPlayerMoved q; onConversationAreaUpdated c].
Proof.
  intros Hc Hq. cbv zeta.
  pose proof (removeJoinRequest_requests_only joinRequest t) as Hro.
  split; [|split; [|split; [|split; [|split; [|split]]]]].
  - unfold removeJoinRequest. rewrite Hc, Hq. cbv zeta. cbn [snd]. by store_simpl.
  - unfold removeJoinRequest. rewrite Hc, Hq. cbv zeta. cbn [snd]. by store_simpl.
  - intros a Ha. unfold removeJoinRequest. rewrite Hc, Hq. cbv zeta. cbn [snd].
    store_simpl. by case_decide.
  - intros p Hp. unfold removeJoinRequest. rewrite Hc, Hq. cbv zeta. cbn [snd].
    store_simpl. by case_decide.
  - intros a. apply (ro_occupantsByID Hro).
  - intros p. split; [apply (ro_activeConversationArea Hro)|].
    split; [apply (ro_permissions Hro) | apply (ro_location Hro)].
  - unfold removeJoinRequest. rewrite Hc, Hq. cbv zeta. cbn [snd]. simpl.
    by rewrite <- app_assoc.
Qed.

(** ann's town: bob's request is denied. *)
Lemma removeJoinRequest_effects_witness :
  (findAreaByLabel townWithRequest (JoinRequest.conversationLabel bobsRequest) = Some 0
   ∧ findPlayerById townWithRequest (JoinRequest.playerId bobsRequest) = Some 1)
  ∧ ServerConversationArea.joinRequests (getArea townWithRequest 0) = [bobsRequest]
  ∧ ServerConversationArea.joinRequests
      (getArea (removeJoinRequest bobsRequest townWithRequest).2 0) = [].
Proof.
  assert (H1 : findAreaByLabel townWithRequest (JoinRequest.conversationLabel bobsRequest)
               = Some 0) by (vm_compute; reflexivity).
  assert (H2 : findPlayerById townWithRequest (JoinRequest.playerId bobsRequest) = Some 1)
    by (vm_compute; reflexivity).
  split; [exact (conj H1 H2)|]. split; [vm_compute; reflexivity|].
  rewrite (proj1 (removeJoinRequest_effects bobsRequest townWithRequest 0 1 H1 H2)).
  vm_compute. reflexivity.
Defined.

(** * Creating an area *)

Lemma fold_modPlayer_kept (f : Player.t → Player.t) ps t :
  let u := fold_left (λ t p, modPlayer p f t) ps t in
  _players u = _players t ∧ _conversationAreas u = _conversationAreas t
  ∧ areaObjs u = areaObjs t ∧ emitted u = emitted t ∧ nextArea u = nextArea t.
Proof.
  cbv zeta. revert t. induction ps as [|p ps IH]; intros t; simpl; [done|].
  destruct (IH (modPlayer p f t)) as (-> & -> & -> & -> & ->). done.
Qed.

Lemma fold_modPlayer_getPlayer (f : Player.t → Player.t) ps t q :
  (∀ x, f (f x) = f x) →
  getPlayer (fold_left (λ t p, modPlayer p f t) ps t) q
  = if decide (q ∈ ps) then f (getPlayer t q) else getPlayer t q.
Proof.
  intros Hf. revert t. induction ps as [|p ps IH]; intros t.
  { destruct (decide (q ∈ [])) as [Hin|]; [by apply elem_of_nil in Hin | done]. }
  cbn [fold_left]. rewrite IH, getPlayer_modPlayer.
  destruct (decide (q ∈ p :: ps)) as [Hin|Hout].
  - destruct (decide (p = q)) as [->|Hne].
    + by destruct (decide (q ∈ ps)); rewrite ?Hf.
    + apply elem_of_cons in Hin as [->|Hin]; [done|]. by rewrite decide_True.
  - apply not_elem_of_cons in Hout as [Hne Hout].
    rewrite (decide_False (P := p = q)) by done. by rewrite decide_False.
Qed.

(** The writes of a successful [addConversationArea]. *)
Lemma addConversationArea_true area player t :
  (addConversationArea area player t).1 = true →
  let newArea := nextArea t in
  let inside := List.filter (λ p, isWithin (getPlayer t p) area) (_players t) in
  let joined :=
    modArea newArea
      (ServerConversationArea.set_occupantsByID (map (λ p, Player.id (getPlayer t p)) inside))
      (fold_left (λ t p, modPlayer p (Player.set_activeConversationArea (Some newArea)) t)
         inside (withNewArea area t)) in
  (addConversationArea area player t).2
  = emit (onConversationAreaUpdated newArea)
      match ServerConversationArea.status area with
      | AvailableToRequest =>
          emit (onPlayerPermissionUpdated player)
            (modPlayer player (Player.set_permissions Admin) joined)
      | _ => joined
      end.
Proof.
  unfold addConversationArea.
  destruct (existsb (λ a, String.eqb _ _) (_conversationAreas t)); [done|].
  destruct (match ServerConversationArea.topic area with
            | Some s => String.eqb s "" | None => false end); [done|].
  destruct (truthyNumber _ && _); [done|].
  destruct (existsb (λ a, boxesOverlap _ _) (_conversationAreas t)); [done|].
  intros _. cbv zeta.
  set (t1 := withNewArea area t).
  set (n := nextArea t).
  set (inside1 := List.filter (λ p, isWithin (getPlayer t1 p) (getArea t1 n)) (_players t1)).
  set (folded := fold_left (λ t p, modPlayer p (Player.set_activeConversationArea (Some n)) t)
                   inside1 t1).
  set (joined1 := modArea n
                    (ServerConversationArea.set_occupantsByID
                       (map (λ p, Player.id (getPlayer folded p)) inside1)) folded).
  change ((let '(newArea, t) := allocArea area t in _).2)
    with (emit (onConversationAreaUpdated n)
            match ServerConversationArea.status (getArea joined1 n) with
            | AvailableToRequest =>
                emit (onPlayerPermissionUpdated player)
                  (modPlayer player (Player.set_permissions Admin) joined1)
            | _ => joined1
            end).
  assert (Hnew : getArea t1 n = area) by apply lookup_total_insert_eq.
  assert (Hin : inside1 = List.filter (λ p, isWithin (getPlayer t p) area) (_players t)).
  { subst inside1. rewrite Hnew. reflexivity. }
  assert (Hids : map (λ p, Player.id (getPlayer folded p)) inside1
                 = map (λ p, Player.id (getPlayer t p)) inside1).
  { apply map_ext. intros p. subst folded.
    rewrite fold_modPlayer_getPlayer by done. by case_decide. }
  assert (Hst : ServerConversationArea.status (getArea joined1 n)
                = ServerConversationArea.status area).
  { subst joined1. rewrite getArea_modArea_eq. simpl. subst folded. unfold getArea.
    destruct (fold_modPlayer_kept (Player.set_activeConversationArea (Some n))
                inside1 t1) as (_ & _ & -> & _).
    fold (getArea t1 n). by rewrite Hnew. }
  rewrite Hst. subst joined1 folded. rewrite Hids, Hin. reflexivity.
Qed.

(** X17: a successful [addConversationArea] lists the new area last.  The area
    is stored as it was passed, with its pending requests, but for the
    occupants: these are the ids of the listed players within it, in the
    order of the list.  Each of those players becomes a member of it, other
    memberships stay; the calling player becomes [Admin] when the area is
    open on request and keeps their permission otherwise. *)
Theorem addConversationArea_effects area player t :
  (addConversationArea area player t).1 = true →
  let u := (addConversationArea area player t).2 in
  let newArea := nextArea t in
  let inside := List.filter (λ p, isWithin (getPlayer t p) area) (_players t) in
  _conversationAreas u = _conversationAreas t ++ [newArea]
  ∧ getArea u newArea
    = ServerConversationArea.set_occupantsByID (map (λ p, Player.id (getPlayer t p)) inside) area
  ∧ (∀ a, a ≠ newArea → getArea u a = getArea t a)
  ∧ (∀ p, p ∈ inside → Player.activeConversationArea (getPlayer u p) = Some newArea)
  ∧ (∀ p, p ∉ inside → Player.activeConversationArea (getPlayer u p)
                        = Player.activeConversationArea (getPlayer t p))
  ∧ Player.permissions (getPlayer u player)
    = match ServerConversationArea.status area with
      | AvailableToRequest => Admin
      | _ => Player.permissions (getPlayer t player)
      end
  ∧ last (emitted u) = Some (onConversationAreaUpdated newArea).
Proof.
  intros Htrue. cbv zeta. rewrite (addConversationArea_true area player t Htrue). cbv zeta.
  set (inside := List.filter _ (_players t)).
  set (folded := fold_left _ inside (withNewArea area t)).
  destruct (fold_modPlayer_kept (Player.set_activeConversationArea (Some (nextArea t)))
              inside (withNewArea area t)) as (_ & Hl & Hobjs & _).
  fold folded in Hl, Hobjs.
  assert (Hpl : ∀ q, getPlayer folded q
                     = if decide (q ∈ inside)
                       then Player.set_activeConversationArea (Some (nextArea t)) (getPlayer t q)
                       else getPlayer t q).
  { intros q. subst folded. by rewrite fold_modPlayer_getPlayer. }
  assert (Har : ∀ a, getArea folded a = getArea (withNewArea area t) a).
  { intros a. unfold getArea. by rewrite Hobjs. }
  assert (Hnew : getArea (withNewArea area t) (nextArea t) = area)
    by apply lookup_total_insert_eq.
  assert (Hold : ∀ a, a ≠ nextArea t → getArea (withNewArea area t) a = getArea t a).
  { intros a Ha. by apply lookup_total_insert_ne. }
  split; [|split; [|split; [|split; [|split; [|split]]]]].
  - destruct (ServerConversationArea.status area); simpl; exact Hl.
  - destruct (ServerConversationArea.status area); store_simpl; by rewrite Har, Hnew.
  - intros a Ha.
    destruct (ServerConversationArea.status area); store_simpl;
      (rewrite decide_False by done); rewrite Har; by apply Hold.
  - intros p Hp.
    destruct (ServerConversationArea.status area); store_simpl;
      try case_decide; subst; rewrite Hpl, decide_True by done; done.
  - intros p Hp.
    destruct (ServerConversationArea.status area); store_simpl;
      try case_decide; subst; rewrite Hpl, decide_False by done; done.
  - destruct (ServerConversationArea.status area); store_simpl; [done| |];
      rewrite Hpl; by case_decide.
  - apply last_emit.
Qed.

(** ann, alone in the town, opens her lounge on request. *)
Lemma addConversationArea_effects_witness :
  (addConversationArea (lounge AvailableToRequest None) 0 townWithAnn).1 = true
  ∧ ServerConversationArea.occupantsByID
      (getArea (addConversationArea (lounge AvailableToRequest None) 0 townWithAnn).2 0)
    = ["ann"]
  ∧ Player.permissions
      (getPlayer (addConversationArea (lounge AvailableToRequest None) 0 townWithAnn).2 0)
    = Admin.
Proof.
  assert (H : (addConversationArea (lounge AvailableToRequest None) 0 townWithAnn).1 = true)
    by (vm_compute; reflexivity).
  split; [exact H|].
  destruct (addConversationArea_effects (lounge AvailableToRequest None) 0 townWithAnn H)
    as (_ & Hnew & _ & _ & _ & Hperm & _).
  change (nextArea townWithAnn) with 0 in Hnew.
  rewrite Hnew, Hperm. split; [vm_compute|]; reflexivity.
Defined.

(** * Labels of active areas *)

(** X18: in every state the controller can reach, two distinct entries of the
    list of active areas are distinct areas with distinct labels, and every
    active area is the one found under its label. *)
Theorem active_labels_are_unique t i j a b :
  reachable t →
  i ≠ j →
  _conversationAreas t !! i = Some a →
  _conversationAreas t !! j = Some b →
  ServerConversationArea.label (getArea t a) ≠ ServerConversationArea.label (getArea t b)
  ∧ a ≠ b
  ∧ findAreaByLabel t (ServerConversationArea.label (getArea t a)) = Some a.
Proof.
  intros Ht Hij Hi Hj.
  assert (Hne : ServerConversationArea.label (getArea t a)
                ≠ ServerConversationArea.label (getArea t b)).
  { pose proof (areasInvariant_reachable t Ht) as [_ _ Hlab].
    destruct (decide (i < j)) as [Hlt|Hge].
    - by apply (pairwise_lookup (λ a b, labelOf t a ≠ labelOf t b) (_conversationAreas t) i j).
    - intros Heq. symmetry in Heq. revert Heq.
      apply (pairwise_lookup (λ a b, labelOf t a ≠ labelOf t b) (_conversationAreas t) j i);
        [done|lia|done|done]. }
  split; [exact Hne|]. split; [by intros ->|].
  apply active_area_found_by_label; [done|]. by eapply list_elem_of_lookup_2.
Qed.

(** The lounge and the kitchen. *)
Lemma active_labels_are_unique_witness :
  (reachable townWithTwoRooms
   ∧ 0 ≠ 1
   ∧ _conversationAreas townWithTwoRooms !! 0 = Some 0
   ∧ _conversationAreas townWithTwoRooms !! 1 = Some 1)
  ∧ findAreaByLabel townWithTwoRooms (ServerConversationArea.label (getArea townWithTwoRooms 0))
    = Some 0.
Proof.
  assert (Hr : reachable townWithTwoRooms) by apply reachable_run, reachable_new.
  assert (H0 : _conversationAreas townWithTwoRooms !! 0 = Some 0) by (vm_compute; reflexivity).
  assert (H1 : _conversationAreas townWithTwoRooms !! 1 = Some 1) by (vm_compute; reflexivity).
  assert (Hne : 0 ≠ 1) by lia.
  split; [exact (conj Hr (conj Hne (conj H0 H1)))|].
  exact (proj2 (proj2 (active_labels_are_unique townWithTwoRooms 0 1 0 1 Hr Hne H0 H1))).
Defined.

(** * Updating an area *)

(** X19: [updateConversationArea] returns true exactly when an active area has
    the label, the player's [activeConversationArea] carries that label, the
    player's id is among the occupants of the area found, the player is
    [Admin], and the capacity, if one is passed, is an integer not below the
    number of occupants; when it returns false the town is as it was. *)
Theorem updateConversationArea_succeeds_iff label player status maxOccupants t :
  ((updateConversationArea label player status maxOccupants t).1 = true
   ↔ ∃ c, findAreaByLabel t label = Some c
          ∧ (∃ own, Player.activeConversationArea (getPlayer t player) = Some own
                    ∧ ServerConversationArea.label (getArea t own) = label)
          ∧ Player.id (getPlayer t player)
              ∈ ServerConversationArea.occupantsByID (getArea t c)
          ∧ Player.permissions (getPlayer t player) = Admin
          ∧ ∀ m, maxOccupants = Some m →
                 isInteger m = true
                 ∧ (lengthQ (ServerConversationArea.occupantsByID (getArea t c)) <= m)%Q)
  ∧ ((updateConversationArea label player status maxOccupants t).1 = false
     → (updateConversationArea label player status maxOccupants t).2 = t).
Proof.
  unfold updateConversationArea.
  destruct (findAreaByLabel t label) as [c|].
  2: { split; [|done]. split; [done|]. by intros (c & Hc & _). }
  assert (Hocc : existsb (String.eqb (Player.id (getPlayer t player)))
                   (ServerConversationArea.occupantsByID (getArea t c)) = true
                 ↔ Player.id (getPlayer t player)
                     ∈ ServerConversationArea.occupantsByID (getArea t c)).
  { rewrite existsb_exists, list_elem_of_In. split.
    - intros (x & Hx & Heq). apply String.eqb_eq in Heq. by subst.
    - intros Hin. eexists. split; [exact Hin | apply String.eqb_refl]. }
  destruct (Player.activeConversationArea (getPlayer t player)) as [own|] eqn:Hown.
  2: { cbn [orb fst snd]. split; [|done]. split; [done|].
       by intros (c' & _ & (own & ? & _) & _). }
  destruct (String.eqb_spec (ServerConversationArea.label (getArea t own)) label) as [Hlab|Hlab].
  2: { cbn [negb orb fst snd]. split; [|done]. split; [done|].
       intros (c' & _ & (own' & Heq & Hl) & _). injection Heq as <-. done. }
  cbn [negb orb].
  destruct (existsb _ _) eqn:Hex.
  2: { cbn [negb fst snd]. split; [|done]. split; [done|].
       intros (c' & Hc & _ & Hin & _). injection Hc as <-.
       apply Hocc in Hin. congruence. }
  cbn [negb].
  destruct (Player.permissions (getPlayer t player)) eqn:Hperm.
  { cbn [PlayerPermissions_eqb negb fst snd]. split; [|done]. split; [done|].
    by intros (c' & _ & _ & _ & ? & _). }
  cbn [PlayerPermissions_eqb negb].
  destruct maxOccupants as [m|].
  - destruct (isInteger m) eqn:Hint; cbn [negb orb].
    + unfold geq. destruct (Qle_bool _ m) eqn:Hle; cbn [negb fst snd].
      * split; [|done]. split; [|done]. intros _. exists c.
        split; [done|]. split; [by exists own|]. split; [by apply Hocc|]. split; [done|].
        intros m' [= <-]. split; [done|]. by apply Qle_bool_iff.
      * split; [|done]. split; [done|].
        intros (c' & Hc & _ & _ & _ & Hm). injection Hc as <-.
        destruct (Hm m eq_refl) as [_ Hle']. apply Qle_bool_iff in Hle'. congruence.
    + cbn [fst snd]. split; [|done]. split; [done|].
      intros (c' & _ & _ & _ & _ & Hm). destruct (Hm m eq_refl) as [? _]. congruence.
  - cbn [fst snd]. split; [|done]. split; [|done]. intros _. exists c.
    split; [done|]. split; [by exists own|]. split; [by apply Hocc|]. split; [done|]. done.
Qed.

(** The writes of a successful [updateConversationArea] on the area found. *)
Lemma updateConversationArea_true label player status maxOccupants t c :
  findAreaByLabel t label = Some c →
  (updateConversationArea label player status maxOccupants t).1 = true →
  let stored :=
    modArea c (ServerConversationArea.set_maxOccupants maxOccupants)
      match status with
      | Some s => modArea c (ServerConversationArea.set_status s) t
      | None => t
      end in
  let area := getArea stored c in
  let denied :=
    match ServerConversationArea.status area with
    | DoNotDisturb => removeJoinRequests (ServerConversationArea.joinRequests area) stored
    | AvailableToRequest =>
        if match ServerConversationArea.maxOccupants area with
           | Some m => Qeq_bool (lengthQ (ServerConversationArea.occupantsByID area)) m
           | None => false
           end
        then removeJoinRequests (ServerConversationArea.joinRequests area) stored
        else stored
    | Public => stored
    end in
  (updateConversationArea label player status maxOccupants t).2
  = emit (onConversationAreaUpdated c)
      match ServerConversationArea.status (getArea denied c) with
      | Public =>
          emit (onPlayerPermissionUpdated player)
            (modPlayer player (Player.set_permissions Normal) denied)
      | _ => denied
      end.
Proof.
  intros Hc. unfold updateConversationArea. rewrite Hc.
  destruct (_ || _); [done|]. destruct (negb _); [done|].
  destruct (match maxOccupants with Some _ => _ | None => _ end); [done|].
  intros _. reflexivity.
Qed.

(** The area as [updateConversationArea] stores it before it denies. *)
Lemma updateConversationArea_stored c status maxOccupants t :
  let stored :=
    modArea c (ServerConversationArea.set_maxOccupants maxOccupants)
      match status with
      | Some s => modArea c (ServerConversationArea.set_status s) t
      | None => t
      end in
  getArea stored c
  = ServerConversationArea.set_maxOccupants maxOccupants
      (ServerConversationArea.set_status
         (default (ServerConversationArea.status (getArea t c)) status) (getArea t c))
  ∧ (∀ a, a ≠ c → getArea stored a = getArea t a)
  ∧ (∀ p, getPlayer stored p = getPlayer t p)
  ∧ _conversationAreas stored = _conversationAreas t
  ∧ _players stored = _players t
  ∧ emitted stored = emitted t.
Proof.
  cbv zeta. destruct status as [s|]; simpl.
  - repeat split; try done.
    + rewrite getArea_modArea_eq, getArea_modArea_eq. done.
    + intros a Ha. rewrite !getArea_modArea. by rewrite !decide_False by done.
  - repeat split; try done.
    + rewrite getArea_modArea_eq. by destruct (getArea t c).
    + intros a Ha. rewrite getArea_modArea. by rewrite decide_False by done.
Qed.

(** X20: a successful [updateConversationArea] that leaves the area
    do-not-disturb, or open on request with as many occupants as its new
    capacity, denies every pending request that names the area and a player
    of the town: if all pending requests are such, none is left, and the
    players who had asked have no request. *)
Theorem updateConversationArea_denies_pending label player status maxOccupants t c :
  findAreaByLabel t label = Some c →
  (updateConversationArea label player status maxOccupants t).1 = true →
  default (ServerConversationArea.status (getArea t c)) status = DoNotDisturb
  ∨ (default (ServerConversationArea.status (getArea t c)) status = AvailableToRequest
     ∧ ∃ m, maxOccupants = Some m
            ∧ Qeq_bool (lengthQ (ServerConversationArea.occupantsByID (getArea t c))) m = true) →
  Forall (λ r, findAreaByLabel t (JoinRequest.conversationLabel r) = Some c
               ∧ is_Some (findPlayerById t (JoinRequest.playerId r)))
    (ServerConversationArea.joinRequests (getArea t c)) →
  let u := (updateConversationArea label player status maxOccupants t).2 in
  ServerConversationArea.joinRequests (getArea u c) = []
  ∧ ServerConversationArea.status (getArea u c)
    = default (ServerConversationArea.status (getArea t c)) status
  ∧ ServerConversationArea.occupantsByID (getArea u c)
    = ServerConversationArea.occupantsByID (getArea t c).
Proof.
  intros Hc Htrue Hclosing Hwf. cbv zeta.
  rewrite (updateConversationArea_true label player status maxOccupants t c Hc Htrue).
  cbv zeta.
  destruct (updateConversationArea_stored c status maxOccupants t)
    as (Hstored & Hother & Hpl & Hl & Hps & _).
  set (stored := modArea c _ _) in *.
  set (s' := default (ServerConversationArea.status (getArea t c)) status) in *.
  assert (Hlab : ∀ a, ServerConversationArea.label (getArea stored a)
                      = ServerConversationArea.label (getArea t a)).
  { intros a. destruct (decide (a = c)) as [->|Ha]; [by rewrite Hstored | by rewrite Hother]. }
  assert (Hden : ∀ denied,
            denied = removeJoinRequests (ServerConversationArea.joinRequests (getArea stored c))
                       stored →
            ServerConversationArea.joinRequests (getArea denied c) = []
            ∧ ServerConversationArea.status (getArea denied c) = s'
            ∧ ServerConversationArea.occupantsByID (getArea denied c)
              = ServerConversationArea.occupantsByID (getArea t c)).
  { intros denied ->.
    pose proof (removeJoinRequests_requests_only
                  (ServerConversationArea.joinRequests (getArea stored c)) stored) as Hro.
    split; [|by rewrite (ro_status Hro), (ro_occupantsByID Hro), Hstored].
    destruct (ServerConversationArea.joinRequests
                (getArea (removeJoinRequests _ stored) c)) as [|r rest] eqn:Hleft; [done|].
    exfalso.
    assert (Hr : r ∈ ServerConversationArea.joinRequests
                       (getArea (removeJoinRequests
                                   (ServerConversationArea.joinRequests (getArea stored c))
                                   stored) c))
      by (rewrite Hleft; apply list_elem_of_here).
    apply removeJoinRequests_pending in Hr as [Hin Hne].
    assert (Hin' : r ∈ ServerConversationArea.joinRequests (getArea t c))
      by (by rewrite Hstored in Hin).
    rewrite Forall_forall in Hwf. destruct (Hwf r Hin') as [Hfa Hfp].
    apply (Hne r Hin); [| |done].
    - rewrite <- Hfa. by apply findAreaByLabel_ext.
    - erewrite findPlayerById_ext; [exact Hfp|done|]. intros p. by rewrite Hpl. }
  assert (Hst : ServerConversationArea.status (getArea stored c) = s')
    by (by rewrite Hstored).
  assert (Hmax : ServerConversationArea.maxOccupants (getArea stored c) = maxOccupants)
    by (by rewrite Hstored).
  assert (Hocc : ServerConversationArea.occupantsByID (getArea stored c)
                 = ServerConversationArea.occupantsByID (getArea t c))
    by (by rewrite Hstored).
  rewrite Hst, Hmax, Hocc.
  destruct Hclosing as [Hdnd | (Hatr & m & -> & Hfull)].
  - rewrite Hdnd. destruct (Hden _ eq_refl) as (H1 & H2 & H3).
    rewrite H2, Hdnd. rewrite getArea_emit. rewrite Hdnd in H2. done.
  - rewrite Hatr, Hfull. destruct (Hden _ eq_refl) as (H1 & H2 & H3).
    rewrite H2, Hatr. rewrite getArea_emit. rewrite Hatr in H2. done.
Qed.

(** ann sets her lounge to do-not-disturb while bob's request is pending. *)
Lemma updateConversationArea_denies_pending_witness :
  (findAreaByLabel townWithRequest "lounge" = Some 0
   ∧ (updateConversationArea "lounge" 0 (Some DoNotDisturb) None townWithRequest).1 = true
   ∧ (default (ServerConversationArea.status (getArea townWithRequest 0)) (Some DoNotDisturb)
      = DoNotDisturb
      ∨ (default (ServerConversationArea.status (getArea townWithRequest 0)) (Some DoNotDisturb)
         = AvailableToRequest
         ∧ ∃ m, None = Some m
                ∧ Qeq_bool (lengthQ (ServerConversationArea.occupantsByID
                                       (getArea townWithRequest 0))) m = true))
   ∧ Forall (λ r, findAreaByLabel townWithRequest (JoinRequest.conversationLabel r) = Some 0
                  ∧ is_Some (findPlayerById townWithRequest (JoinRequest.playerId r)))
       (ServerConversationArea.joinRequests (getArea townWithRequest 0)))
  ∧ ServerConversationArea.joinRequests (getArea townWithRequest 0) = [bobsRequest]
  ∧ ServerConversationArea.joinRequests
      (getArea (updateConversationArea "lounge" 0 (Some DoNotDisturb) None townWithRequest).2 0)
    = [].
Proof.
  assert (H1 : findAreaByLabel townWithRequest "lounge" = Some 0) by (vm_compute; reflexivity).
  assert (H2 : (updateConversationArea "lounge" 0 (Some DoNotDisturb) None townWithRequest).1
               = true) by (vm_compute; reflexivity).
  assert (H3 : default (ServerConversationArea.status (getArea townWithRequest 0))
                 (Some DoNotDisturb) = DoNotDisturb
               ∨ (default (ServerConversationArea.status (getArea townWithRequest 0))
                    (Some DoNotDisturb) = AvailableToRequest
                  ∧ ∃ m, None = Some m
                         ∧ Qeq_bool (lengthQ (ServerConversationArea.occupantsByID
                                                (getArea townWithRequest 0))) m = true))
    by (left; reflexivity).
  assert (H4 : Forall (λ r, findAreaByLabel townWithRequest (JoinRequest.conversationLabel r)
                            = Some 0
                            ∧ is_Some (findPlayerById townWithRequest (JoinRequest.playerId r)))
                 (ServerConversationArea.joinRequests (getArea townWithRequest 0))).
  { replace (ServerConversationArea.joinRequests (getArea townWithRequest 0))
      with [bobsRequest] by (vm_compute; reflexivity).
    repeat constructor; vm_compute; eauto. }
  split; [exact (conj H1 (conj H2 (conj H3 H4)))|].
  split; [vm_compute; reflexivity|].
  exact (proj1 (updateConversationArea_denies_pending "lounge" 0 (Some DoNotDisturb) None
                  townWithRequest 0 H1 H2 H3 H4)).
Defined.

(** X21: a successful [updateConversationArea] that leaves the area [Public]
    makes the calling admin [Normal]; the pending requests of the area stay
    pending, neither accepted nor denied, and the occupants stay; a
    permission event and an area event are emitted. *)
Theorem updateConversationArea_opens_area label player status maxOccupants t c :
  findAreaByLabel t label = Some c →
  (updateConversationArea label player status maxOccupants t).1 = true →
  default (ServerConversationArea.status (getArea t c)) status = Public →
  let u := (updateConversationArea label player status maxOccupants t).2 in
  ServerConversationArea.status (getArea u c) = Public
  ∧ Player.permissions (getPlayer u player) = Normal
  ∧ ServerConversationArea.joinRequests (getArea u c)
    = ServerConversationArea.joinRequests (getArea t c)
  ∧ ServerConversationArea.occupantsByID (getArea u c)
    = ServerConversationArea.occupantsByID (getArea t c)
  ∧ (∀ p, Player.activeJoinRequest (getPlayer u p) = Player.activeJoinRequest (getPlayer t p))
  ∧ emitted u = emitted t ++ [onPlayerPermissionUpdated player; onConversationAreaUpdated c].
Proof.
  intros Hc Htrue Hpub. cbv zeta.
  rewrite (updateConversationArea_true label player status maxOccupants t c Hc Htrue).
  cbv zeta.
  destruct (updateConversationArea_stored c status maxOccupants t)
    as (Hstored & _ & Hpl & _ & _ & Hem).
  set (stored := modArea c _ _) in *.
  assert (Hst : ServerConversationArea.status (getArea stored c) = Public)
    by (by rewrite Hstored).
  rewrite Hst. cbv iota. rewrite Hst. cbv iota.
  store_simpl. rewrite Hstored.
  split; [done|]. split; [done|]. split; [done|]. split; [done|]. split.
  - intros p. store_simpl. rewrite ?Hpl. by case_decide; subst.
  - rewrite !emitted_emit. change (emitted (modPlayer player (Player.set_permissions Normal) stored))
      with (emitted stored). by rewrite Hem, <- app_assoc.
Qed.

(** ann opens her lounge to everyone while bob's request is pending. *)
Lemma updateConversationArea_opens_area_witness :
  (findAreaByLabel townWithRequest "lounge" = Some 0
   ∧ (updateConversationArea "lounge" 0 (Some Public) None townWithRequest).1 = true
   ∧ default (ServerConversationArea.status (getArea townWithRequest 0)) (Some Public) = Public)
  ∧ ServerConversationArea.joinRequests
      (getArea (updateConversationArea "lounge" 0 (Some Public) None townWithRequest).2 0)
    = [bobsRequest].
Proof.
  assert (H1 : findAreaByLabel townWithRequest "lounge" = Some 0) by (vm_compute; reflexivity).
  assert (H2 : (updateConversationArea "lounge" 0 (Some Public) None townWithRequest).1 = true)
    by (vm_compute; reflexivity).
  assert (H3 : default (ServerConversationArea.status (getArea townWithRequest 0)) (Some Public)
               = Public) by reflexivity.
  split; [exact (conj H1 (conj H2 H3))|].
  destruct (updateConversationArea_opens_area "lounge" 0 (Some Public) None townWithRequest 0
              H1 H2 H3) as (_ & _ & Hreqs & _).
  rewrite Hreqs. vm_compute. reflexivity.
Defined.

(** * Listing the pending requests *)

Lemma refs_differ_false (a b : option ref) : refs_differ a b = false ↔ a = b.
Proof.
  destruct a as [i|], b as [j|]; simpl; try (split; [done|]; done).
  - rewrite negb_false_iff, Nat.eqb_eq. split; [by intros -> | by intros [= ->]].
Qed.

Lemma includes_elem (i : string) (l : list string) :
  existsb (String.eqb i) l = true ↔ i ∈ l.
Proof.
  rewrite existsb_exists, list_elem_of_In. split.
  - intros (x & Hx & Heq). apply String.eqb_eq in Heq. by subst.
  - intros Hin. eexists. split; [exact Hin | apply String.eqb_refl].
Qed.

(** What [getJoinRequests] checks before it lists: the area found under
    the label is the player's own, the player's id is among its occupants,
    and the player is [Admin]. *)
Lemma getJoinRequests_checks label player t :
  match findAreaByLabel t label with
  | Some c =>
      if refs_differ (Player.activeConversationArea (getPlayer t player)) (Some c)
         || negb (existsb (String.eqb (Player.id (getPlayer t player)))
                    (ServerConversationArea.occupantsByID (getArea t c)))
         || negb (PlayerPermissions_eqb (Player.permissions (getPlayer t player)) Admin)
      then getJoinRequests label player t = Returns None
      else Player.activeConversationArea (getPlayer t player) = Some c
           ∧ Player.id (getPlayer t player)
               ∈ ServerConversationArea.occupantsByID (getArea t c)
           ∧ Player.permissions (getPlayer t player) = Admin
           ∧ getJoinRequests label player t
             = match joinRequestEntries t (getArea t c)
                       (ServerConversationArea.joinRequests (getArea t c)) with
               | Returns l => Returns (Some l)
               | AssertionError => AssertionError
               end
  | None => getJoinRequests label player t = Returns None
  end.
Proof.
  unfold getJoinRequests.
  destruct (findAreaByLabel t label) as [c|]; [|done].
  destruct (refs_differ _ _) eqn:Hown; [done|]. apply refs_differ_false in Hown.
  destruct (existsb _ _) eqn:Hocc; [|done]. apply includes_elem in Hocc.
  destruct (Player.permissions (getPlayer t player)) eqn:Hperm; [done|]. done.
Qed.

(** X22: [getJoinRequests] returns [undefined] exactly when no active area has
    the label, or the area found is not the player's
    [activeConversationArea], or the player's id is not among its occupants,
    or the player is not [Admin]. *)
Theorem getJoinRequests_undefined_iff label player t :
  getJoinRequests label player t = Returns None
  ↔ ¬ ∃ c, findAreaByLabel t label = Some c
           ∧ Player.activeConversationArea (getPlayer t player) = Some c
           ∧ Player.id (getPlayer t player)
               ∈ ServerConversationArea.occupantsByID (getArea t c)
           ∧ Player.permissions (getPlayer t player) = Admin.
Proof.
  pose proof (getJoinRequests_checks label player t) as H.
  destruct (findAreaByLabel t label) as [c|].
  2: { split; [|done]. by intros _ (c & ? & _). }
  destruct (refs_differ _ _) eqn:Hown.
  { split; [|done]. intros _ (c' & [= <-] & Heq & _).
    apply refs_differ_false in Heq. congruence. }
  destruct (existsb _ _) eqn:Hocc.
  2: { split; [|done]. intros _ (c' & [= <-] & _ & Hin & _).
       apply includes_elem in Hin. congruence. }
  destruct (Player.permissions (getPlayer t player)) eqn:Hperm.
  { split; [|done]. by intros _ (c' & _ & _ & _ & ?). }
  cbn in H. destruct H as (H1 & H2 & _ & ->).
  split.
  - by destruct (joinRequestEntries _ _ _).
  - intros Hno. exfalso. apply Hno. by exists c.
Qed.

(** The entries built from a list of requests. *)
Lemma joinRequestEntries_entries t area requests entries :
  joinRequestEntries t area requests = Returns entries →
  Forall2 (λ r e, JoinRequestListEntry.id e = JoinRequest.id r
                  ∧ JoinRequestListEntry.playerId e = JoinRequest.playerId r
                  ∧ JoinRequestListEntry.conversationLabel e = ServerConversationArea.label area
                  ∧ JoinRequestListEntry.conversationTopic e = ServerConversationArea.topic area
                  ∧ ∃ q, findPlayerById t (JoinRequest.playerId r) = Some q
                         ∧ JoinRequestListEntry.userName e = Player.userName (getPlayer t q))
    requests entries.
Proof.
  revert entries. induction requests as [|r rs IH]; intros entries; simpl.
  - intros [= <-]. constructor.
  - destruct (findPlayerById t (JoinRequest.playerId r)) as [q|] eqn:Hq; [|done].
    destruct (joinRequestEntries t area rs) as [es|]; [|done].
    intros [= <-]. constructor; [|by apply IH].
    simpl. repeat split; try done. by exists q.
Qed.

(** X23: for the admin of the area, when every pending request names a player
    of the town, [getJoinRequests] returns one entry per pending request, in
    the order of the pending list, with the request's id and player id, the
    name of the first listed player of that id, and the area's label and
    topic. *)
Theorem getJoinRequests_lists_pending label player t c :
  findAreaByLabel t label = Some c →
  Player.activeConversationArea (getPlayer t player) = Some c →
  Player.id (getPlayer t player) ∈ ServerConversationArea.occupantsByID (getArea t c) →
  Player.permissions (getPlayer t player) = Admin →
  Forall (λ r, is_Some (findPlayerById t (JoinRequest.playerId r)))
    (ServerConversationArea.joinRequests (getArea t c)) →
  ∃ entries,
    getJoinRequests label player t = Returns (Some entries)
    ∧ Forall2 (λ r e, JoinRequestListEntry.id e = JoinRequest.id r
                      ∧ JoinRequestListEntry.playerId e = JoinRequest.playerId r
                      ∧ JoinRequestListEntry.conversationLabel e = label
                      ∧ JoinRequestListEntry.conversationTopic e
                        = ServerConversationArea.topic (getArea t c)
                      ∧ ∃ q, findPlayerById t (JoinRequest.playerId r) = Some q
                             ∧ JoinRequestListEntry.userName e
                               = Player.userName (getPlayer t q))
        (ServerConversationArea.joinRequests (getArea t c)) entries.
Proof.
  intros Hc Hown Hocc Hperm Hlisted.
  destruct (findAreaByLabel_Some _ _ _ Hc) as [_ Hlab].
  pose proof (getJoinRequests_checks label player t) as H. rewrite Hc in H.
  apply refs_differ_false in Hown. apply includes_elem in Hocc.
  rewrite Hown, Hocc, Hperm in H. cbn in H. destruct H as (_ & _ & _ & ->).
  apply (joinRequestEntries_returns t (getArea t c)) in Hlisted as [entries Hentries].
  exists entries. rewrite Hentries. split; [done|].
  rewrite <- Hlab. by apply joinRequestEntries_entries.
Qed.

(** ann lists the requests of her lounge for two. *)
Lemma getJoinRequests_lists_pending_witness :
  (findAreaByLabel townWithThreeRequests "lounge" = Some 0
   ∧ Player.activeConversationArea (getPlayer townWithThreeRequests 0) = Some 0
   ∧ Player.id (getPlayer townWithThreeRequests 0)
       ∈ ServerConversationArea.occupantsByID (getArea townWithThreeRequests 0)
   ∧ Player.permissions (getPlayer townWithThreeRequests 0) = Admin
   ∧ Forall (λ r, is_Some (findPlayerById townWithThreeRequests (JoinRequest.playerId r)))
       (ServerConversationArea.joinRequests (getArea townWithThreeRequests 0)))
  ∧ ∃ entries, getJoinRequests "lounge" 0 townWithThreeRequests = Returns (Some entries)
               ∧ length entries = 3.
Proof.
  assert (H1 : findAreaByLabel townWithThreeRequests "lounge" = Some 0)
    by (vm_compute; reflexivity).
  assert (H2 : Player.activeConversationArea (getPlayer townWithThreeRequests 0) = Some 0)
    by (vm_compute; reflexivity).
  assert (H3 : Player.id (getPlayer townWithThreeRequests 0)
                 ∈ ServerConversationArea.occupantsByID (getArea townWithThreeRequests 0))
    by (vm_compute; apply list_elem_of_here).
  assert (H4 : Player.permissions (getPlayer townWithThreeRequests 0) = Admin)
    by (vm_compute; reflexivity).
  assert (H5 : Forall (λ r, is_Some (findPlayerById townWithThreeRequests
                                       (JoinRequest.playerId r)))
                 (ServerConversationArea.joinRequests (getArea townWithThreeRequests 0))).
  { replace (ServerConversationArea.joinRequests (getArea townWithThreeRequests 0))
      with [bobsRequest; JoinRequest.mk "request-cat" "cat" "lounge";
            JoinRequest.mk "request-dan" "dan" "lounge"] by (vm_compute; reflexivity).
    repeat constructor; vm_compute; eauto. }
  split; [exact (conj H1 (conj H2 (conj H3 (conj H4 H5))))|].
  destruct (getJoinRequests_lists_pending "lounge" 0 townWithThreeRequests 0 H1 H2 H3 H4 H5)
    as (entries & Hret & Hall).
  exists entries. split; [exact Hret|].
  apply Forall2_length in Hall. rewrite <- Hall. vm_compute. reflexivity.
Defined.

(** * Requests without a session *)

Lemma getSessionByToken_destroySession session t :
  getSessionByToken (PlayerSession.sessionToken session) (destroySession session t) = None.
Proof.
  unfold destroySession. cbv zeta.
  set (sp := PlayerSession.player session).
  set (t3 := emit (onPlayerDisconnected sp) (set_sessions _ (set_players _ t))).
  assert (Hs : _sessions match Player.activeConversationArea (getPlayer t3 sp) with
                         | Some conversation =>
                             removePlayerFromConversationArea sp conversation t3
                         | None => t3
                         end = _sessions t3).
  { destruct (Player.activeConversationArea _); [|done].
    apply (departed_removePlayerFromConversationArea t3 t3), departed_refl. }
  unfold getSessionByToken. rewrite Hs. apply find_filter_none.
Qed.

(** X25: a request whose town the store does not have, or whose session token
    no session of the town carries, is refused by the four handlers that
    write: [isOK] is false, a message is set, and the controller of the town
    is left as it was. *)
Theorem handlers_refuse_without_session playerText townController sessionToken
    area label status maxOccupants newId decision joinRequest :
  sessionPlayer townController sessionToken = None →
  let refused (r : ResponseEnvelope.t unit * option Town) :=
    ResponseEnvelope.isOK r.1 = false
    ∧ is_Some (ResponseEnvelope.message r.1)
    ∧ r.2 = townController in
  refused (conversationAreaCreateHandler townController sessionToken area)
  ∧ refused (conversationAreaUpdateHandler townController sessionToken label status maxOccupants)
  ∧ refused (joinRequestCreateHandler townController sessionToken label newId)
  ∧ refused (joinRequestUpdateHandler playerText townController sessionToken decision
               joinRequest).
Proof.
  intros Hnone. cbv zeta.
  unfold conversationAreaCreateHandler, conversationAreaUpdateHandler,
    joinRequestCreateHandler, joinRequestUpdateHandler. cbv zeta.
  destruct townController; rewrite ?Hnone; cbn; repeat split; by eexists.
Qed.

(** A town the store does not have. *)
Lemma handlers_refuse_without_session_witness :
  sessionPlayer None "session-ann" = None
  ∧ ResponseEnvelope.isOK (joinRequestCreateHandler None "session-ann" "lounge" "id").1 = false.
Proof.
  split; [reflexivity|].
  exact (proj1 (proj1 (proj2 (proj2
           (handlers_refuse_without_session (λ _, "player") None "session-ann"
              (lounge Public None) "lounge" None None "id" false bobsRequest eq_refl))))).
Defined.

(** X26: once a session is destroyed, its token finds no player: a request to
    list or to create join requests that carries the token is refused, and
    the town stays as [destroySession] left it. *)
Theorem handlers_refuse_destroyed_session session t label newId :
  let u := destroySession session t in
  let token := PlayerSession.sessionToken session in
  sessionPlayer (Some u) token = None
  ∧ (∃ e, joinRequestListHandler (Some u) token label = Returns e
          ∧ ResponseEnvelope.isOK e = false)
  ∧ ResponseEnvelope.isOK (joinRequestCreateHandler (Some u) token label newId).1 = false
  ∧ (joinRequestCreateHandler (Some u) token label newId).2 = Some u.
Proof.
  cbv zeta.
  assert (Hnone : sessionPlayer (Some (destroySession session t))
                    (PlayerSession.sessionToken session) = None).
  { unfold sessionPlayer. by rewrite getSessionByToken_destroySession. }
  split; [exact Hnone|].
  unfold joinRequestListHandler, joinRequestCreateHandler.
  rewrite Hnone. cbn. split; [by eexists|]. done.
Qed.

(** X27: for a request that carries the token of a session of the town,
    [joinRequestListHandler] answers with [isOK] true exactly when
    [getJoinRequests] returns a list for the session's player, be it empty,
    and then sends that list; it throws exactly when [getJoinRequests]
    does. *)
Theorem joinRequestListHandler_outcome t sessionToken label session :
  getSessionByToken sessionToken t = Some session →
  let player := PlayerSession.player session in
  (∀ e, joinRequestListHandler (Some t) sessionToken label = Returns e →
        (ResponseEnvelope.isOK e = true
         ↔ ∃ l, getJoinRequests label player t = Returns (Some l)
                ∧ ResponseEnvelope.response e = Some l))
  ∧ (joinRequestListHandler (Some t) sessionToken label = AssertionError
     ↔ getJoinRequests label player t = AssertionError).
Proof.
  intros Hs. cbv zeta. unfold joinRequestListHandler, sessionPlayer. rewrite Hs. cbn.
  destruct (getJoinRequests label (PlayerSession.player session) t) as [[l|]|].
  - split; [|done]. intros e [= <-]. cbn. split; [by exists l | done].
  - split; [|done]. intros e [= <-]. cbn. split; [done | by intros (l & ? & _)].
  - split; [done|]. done.
Qed.

(** ann asks for the requests of her lounge, where none is pending. *)
Lemma joinRequestListHandler_outcome_witness :
  getSessionByToken "session-ann" townWithLimit
    = Some (PlayerSession.mk 0 "session-ann" (Some "video-token"))
  ∧ joinRequestListHandler (Some townWithLimit) "session-ann" "lounge"
    = Returns (ResponseEnvelope.mk true None (Some [])).
Proof.
  assert (H : getSessionByToken "session-ann" townWithLimit
              = Some (PlayerSession.mk 0 "session-ann" (Some "video-token")))
    by (vm_compute; reflexivity).
  split; [exact H|].
  destruct (joinRequestListHandler_outcome townWithLimit "session-ann" "lounge" _ H)
    as [Hok _].
  assert (Hr : joinRequestListHandler (Some townWithLimit) "session-ann" "lounge"
               = Returns (ResponseEnvelope.mk true None (Some [])))
    by (vm_compute; reflexivity).
  destruct (proj1 (Hok _ Hr) eq_refl) as (l & _ & _). exact Hr.
Defined.

(** * The client's copy of an area *)

(** X28: an area received from the server and sent back by the client comes
    back with its label, occupants, box, status, capacity and pending
    requests, and with the text the client shows as its topic: an area whose
    topic is missing or empty comes back with the topic "(No topic)".  No
    listener is told anything while the copy is built. *)
Theorem toServerConversationArea_fromServerConversationArea serverArea :
  let area := ConversationArea.fromServerConversationArea serverArea in
  let back := ConversationArea.toServerConversationArea area in
  back = ServerConversationArea.mk
           (ServerConversationArea.label serverArea)
           (Some match orUndefined (ServerConversationArea.topic serverArea) with
                 | Some s => s
                 | None => "(No topic)"
                 end)
           (ServerConversationArea.occupantsByID serverArea)
           (ServerConversationArea.boundingBox serverArea)
           (ServerConversationArea.status serverArea)
           (ServerConversationArea.maxOccupants serverArea)
           (ServerConversationArea.joinRequests serverArea)
  ∧ (back = serverArea
     ↔ ∃ s, ServerConversationArea.topic serverArea = Some s ∧ s ≠ "")
  ∧ ConversationArea.told area = [].
Proof.
  cbv zeta.
  destruct serverArea as [l tp occ box st mx reqs].
  unfold ConversationArea.fromServerConversationArea, ConversationArea.constructor. cbv zeta.
  cbn [ServerConversationArea.label ServerConversationArea.topic
       ServerConversationArea.occupantsByID ServerConversationArea.boundingBox
       ServerConversationArea.status ServerConversationArea.maxOccupants
       ServerConversationArea.joinRequests].
  assert (Hbuilt :
    ConversationArea.set_joinRequests reqs
      (ConversationArea.set_occupants occ (ConversationArea.mk [] l tp box st mx [] [] []))
    = ConversationArea.mk occ l tp box st mx reqs [] []).
  { destruct occ as [|o occ], reqs as [|r reqs]; reflexivity. }
  rewrite Hbuilt. unfold ConversationArea.toServerConversationArea, ConversationArea.topic.
  cbn. split; [done|]. split; [|done]. split.
  - intros [= Htp]. destruct tp as [s|]; [|done]. cbn in Htp.
    exists s. split; [done|]. intros ->. done.
  - intros (s & [= ->] & Hs). cbn. destruct (String.eqb_spec s ""); [done|]. done.
Qed.

Lemma includes_all (old new : list string) :
  forallb (λ o, existsb (String.eqb o) new) old = true ↔ ∀ o, o ∈ old → o ∈ new.
Proof.
  rewrite forallb_forall. split.
  - intros H o Ho. apply list_elem_of_In in Ho. specialize (H o Ho).
    by apply includes_elem in H.
  - intros H o Ho. apply includes_elem, H. by apply list_elem_of_In.
Qed.

(** X29: when the occupants held have no duplicates, the setter [occupants]
    either stores the new list, after telling every listener of it, or
    leaves the area as it is, and it does the latter exactly when the new
    list is a reordering of the one held. *)
Theorem set_occupants_up_to_order newOccupants a :
  NoDup (ConversationArea.occupants a) →
  let b := ConversationArea.set_occupants newOccupants a in
  (newOccupants ≡ₚ ConversationArea.occupants a ∧ b = a)
  ∨ (¬ newOccupants ≡ₚ ConversationArea.occupants a
     ∧ ConversationArea.occupants b = newOccupants
     ∧ ConversationArea.told b
       = ConversationArea.told a
         ++ map (λ l, (l, ConversationArea.onOccupantsChange newOccupants))
              (ConversationArea._listeners a)).
Proof.
  intros Hnd. cbv zeta. unfold ConversationArea.set_occupants, ConversationArea.occupants in *.
  destruct (Nat.eqb_spec (length newOccupants) (length (ConversationArea._occupants a)))
    as [Hlen|Hlen]; cbn [negb orb].
  - destruct (forallb _ (ConversationArea._occupants a)) eqn:Hall; cbn [negb].
    + left. split; [|done]. symmetry.
      apply submseteq_length_Permutation; [|lia].
      apply NoDup_submseteq; [done|]. by apply includes_all.
    + right. split; [|done]. intros Hperm.
      apply not_true_iff_false in Hall. apply Hall, includes_all.
      intros o Ho. by rewrite Hperm.
  - right. split; [|done]. intros Hperm. by apply Permutation_length in Hperm.
Qed.

(** The client holds ann and bob; the server sends bob and ann. *)
Lemma set_occupants_up_to_order_witness :
  let a := ConversationArea.mk ["ann"; "bob"] "lounge" None (BoundingBox.mk 0 0 5 5)
             Public None [] [7] [] in
  NoDup (ConversationArea.occupants a)
  ∧ ConversationArea.set_occupants ["bob"; "ann"] a = a.
Proof.
  cbv zeta.
  set (a := ConversationArea.mk _ _ _ _ _ _ _ _ _).
  assert (H : NoDup (ConversationArea.occupants a)).
  { cbn. apply NoDup_cons. split; [|apply NoDup_singleton].
    intros Hin. apply list_elem_of_singleton in Hin. discriminate Hin. }
  split; [exact H|].
  destruct (set_occupants_up_to_order ["bob"; "ann"] a H) as [[_ Heq]|[Hno _]]; [exact Heq|].
  exfalso. apply Hno. cbn. apply Permutation_swap.
Defined.

(** With a duplicate held, a change of occupants is dropped. *)
Remark set_occupants_drops_change :
  let a := ConversationArea.mk ["ann"; "ann"] "lounge" None (BoundingBox.mk 0 0 5 5)
             Public None [] [7] [] in
  ConversationArea.set_occupants ["ann"; "bob"] a = a.
Proof. reflexivity. Qed.

(** * Walking away from a request *)

(** X30: a player who is in no area, has a pending request and reports a
    location without conversation label has the request withdrawn by
    [updatePlayerLocation], provided the request names an active area and
    the player: the request leaves the area's pending list, the player has
    no request, and the reported location is stored. *)
Theorem updatePlayerLocation_withdraws_request player location t r c :
  UserLocation.conversationLabel location = None →
  Player.activeConversationArea (getPlayer t player) = None →
  Player.activeJoinRequest (getPlayer t player) = Some r →
  findAreaByLabel t (JoinRequest.conversationLabel r) = Some c →
  findPlayerById t (JoinRequest.playerId r) = Some player →
  let u := updatePlayerLocation player location t in
  Player.activeJoinRequest (getPlayer u player) = None
  ∧ ServerConversationArea.joinRequests (getArea u c)
    = withoutRequest (JoinRequest.id r) (ServerConversationArea.joinRequests (getArea t c))
  ∧ Player.location (getPlayer u player) = location
  ∧ (∀ a, ServerConversationArea.occupantsByID (getArea u a)
          = ServerConversationArea.occupantsByID (getArea t a)).
Proof.
  intros Hlab Hprev Hreq Hc Hq. cbv zeta.
  cbv beta delta [updatePlayerLocation]. cbv zeta.
  rewrite Hlab. cbn [findAreaByOptLabel].
  rewrite (getPlayer_modPlayer_eq player (Player.set_location location) t).
  change (Player.activeConversationArea (Player.set_location location (getPlayer t player)))
    with (Player.activeConversationArea (getPlayer t player)).
  rewrite Hprev. cbn [refs_differ].
  set (t' := modPlayer player (Player.set_activeConversationArea None)
               (modPlayer player (Player.set_location location)
                  (modPlayer player (Player.set_location location) t))).
  assert (Hreq' : Player.activeJoinRequest (getPlayer t' player) = Some r).
  { subst t'. store_simpl. exact Hreq. }
  rewrite Hreq'. cbv iota.
  assert (Hc' : findAreaByLabel t' (JoinRequest.conversationLabel r) = Some c) by exact Hc.
  assert (Hq' : findPlayerById t' (JoinRequest.playerId r) = Some player).
  { rewrite <- Hq. apply findPlayerById_ext; [done|].
    intros p. subst t'. store_simpl. by repeat (case_decide; subst; try done). }
  unfold removeJoinRequest. rewrite Hc', Hq'. cbv zeta. cbn [snd].
  split; [|split; [|split; [|intros a]]]; store_simpl.
  - done.
  - done.
  - subst t'. by store_simpl.
  - by case_decide; subst.
Qed.

(** bob, whose request is pending at ann's lounge, walks off. *)
Lemma updatePlayerLocation_withdraws_request_witness :
  let location := UserLocation.mk 30 30 Front true None in
  (UserLocation.conversationLabel location = None
   ∧ Player.activeConversationArea (getPlayer townWithRequest 1) = None
   ∧ Player.activeJoinRequest (getPlayer townWithRequest 1) = Some bobsRequest
   ∧ findAreaByLabel townWithRequest (JoinRequest.conversationLabel bobsRequest) = Some 0
   ∧ findPlayerById townWithRequest (JoinRequest.playerId bobsRequest) = Some 1)
  ∧ ServerConversationArea.joinRequests
      (getArea (updatePlayerLocation 1 location townWithRequest) 0) = [].
Proof.
  cbv zeta.
  set (location := UserLocation.mk 30 30 Front true None).
  assert (H1 : UserLocation.conversationLabel location = None) by reflexivity.
  assert (H2 : Player.activeConversationArea (getPlayer townWithRequest 1) = None)
    by (vm_compute; reflexivity).
  assert (H3 : Player.activeJoinRequest (getPlayer townWithRequest 1) = Some bobsRequest)
    by (vm_compute; reflexivity).
  assert (H4 : findAreaByLabel townWithRequest (JoinRequest.conversationLabel bobsRequest)
               = Some 0) by (vm_compute; reflexivity).
  assert (H5 : findPlayerById townWithRequest (JoinRequest.playerId bobsRequest) = Some 1)
    by (vm_compute; reflexivity).
  split; [exact (conj H1 (conj H2 (conj H3 (conj H4 H5))))|].
  rewrite (proj1 (proj2 (updatePlayerLocation_withdraws_request 1 location townWithRequest
                           bobsRequest 0 H1 H2 H3 H4 H5))).
  vm_compute. reflexivity.
Defined.

(** * A join and the calls that run during its [await] *)

Lemma ks_emit t u e : _sessions u = _sessions t → _sessions (emit e u) = _sessions t.
Proof. done. Qed.

Lemma ks_modArea t u a f : _sessions u = _sessions t → _sessions (modArea a f u) = _sessions t.
Proof. done. Qed.

Lemma ks_modPlayer t u p f :
  _sessions u = _sessions t → _sessions (modPlayer p f u) = _sessions t.
Proof. done. Qed.

Lemma ks_set_conversationAreas t u l :
  _sessions u = _sessions t → _sessions (set_conversationAreas l u) = _sessions t.
Proof. done. Qed.

Lemma ks_fold_modPlayer t u f ps :
  _sessions u = _sessions t → _sessions (fold_left (λ t p, modPlayer p f t) ps u) = _sessions t.
Proof.
  revert u. induction ps as [|p ps IH]; intros u H; simpl; [done|]. by apply IH.
Qed.

Lemma ks_departed t u v : departed u v → _sessions u = _sessions t → _sessions v = _sessions t.
Proof. intros Hd <-. apply Hd. Qed.

Lemma ks_requests_only t u v :
  requests_only u v → _sessions u = _sessions t → _sessions v = _sessions t.
Proof. intros Hro <-. apply Hro. Qed.

Ltac sessions_step :=
  match goal with
  | H : _sessions ?u = _sessions ?t |- _sessions ?u = _sessions ?t => exact H
  | |- _sessions ?t = _sessions ?t => reflexivity
  | |- _sessions (mkTown _ _ _ _ _ _ _ _ _) = _ => reflexivity
  | |- _sessions (snd (_, _)) = _ => cbn [snd]
  | |- _sessions (emit _ _) = _ => apply ks_emit
  | |- _sessions (modArea _ _ _) = _ => apply ks_modArea
  | |- _sessions (modPlayer _ _ _) = _ => apply ks_modPlayer
  | |- _sessions (set_conversationAreas _ _) = _ => apply ks_set_conversationAreas
  | |- _sessions (fold_left _ _ _) = _ => apply ks_fold_modPlayer
  | |- _sessions (removePlayerFromConversationArea _ _ _) = _ =>
      eapply ks_departed; [apply departed_removePlayerFromConversationArea, departed_refl|]
  | |- _sessions (snd (removeJoinRequest _ _)) = _ =>
      eapply ks_requests_only; [apply removeJoinRequest_requests_only|]
  | |- _sessions (removeJoinRequests _ _) = _ =>
      eapply ks_requests_only; [apply removeJoinRequests_requests_only|]
  | |- _sessions (snd (acceptJoinRequest _ _)) = _ =>
      eapply ks_departed; [apply departed_acceptJoinRequest, departed_refl|]
  | f := _ : Town → Town |- _sessions (?g _) = _ => unify f g; unfold f
  | |- _sessions (match ?s with _ => _ end) = _ => destruct s
  | |- _sessions (snd (match ?s with _ => _ end)) = _ => destruct s
  end.

(** As for positions: one [let] at a time. *)
Ltac sessions_steps :=
  repeat first
    [ sessions_step
    | lazymatch goal with
      | |- _sessions (let x := ?v in @?b x) = _sessions ?t =>
          let y := fresh x in
          pose (y := v); change (_sessions (b y) = _sessions t); cbv beta;
          lazymatch type of y with
          | Town =>
              let H := fresh "H" in
              assert (H : _sessions y = _sessions t) by (subst y; sessions_steps);
              clearbody y
          | Town → Town => idtac
          | _ => clearbody y
          end
      | |- _sessions (snd (let x := ?v in @?b x)) = _sessions ?t =>
          let y := fresh x in
          pose (y := v); change (_sessions (snd (b y)) = _sessions t); cbv beta;
          lazymatch type of y with
          | Town =>
              let H := fresh "H" in
              assert (H : _sessions y = _sessions t) by (subst y; sessions_steps);
              clearbody y
          | Town → Town => idtac
          | _ => clearbody y
          end
      end ].

(** Only joining and leaving the town write the list of sessions. *)
Lemma sessions_exec c t :
  match c with
  | AddPlayer _ _ _ | DestroySession _ => True
  | _ => _sessions (exec c t) = _sessions t
  end.
Proof.
  destruct c; try done; cbn [exec].
  - cbv beta delta [updatePlayerLocation]. sessions_steps.
  - sessions_steps.
  - cbv beta delta [addConversationArea allocArea]. sessions_steps.
  - cbv beta delta [updateConversationArea]. sessions_steps.
  - cbv beta delta [updateJoinRequest]. sessions_steps.
  - cbv beta delta [createJoinRequest]. sessions_steps.
  - sessions_steps.
  - sessions_steps.
Qed.

Lemma sessions_destroySession session t :
  _sessions (destroySession session t)
  = List.filter (λ s, negb (String.eqb (PlayerSession.sessionToken s)
                             (PlayerSession.sessionToken session)))
      (_sessions t).
Proof.
  unfold destroySession. cbv zeta.
  set (sp := PlayerSession.player session).
  set (t3 := emit (onPlayerDisconnected sp) (set_sessions _ (set_players _ t))).
  change (List.filter _ (_sessions t)) with (_sessions t3).
  destruct (Player.activeConversationArea _); [|done].
  apply (departed_removePlayerFromConversationArea t3 t3), departed_refl.
Qed.

Lemma find_snoc_found {A} (f : A → bool) (l : list A) (x a : A) :
  find f l = Some a → find f (l ++ [x]) = Some a.
Proof.
  induction l as [|b l IH]; simpl; [done|]. destruct (f b); [done|]. exact IH.
Qed.

Lemma find_filter_other {A} (f g : A → bool) (l : list A) :
  (∀ a, f a = true → g a = true) → find f (List.filter g l) = find f l.
Proof.
  intros Hfg. induction l as [|a l IH]; simpl; [done|].
  destruct (f a) eqn:Hf.
  - rewrite (Hfg a Hf). simpl. by rewrite Hf.
  - destruct (g a); simpl; [by rewrite Hf|done].
Qed.

Lemma find_map_found {A} (f : A → bool) (h : A → A) (l : list A) (a : A) :
  (∀ a, f (h a) = f a) → find f l = Some a → find f (map h l) = Some (h a).
Proof.
  intros Hfh. induction l as [|b l IH]; simpl; [done|]. rewrite Hfh.
  destruct (f b); [by intros [= ->]|exact IH].
Qed.

Lemma sessions_addPlayer_begin newPlayer sessionToken t :
  _sessions (addPlayer_begin newPlayer sessionToken t).2
  = _sessions t ++ [PlayerSession.mk (nextPlayer t) sessionToken None].
Proof. done. Qed.

Lemma sessions_addPlayer getTokenForTown newPlayer sessionToken t :
  ∃ videoToken,
    _sessions (addPlayer getTokenForTown newPlayer sessionToken t).2
    = _sessions t ++ [PlayerSession.mk (nextPlayer t) sessionToken videoToken].
Proof.
  unfold addPlayer, allocPlayer. cbv zeta.
  destruct (getTokenForTown _ _) as [token|]; [|by exists None].
  exists (Some token). cbn.
  rewrite length_app, Nat.add_1_r. cbn [pred]. apply insert_last.
Qed.

(** The join stays in progress under every step that does not destroy a
    session of its token. *)
Lemma joining_step p sessionToken s t :
  undisturbed sessionToken s → joining p sessionToken t → joining p sessionToken (step s t).
Proof.
  intros Hs [videoToken Hfind]. unfold joining, getSessionByToken in *.
  destruct s as [c|newPlayer' sessionToken'|p' sessionToken' [token|]]; cbn [step].
  - pose proof (sessions_exec c t) as Hkeep.
    destruct c; try (rewrite Hkeep; by exists videoToken); cbn [exec].
    + destruct (sessions_addPlayer getTokenForTown newPlayer sessionToken0 t) as [v ->].
      exists videoToken. by apply find_snoc_found.
    + rewrite sessions_destroySession. exists videoToken.
      rewrite find_filter_other; [done|].
      intros a Ha. apply String.eqb_eq in Ha. apply negb_true_iff, String.eqb_neq.
      rewrite Ha. cbn in Hs. congruence.
  - rewrite sessions_addPlayer_begin. exists videoToken. by apply find_snoc_found.
  - cbn.
    erewrite find_map_found; [|by intros [q k v]; destruct (Nat.eqb _ _)|exact Hfind].
    destruct (Nat.eqb _ _); cbn; by eexists.
  - by exists videoToken.
Qed.

Lemma joining_runSteps p sessionToken steps t :
  Forall (undisturbed sessionToken) steps →
  joining p sessionToken t → joining p sessionToken (runSteps steps t).
Proof.
  intros Hsteps. revert t. induction Hsteps as [|s steps Hs _ IH]; intros t Hj; [done|].
  apply IH. by apply joining_step.
Qed.

Lemma reachable_runSteps steps t : reachable t → reachable (runSteps steps t).
Proof.
  revert t. induction steps as [|s steps IH]; intros t Ht; [done|].
  apply IH. destruct s; by constructor.
Qed.

(** X2: a join whose session token is not in use.  Up to the [await] the
    player and a session without video token are pushed, last in their lists.
    Whatever calls and halves of other joins run before the video token
    arrives, none of them destroying a session of this token, the call then
    resolves to the session with the player, the session token and the video
    token, [getSessionByToken] finds that session under its token, and
    [onPlayerJoined] is the last event. *)
Theorem addPlayer_resolved newPlayer sessionToken token steps t :
  getSessionByToken sessionToken t = None →
  Forall (undisturbed sessionToken) steps →
  let began := addPlayer_begin newPlayer sessionToken t in
  let r := addPlayer_resume began.1 sessionToken (Some token) (runSteps steps began.2) in
  let theSession := PlayerSession.mk (nextPlayer t) sessionToken (Some token) in
  began.1 = nextPlayer t
  ∧ getPlayer began.2 (nextPlayer t) = newPlayer
  ∧ _players began.2 = _players t ++ [nextPlayer t]
  ∧ _sessions began.2 = _sessions t ++ [PlayerSession.mk (nextPlayer t) sessionToken None]
  ∧ emitted began.2 = emitted t
  ∧ r.1 = Resolved theSession
  ∧ getSessionByToken sessionToken r.2 = Some theSession
  ∧ last (emitted r.2) = Some (onPlayerJoined (nextPlayer t)).
Proof.
  intros Hfresh Hsteps began r theSession.
  assert (Hbegan : joining (nextPlayer t) sessionToken began.2).
  { exists None. unfold getSessionByToken. subst began.
    rewrite sessions_addPlayer_begin. apply find_snoc_fresh; [exact Hfresh|].
    apply String.eqb_refl. }
  destruct (joining_runSteps _ _ _ _ Hsteps Hbegan) as [videoToken Hfind].
  split_and!; try done.
  - subst began. unfold getPlayer. cbn. apply lookup_total_insert_eq.
  - subst r. unfold getSessionByToken in *. cbn.
    erewrite find_map_found; [|by intros [q k v]; destruct (Nat.eqb _ _)|exact Hfind].
    cbn. by rewrite Nat.eqb_refl.
  - subst r. cbn. apply last_snoc.
Qed.

(** bob's join begins and ends while ann's waits for its video token. *)
Lemma addPlayer_resolved_witness :
  let steps := [BeginJoin (freshPlayer "bob") "session-bob";
                ResumeJoin 1 "session-bob" (Some "video-bob")] in
  let began := addPlayer_begin (freshPlayer "ann") "session-ann" (newTown "town") in
  let r := addPlayer_resume began.1 "session-ann" (Some "video-ann") (runSteps steps began.2) in
  getSessionByToken "session-ann" (newTown "town") = None
  ∧ Forall (undisturbed "session-ann") steps
  ∧ r.1 = Resolved (PlayerSession.mk 0 "session-ann" (Some "video-ann"))
  ∧ _sessions r.2 = [PlayerSession.mk 0 "session-ann" (Some "video-ann");
                     PlayerSession.mk 1 "session-bob" (Some "video-bob")]
  ∧ emitted r.2 = [onPlayerJoined 1; onPlayerJoined 0]
  ∧ getSessionByToken "session-ann" r.2
    = Some (PlayerSession.mk 0 "session-ann" (Some "video-ann")).
Proof.
  cbv zeta.
  assert (Hfresh : getSessionByToken "session-ann" (newTown "town") = None) by reflexivity.
  assert (Hsteps : Forall (undisturbed "session-ann")
                     [BeginJoin (freshPlayer "bob") "session-bob";
                      ResumeJoin 1 "session-bob" (Some "video-bob")]).
  { repeat constructor. }
  pose proof (addPlayer_resolved (freshPlayer "ann") "session-ann" "video-ann" _ _
                Hfresh Hsteps) as H.
  cbv zeta in H. destruct H as (_ & _ & _ & _ & _ & Hr & Hfind & _).
  split_and!; [exact Hfresh|exact Hsteps|exact Hr|vm_compute; reflexivity
              |vm_compute; reflexivity|exact Hfind].
Defined.

(** With nothing running during the [await], the two halves are [addPlayer]:
    the session of the new player is the last one then. *)
Lemma addPlayer_begin_resume getTokenForTown newPlayer sessionToken t :
  Forall (λ s, PlayerSession.player s ≠ nextPlayer t) (_sessions t) →
  let began := addPlayer_begin newPlayer sessionToken t in
  addPlayer getTokenForTown newPlayer sessionToken t
  = addPlayer_resume began.1 sessionToken
      (getTokenForTown (_coveyTownID t) (Player.id newPlayer)) began.2.
Proof.
  intros Hold. cbv zeta. unfold addPlayer, addPlayer_begin, allocPlayer. cbv zeta.
  cbn [fst snd]. unfold getPlayer. cbn. rewrite lookup_total_insert_eq.
  destruct (getTokenForTown _ _) as [token|]; [|done]. cbn.
  do 2 f_equal. unfold set_sessions. cbn. f_equal.
  rewrite length_app, Nat.add_1_r. cbn [pred]. rewrite insert_last, map_app. cbn.
  rewrite Nat.eqb_refl. f_equal.
  induction Hold as [|s l Hs _ IH]; [done|]. cbn.
  apply Nat.eqb_neq in Hs. rewrite Hs. by rewrite <- IH.
Qed.

(** A session destroyed during the [await] stays destroyed: ann's socket
    disconnects before her video token arrives; the join still resolves and
    announces her, after her disconnection, but no session is found under
    her token and she is no player of the town. *)
Remark addPlayer_destroyed_meanwhile :
  let began := addPlayer_begin (freshPlayer "ann") "session-ann" (newTown "town") in
  let steps := [Call (DestroySession (PlayerSession.mk 0 "session-ann" None))] in
  let r := addPlayer_resume began.1 "session-ann" (Some "video-ann") (runSteps steps began.2) in
  ¬ Forall (undisturbed "session-ann") steps
  ∧ r.1 = Resolved (PlayerSession.mk 0 "session-ann" (Some "video-ann"))
  ∧ getSessionByToken "session-ann" r.2 = None
  ∧ _players r.2 = []
  ∧ emitted r.2 = [onPlayerDisconnected 0; onPlayerJoined 0].
Proof.
  cbv zeta. split.
  - intros H. apply Forall_cons in H as [H _]. by apply H.
  - vm_compute. repeat split.
Qed.
